(** * dagster-tableau: the workspace resource and its REST client

    A shallow embedding of [dagster_tableau/resources.py]:
    [BaseTableauClient] (sign-in, sign-out, the two cached fetches),
    [BaseTableauWorkspace.get_client], [fetch_tableau_workspace_data] and
    [build_asset_specs], followed by the properties of the snapshot they
    build and of the session they open and close.  The translator the
    resource hands the snapshot to, [DagsterTableauTranslator] of
    [dagster_tableau/translator.py], is modelled from the specification.

    Payloads are the JSON values [response.json()] returns.  Python
    exceptions are an explicit error result, the client object and the
    requests put on the wire are explicit state. *)

From Stdlib Require Import ZArith List String Ascii Bool Lia.
Import ListNotations.
Local Open Scope string_scope.
Local Open Scope list_scope.

Set Implicit Arguments.
Set Warnings "-register-all".

(** ** Python values and the operations the code applies to them *)

Module Py.

(** What [response.json()] yields: None, bool, int, str, list, dict.
    Numbers are the integers; a dict keeps its items in insertion order
    and [JObj] lists them with pairwise distinct keys. *)
Inductive json : Type :=
| JNull
| JBool (b : bool)
| JNum (n : Z)
| JStr (s : string)
| JArr (items : list json)
| JObj (fields : list (string * json)).

(** The exceptions the code can raise. [HTTPError] stands for whatever
    [requests.request] or [raise_for_status] raises, [JSONDecodeError]
    for a body that [response.json()] rejects. *)
Inductive exn : Type :=
| KeyError
| IndexError
| TypeError
| AttributeError
| HTTPError
| JSONDecodeError.

Inductive result (A : Type) : Type :=
| Ok (a : A)
| Raise (e : exn).
Arguments Ok {A} a.
Arguments Raise {A} e.

Definition rbind {A B} (r : result A) (k : A -> result B) : result B :=
  match r with
  | Ok a => k a
  | Raise e => Raise e
  end.


(** [bool(v)]: what [if v:] and [v and ...] test. *)
Definition truthy (v : json) : bool :=
  match v with
  | JNull => false
  | JBool b => b
  | JNum n => negb (Z.eqb n 0)
  | JStr s => negb (String.eqb s "")
  | JArr items => match items with [] => false | _ :: _ => true end
  | JObj fields => match fields with [] => false | _ :: _ => true end
  end.

(** Dict keys. Python compares keys with [==] after hashing, and
    [True == 1], [False == 0]: a bool and the int it equals are one key.
    Lists and dicts are unhashable. *)
Inductive key : Type :=
| KNone
| KInt (n : Z)
| KStr (s : string).

Definition key_eq_dec (a b : key) : {a = b} + {a <> b}.
Proof.
  decide equality; [apply Z.eq_dec | apply string_dec].
Defined.

Definition py_hash (v : json) : result key :=
  match v with
  | JNull => Ok KNone
  | JBool b => Ok (KInt (Z.b2z b))
  | JNum n => Ok (KInt n)
  | JStr s => Ok (KStr s)
  | JArr _ | JObj _ => Raise TypeError
  end.

(** Insertion-ordered dicts, as CPython keeps them. *)
Section OrderedDict.
Variables K V : Type.
Variable K_eq_dec : forall a b : K, {a = b} + {a <> b}.

Definition dict : Type := list (K * V).

Fixpoint dict_get (k : K) (d : dict) : option V :=
  match d with
  | [] => None
  | (k', v) :: d' => if K_eq_dec k k' then Some v else dict_get k d'
  end.

(** [k in d] *)
Definition dict_mem (k : K) (d : dict) : bool :=
  match dict_get k d with Some _ => true | None => false end.

(** [d[k] = v]: an existing key keeps its position and takes the new
    value, a new key goes last. *)
Fixpoint dict_set (k : K) (v : V) (d : dict) : dict :=
  match d with
  | [] => [(k, v)]
  | (k', v') :: d' =>
      if K_eq_dec k k' then (k', v) :: d' else (k', v') :: dict_set k v d'
  end.

Definition dict_keys (d : dict) : list K := map fst d.

(** [d.values()] *)
Definition dict_values (d : dict) : list V := map snd d.

(** The key order of a dict under insertion. *)
Definition add_key (k : K) (ks : list K) : list K :=
  if in_dec K_eq_dec k ks then ks else ks ++ [k].

(** The distinct elements of a list in the order of their first
    occurrence. *)
Fixpoint first_seen (l : list K) : list K :=
  match l with
  | [] => []
  | k :: l' =>
      k :: filter (fun k' => if K_eq_dec k' k then false else true) (first_seen l')
  end.

Definition fresh_for (seen : list K) (k : K) : bool :=
  if in_dec K_eq_dec k seen then false else true.

End OrderedDict.

(** [v[name]] with a string subscript. *)
Definition getitem (v : json) (name : string) : result json :=
  match v with
  | JObj fields =>
      match dict_get string_dec name fields with
      | Some x => Ok x
      | None => Raise KeyError
      end
  | _ => Raise TypeError
  end.

Definition chars (s : string) : list json :=
  map (fun c => JStr (String c EmptyString)) (list_ascii_of_string s).

(** [v[0]]. A dict decoded from JSON has only string keys. *)
Definition getitem0 (v : json) : result json :=
  match v with
  | JArr (x :: _) => Ok x
  | JArr [] => Raise IndexError
  | JStr s => match chars s with x :: _ => Ok x | [] => Raise IndexError end
  | JObj _ => Raise KeyError
  | _ => Raise TypeError
  end.

(** [v.get(name, default)]: only a dict has the method. *)
Definition get (v : json) (name : string) (default : json) : result json :=
  match v with
  | JObj fields =>
      match dict_get string_dec name fields with
      | Some x => Ok x
      | None => Ok default
      end
  | _ => Raise AttributeError
  end.

(** What [for x in v] runs over: the items of a list, the keys of a
    dict, the characters of a string. *)
Definition iter (v : json) : result (list json) :=
  match v with
  | JArr items => Ok items
  | JObj fields => Ok (map (fun kv => JStr (fst kv)) fields)
  | JStr s => Ok (chars s)
  | _ => Raise TypeError
  end.

(** [{**v, name: x}] *)
Definition unpack_with (v : json) (name : string) (x : json) : result json :=
  match v with
  | JObj fields => Ok (JObj (dict_set string_dec name x fields))
  | _ => Raise TypeError
  end.

(** A [for] loop whose body updates the loop state or raises. *)
Fixpoint for_each {A S} (body : A -> S -> result S) (l : list A) (s : S)
  : result S :=
  match l with
  | [] => Ok s
  | a :: l' => rbind (body a s) (for_each body l')
  end.

(** A list comprehension whose element expression may raise. *)
Fixpoint comprehension {A B} (f : A -> result B) (l : list A)
  : result (list B) :=
  match l with
  | [] => Ok []
  | a :: l' =>
      rbind (f a) (fun b => rbind (comprehension f l') (fun bs => Ok (b :: bs)))
  end.

End Py.
Import Py.

Declare Scope py_scope.
Notation "'let?' x ':=' e 'in' k" := (rbind e (fun x => k))
  (at level 10, x name, e at level 100, k at level 200)
  : py_scope.
Local Open Scope py_scope.

(** ** The data the translator module declares *)

Module translator.

Inductive TableauContentType : Type :=
| WORKBOOK
| VIEW
| DATA_SOURCE.

(** Modelled from the spec: [TableauContentData] and
    [TableauWorkspaceData] are declared in [dagster_tableau/translator.py];
    a content value is "a semi-structured property bag plus a content-type
    tag", the workspace data "an aggregate of three mappings" keyed by the
    external id, next to the site name. Building one checks nothing. *)
Record TableauContentData : Type := {
  content_type : TableauContentType;
  properties : json
}.

Definition contents : Type := dict key TableauContentData.

Record TableauWorkspaceData : Type := {
  site_name : string;
  workbooks_by_id : contents;
  views_by_id : contents;
  data_sources_by_id : contents
}.

End translator.
Import translator.

(** ** BaseTableauClient *)

(** The request [_make_request] hands to [requests.request]. The two
    subclasses differ in the base URLs only, so a request is named by its
    endpoint: the path below [rest_api_base_url], or the metadata API with
    the [luid] variable of the GraphQL query. The site id is the value
    [_with_site_id] formats into the path. The JWT of the sign-in body is
    left out. *)
Inductive endpoint : Type :=
| auth_signin
| auth_signout
| site_workbooks (site_id : json)
| metadata_graphql (luid : json).

Inductive http_method : Type := GET | POST.

Record request : Type := {
  method : http_method;
  url : endpoint;
  x_tableau_auth : option json
}.

(** Modelled from the spec: [cached_method], defined in
    [dagster/_utils/cached_method.py], is "a request-scoped cache keyed by
    call-arguments", "an explicit memoization map owned by the Fetcher
    instance". So the results of the two decorated fetches live on the
    instance, next to the attributes [__init__] sets: [get_workbooks]
    takes no argument and has one slot, [get_workbook] has one slot per
    workbook id. The decorator knows nothing of sessions; what a sign-out
    does to the slots is for [sign_out] to say. *)
Record BaseTableauClient : Type := {
  _api_token : json;
  _site_id : json;
  get_workbooks_cache : option json;
  get_workbook_cache : dict key json
}.

(** [__init__] *)
Definition new_client : BaseTableauClient :=
  {| _api_token := JNull;
     _site_id := JNull;
     get_workbooks_cache := None;
     get_workbook_cache := [] |}.

(** A client at work: the object and the requests sent so far, oldest
    first. *)
Record session : Type := {
  self : BaseTableauClient;
  sent : list request
}.

(** A method of the client: it returns or raises, and leaves the object
    and the wire in a new state either way. *)
Definition M (A : Type) : Type := session -> result A * session.

Definition ret {A} (a : A) : M A := fun s => (Ok a, s).

Definition bind {A B} (c : M A) (k : A -> M B) : M B :=
  fun s =>
    match c s with
    | (Ok a, s') => k a s'
    | (Raise e, s') => (Raise e, s')
    end.

Definition lift {A} (r : result A) : M A := fun s => (r, s).

Definition read {A} (f : BaseTableauClient -> A) : M A :=
  fun s => (Ok (f (self s)), s).

Definition update (f : BaseTableauClient -> BaseTableauClient) : M unit :=
  fun s => (Ok tt, {| self := f (self s); sent := sent s |}).

Declare Scope client_scope.
Delimit Scope client_scope with client.
Notation "x <- c ;; k" := (bind c (fun x => k))
  (at level 61, c at next level, right associativity) : client_scope.
Notation "c ;; k" := (bind c (fun _ => k))
  (at level 61, right associativity) : client_scope.
Local Open Scope client_scope.

(** A loop of the client whose body may send requests. *)
Fixpoint for_each_M {A S} (body : A -> S -> M S) (l : list A) (s : S) : M S :=
  match l with
  | [] => ret s
  | a :: l' => s' <- body a s ;; for_each_M body l' s'
  end.

Section Client.

(** The remote site. It answers a request knowing the requests that came
    before; the outer result is [requests.request] followed by
    [raise_for_status], the inner one is [response.json()]. *)
Variable server : list request -> request -> result (result json).

Definition _make_request (ep : endpoint) (meth : http_method)
  (with_auth_header : bool) : M (result json) :=
  fun s =>
    let headers :=
      if with_auth_header then Some (_api_token (self s)) else None in
    let request_args :=
      {| method := meth; url := ep; x_tableau_auth := headers |} in
    (server (sent s) request_args,
     {| self := self s; sent := sent s ++ [request_args] |}).

Definition _fetch_json (ep : endpoint) (meth : http_method)
  (with_auth_header : bool) : M json :=
  response <- _make_request ep meth with_auth_header ;;
  lift response.

Definition get_workbooks : M json :=
  cached <- read get_workbooks_cache ;;
  match cached with
  | Some result => ret result
  | None =>
      site_id <- read _site_id ;;
      result <- _fetch_json (site_workbooks site_id) GET true ;;
      update (fun c =>
        {| _api_token := _api_token c;
           _site_id := _site_id c;
           get_workbooks_cache := Some result;
           get_workbook_cache := get_workbook_cache c |}) ;;
      ret result
  end.

Definition get_workbook (workbook_id : json) : M json :=
  k <- lift (py_hash workbook_id) ;;
  cache <- read get_workbook_cache ;;
  match dict_get key_eq_dec k cache with
  | Some result => ret result
  | None =>
      result <- _fetch_json (metadata_graphql workbook_id) POST true ;;
      update (fun c =>
        {| _api_token := _api_token c;
           _site_id := _site_id c;
           get_workbooks_cache := get_workbooks_cache c;
           get_workbook_cache := dict_set key_eq_dec k result (get_workbook_cache c) |}) ;;
      ret result
  end.

Definition sign_in : M json :=
  response <- _fetch_json auth_signin POST false ;;
  credentials <- lift (getitem response "credentials") ;;
  token <- lift (getitem credentials "token") ;;
  update (fun c =>
    {| _api_token := token;
       _site_id := _site_id c;
       get_workbooks_cache := get_workbooks_cache c;
       get_workbook_cache := get_workbook_cache c |}) ;;
  credentials' <- lift (getitem response "credentials") ;;
  site <- lift (getitem credentials' "site") ;;
  id <- lift (getitem site "id") ;;
  update (fun c =>
    {| _api_token := _api_token c;
       _site_id := id;
       get_workbooks_cache := get_workbooks_cache c;
       get_workbook_cache := get_workbook_cache c |}) ;;
  ret response.

Definition sign_out : M unit :=
  _make_request auth_signout POST true ;;
  update (fun c =>
    {| _api_token := JNull;
       _site_id := _site_id c;
       get_workbooks_cache := get_workbooks_cache c;
       get_workbook_cache := get_workbook_cache c |}) ;;
  update (fun c =>
    {| _api_token := _api_token c;
       _site_id := JNull;
       get_workbooks_cache := get_workbooks_cache c;
       get_workbook_cache := get_workbook_cache c |}).

End Client.

(** ** BaseTableauWorkspace *)

(** The resource: its configuration (of which the code reads the site
    name; the credentials only reach the sign-in body) and the private
    [_client], None until [build_client] has run. *)
Record BaseTableauWorkspace : Type := {
  site_name : string;
  _client : option BaseTableauClient
}.

(** [build_client] of the two subclasses: a new client object. *)
Definition build_client (ws : BaseTableauWorkspace) : BaseTableauWorkspace :=
  {| site_name := site_name ws; _client := Some new_client |}.

(** The three dicts the fetch loop fills. *)
Record snapshot : Type := {
  workbooks : contents;
  views : contents;
  data_sources : contents
}.

Definition empty_snapshot : snapshot :=
  {| workbooks := []; views := []; data_sources := [] |}.

(** Lines 319-324: one published data source under an embedded one. *)
Definition scan_published_data_source (published_data_source_data : json)
  (data_sources_by_id : contents) : result contents :=
  let? data_source_id := getitem published_data_source_data "luid" in
  if truthy data_source_id then
    let? k := py_hash data_source_id in
    if dict_mem key_eq_dec k data_sources_by_id then Ok data_sources_by_id
    else
      Ok (dict_set key_eq_dec k
            {| content_type := DATA_SOURCE;
               properties := published_data_source_data |}
            data_sources_by_id)
  else Ok data_sources_by_id.

(** Lines 316-324: the inner loop over one embedded data source. *)
Definition scan_embedded_data_source (embedded_data_source_data : json)
  (data_sources_by_id : contents) : result contents :=
  let? published :=
    get embedded_data_source_data "parentPublishedDatasources" (JArr []) in
  let? items := iter published in
  for_each scan_published_data_source items data_sources_by_id.

(** Lines 308-313: the view is recorded under its luid, when it has one. *)
Definition record_view (workbook_id view_data : json) (views_by_id : contents)
  : result contents :=
  let? view_id := getitem view_data "luid" in
  if truthy view_id then
    let? augmented_view_data :=
      unpack_with view_data "workbook" (JObj [("luid", workbook_id)]) in
    let? k := py_hash view_id in
    Ok (dict_set key_eq_dec k
          {| content_type := VIEW; properties := augmented_view_data |}
          views_by_id)
  else Ok views_by_id.

(** Lines 307-324: the body of the loop over the sheets of a workbook. *)
Definition scan_view (workbook_id view_data : json) (acc : snapshot)
  : result snapshot :=
  let? views_by_id := record_view workbook_id view_data (views acc) in
  let? embedded := get view_data "parentEmbeddedDatasources" (JArr []) in
  let? items := iter embedded in
  let? data_sources_by_id :=
    for_each scan_embedded_data_source items (data_sources acc) in
  Ok {| workbooks := workbooks acc;
        views := views_by_id;
        data_sources := data_sources_by_id |}.

(** Lines 302-324 after the fetch: what the loop over the workbook ids
    does with the answer of [get_workbook]. *)
Definition scan_workbook (workbook_id response : json) (acc : snapshot)
  : result snapshot :=
  let? data := getitem response "data" in
  let? found := getitem data "workbooks" in
  let? workbook_data := getitem0 found in
  let? k := py_hash workbook_id in
  let acc' :=
    {| workbooks :=
         dict_set key_eq_dec k
           {| content_type := WORKBOOK; properties := workbook_data |}
           (workbooks acc);
       views := views acc;
       data_sources := data_sources acc |} in
  let? sheets := getitem workbook_data "sheets" in
  let? items := iter sheets in
  for_each (scan_view workbook_id) items acc'.

Section Workspace.

Variable server : list request -> request -> result (result json).

(** Lines 295-324: the body of the [with] block. *)
Definition fetch_body : M snapshot :=
  response <- get_workbooks server ;;
  workbooks_data <- lift (getitem response "workbooks") ;;
  listed <- lift (getitem workbooks_data "workbook") ;;
  items <- lift (iter listed) ;;
  workbook_ids <- lift (comprehension (fun workbook => getitem workbook "id") items) ;;
  for_each_M
    (fun workbook_id acc =>
       response <- get_workbook server workbook_id ;;
       lift (scan_workbook workbook_id response acc))
    workbook_ids empty_snapshot.

(** [with self.get_client() as client: body]. [contextmanager] runs the
    generator up to its [yield], then the body. When the body returns, the
    generator is resumed and runs to its end; when the body raises, the
    exception is thrown into the generator at the [yield], where nothing
    catches it, and leaves the [with] statement. *)
Definition with_client {A} (body : M A) : M A :=
  sign_in server ;;
  a <- body ;;
  sign_out server ;;
  ret a.

(** [get_client], entered by a [with] statement around [body]. A call of
    the resource runs on the resource object and the requests sent so
    far; the client is built on first use and kept on the resource. *)
Definition get_client {A} (body : M A) (ws : BaseTableauWorkspace)
  (wire : list request) : result A * BaseTableauWorkspace * list request :=
  let ws1 := match _client ws with Some _ => ws | None => build_client ws end in
  let client := match _client ws1 with Some c => c | None => new_client end in
  let '(r, s) := with_client body {| self := client; sent := wire |} in
  (r, {| site_name := site_name ws1; _client := Some (self s) |}, sent s).

(** Lines 294-331: the snapshot is built inside the [with] block and
    wrapped up after it. *)
Definition fetch_tableau_workspace_data (ws : BaseTableauWorkspace)
  (wire : list request)
  : result TableauWorkspaceData * BaseTableauWorkspace * list request :=
  let '(r, ws', wire') := get_client fetch_body ws wire in
  (let? found := r in
   Ok {| translator.site_name := site_name ws;
         workbooks_by_id := workbooks found;
         views_by_id := views found;
         data_sources_by_id := data_sources found |},
   ws', wire').

(** The translator class the caller passes: [get_asset_spec] of an
    instance built on the workspace data. *)
Variable AssetSpec : Type.
Variable get_asset_spec :
  TableauWorkspaceData -> TableauContentData -> result AssetSpec.

(** Lines 349-356: the translation of a fetched snapshot. *)
Definition translate (workspace_data : TableauWorkspaceData)
  : result (list AssetSpec) :=
  let all_content :=
    dict_values (views_by_id workspace_data)
    ++ dict_values (data_sources_by_id workspace_data) in
  comprehension (get_asset_spec workspace_data) all_content.

Definition build_asset_specs (ws : BaseTableauWorkspace) (wire : list request)
  : result (list AssetSpec) * BaseTableauWorkspace * list request :=
  let '(r, ws', wire') := fetch_tableau_workspace_data ws wire in
  (let? workspace_data := r in translate workspace_data, ws', wire').

End Workspace.

(** ** The snapshot and the session, read off the code *)

(** The loop over the workbook ids, given the answers [get_workbook]
    returned for them, in fetch order. *)
Definition scan_workbooks (fetched : list (json * json)) (acc : snapshot)
  : result snapshot :=
  for_each (fun p acc => scan_workbook (fst p) (snd p) acc) fetched acc.

Definition value_or {A} (r : result A) (default : A) : A :=
  match r with Ok a => a | Raise _ => default end.

(** The sheets of the workbook an answer of [get_workbook] describes. *)
Definition sheets_of (response : json) : list json :=
  value_or
    (let? data := getitem response "data" in
     let? found := getitem data "workbooks" in
     let? workbook_data := getitem0 found in
     let? sheets := getitem workbook_data "sheets" in
     iter sheets)
    [].

Definition embedded_of (view_data : json) : list json :=
  value_or
    (let? embedded := get view_data "parentEmbeddedDatasources" (JArr []) in
     iter embedded)
    [].

Definition published_of (embedded_data_source_data : json) : list json :=
  value_or
    (let? published :=
       get embedded_data_source_data "parentPublishedDatasources" (JArr []) in
     iter published)
    [].

(** The published data sources a view mentions, in payload order. *)
Definition mentions_of (view_data : json) : list json :=
  flat_map published_of (embedded_of view_data).

(** Every sheet of every fetched workbook with the id of its workbook, and
    every mention of a published data source, in traversal order. *)
Definition all_views (fetched : list (json * json)) : list (json * json) :=
  flat_map (fun p => map (pair (fst p)) (sheets_of (snd p))) fetched.

Definition all_mentions (fetched : list (json * json)) : list json :=
  flat_map (fun wv => mentions_of (snd wv)) (all_views fetched).

(** The key an entity is recorded under: its luid, when the luid is
    truthy. *)
Definition luid_key (x : json) : option key :=
  match getitem x "luid" with
  | Ok id =>
      if truthy id then
        match py_hash id with Ok k => Some k | Raise _ => None end
      else None
  | Raise _ => None
  end.

Definition luid_keys (l : list json) : list key :=
  flat_map (fun x => match luid_key x with Some k => [k] | None => [] end) l.

(** What one mention does to [data_sources_by_id]. *)
Definition register (data_sources_by_id : contents) (mention : json) : contents :=
  match luid_key mention with
  | Some k =>
      if dict_mem key_eq_dec k data_sources_by_id then data_sources_by_id
      else
        dict_set key_eq_dec k
          {| content_type := DATA_SOURCE; properties := mention |}
          data_sources_by_id
  | None => data_sources_by_id
  end.

(** The property bag stored for a view. *)
Definition augment (workbook_id view_data : json) : json :=
  value_or (unpack_with view_data "workbook" (JObj [("luid", workbook_id)])) JNull.

(** What one sheet does to [views_by_id]. *)
Definition record (views_by_id : contents) (wv : json * json) : contents :=
  match luid_key (snd wv) with
  | Some k =>
      dict_set key_eq_dec k
        {| content_type := VIEW; properties := augment (fst wv) (snd wv) |}
        views_by_id
  | None => views_by_id
  end.

Definition data_source (mention : json) : TableauContentData :=
  {| content_type := DATA_SOURCE; properties := mention |}.

Definition has_key (k : key) (x : json) : bool :=
  match luid_key x with
  | Some k' => if key_eq_dec k' k then true else false
  | None => false
  end.

Definition caches (c : BaseTableauClient) : option json * dict key json :=
  (get_workbooks_cache c, get_workbook_cache c).

(** After a fetch the answer is on the instance, and what was there
    before still is. *)
Definition cache_grows (c c' : BaseTableauClient) : Prop :=
  (forall answer, get_workbooks_cache c = Some answer ->
                  get_workbooks_cache c' = Some answer) /\
  (forall k answer, dict_get key_eq_dec k (get_workbook_cache c) = Some answer ->
                    dict_get key_eq_dec k (get_workbook_cache c') = Some answer).

(** The workbook ids of a listing, as lines 295-296 read them. *)
Definition listed_ids (listing : json) : result (list json) :=
  let? workbooks_data := getitem listing "workbooks" in
  let? listed := getitem workbooks_data "workbook" in
  let? items := iter listed in
  comprehension (fun workbook => getitem workbook "id") items.

Definition workbook_ids_of (listing : json) : list json :=
  value_or (listed_ids listing) [].

Definition answer_for (c : BaseTableauClient) (workbook_id : json)
  : list (json * json) :=
  match py_hash workbook_id with
  | Ok k =>
      match dict_get key_eq_dec k (get_workbook_cache c) with
      | Some answer => [(workbook_id, answer)]
      | None => []
      end
  | Raise _ => []
  end.

(** The answers a client holds: for every workbook of the listing, in the
    order of the listing, the answer of [get_workbook]. *)
Definition answers (c : BaseTableauClient) : list (json * json) :=
  match get_workbooks_cache c with
  | Some listing => flat_map (answer_for c) (workbook_ids_of listing)
  | None => []
  end.

Definition fetched (ws : BaseTableauWorkspace) : list (json * json) :=
  match _client ws with
  | Some c => answers c
  | None => []
  end.

Definition snapshot_of (d : TableauWorkspaceData) : snapshot :=
  {| workbooks := workbooks_by_id d;
     views := views_by_id d;
     data_sources := data_sources_by_id d |}.

(** The ids the deduplication would run over if only a null luid were
    passed over. *)
Definition non_null_key (x : json) : option key :=
  match getitem x "luid" with
  | Ok JNull => None
  | Ok luid => match py_hash luid with Ok k => Some k | Raise _ => None end
  | Raise _ => None
  end.

Definition non_null_keys (l : list json) : list key :=
  flat_map (fun x => match non_null_key x with Some k => [k] | None => [] end) l.

(** A sheet the scan can pass: its luid can be read, and hashed when it
    is truthy. *)
Definition passable (view_data : json) : Prop :=
  exists luid,
    getitem view_data "luid" = Ok luid /\
    (truthy luid = true -> exists k, py_hash luid = Ok k).

(** A sheet all of whose published data sources, if it has any, come with
    a null luid. *)
Definition only_null_sources (view_data : json) : Prop :=
  exists embedded,
    (let? e := get view_data "parentEmbeddedDatasources" (JArr []) in iter e)
    = Ok embedded /\
    Forall (fun e =>
              exists published,
                (let? p := get e "parentPublishedDatasources" (JArr []) in iter p)
                = Ok published /\
                Forall (fun m => getitem m "luid" = Ok JNull) published)
      embedded.

(** The client a call of the resource works with. *)
Definition client_of (ws : BaseTableauWorkspace) : BaseTableauClient :=
  match _client ws with Some c => c | None => new_client end.

Definition sign_in_request : request :=
  {| method := POST; url := auth_signin; x_tableau_auth := None |}.

Definition sign_out_request (token : json) : request :=
  {| method := POST; url := auth_signout; x_tableau_auth := Some token |}.

(** A client that holds a listing and an answer for every workbook of
    it. *)
Definition complete (c : BaseTableauClient) : Prop :=
  exists listing ids,
    get_workbooks_cache c = Some listing /\
    listed_ids listing = Ok ids /\
    Forall (fun workbook_id => answer_for c workbook_id <> []) ids.

(** ** The base URLs, and further readings of a fetch *)

Definition TABLEAU_REST_API_VERSION : string := "3.23".

(** The two URL properties of [TableauCloudClient], as functions of its
    [pod_name]. *)
Module TableauCloudClient.

Definition rest_api_base_url (pod_name : string) : string :=
  ("https://" ++ pod_name ++ ".online.tableau.com/api/"
   ++ TABLEAU_REST_API_VERSION)%string.

Definition metadata_api_base_url (pod_name : string) : string :=
  ("https://" ++ pod_name ++ ".online.tableau.com/api/metadata/graphql")%string.

End TableauCloudClient.

(** The two URL properties of [TableauServerClient], as functions of its
    [server_name]. *)
Module TableauServerClient.

Definition rest_api_base_url (server_name : string) : string :=
  ("https://" ++ server_name ++ "/api/" ++ TABLEAU_REST_API_VERSION)%string.

Definition metadata_api_base_url (server_name : string) : string :=
  ("https://" ++ server_name ++ "/api/metadata/graphql")%string.

End TableauServerClient.

(** The requests of [get_workbooks] and [get_workbook]. *)
Definition listing_request (token site_id : json) : request :=
  {| method := GET; url := site_workbooks site_id; x_tableau_auth := Some token |}.

Definition query_request (token workbook_id : json) : request :=
  {| method := POST; url := metadata_graphql workbook_id;
     x_tableau_auth := Some token |}.

(** The workbook ids of a listing whose answer is not yet held, [held]
    being the keys held before the loop: every id misses at most once. *)
Fixpoint queried (held : list key) (ids : list json) : list json :=
  match ids with
  | [] => []
  | workbook_id :: rest =>
      match py_hash workbook_id with
      | Ok k =>
          if in_dec key_eq_dec k held then queried held rest
          else workbook_id :: queried (held ++ [k]) rest
      | Raise _ => []
      end
  end.

(** Lines 301-324: one turn of the loop over the workbook ids. *)
Definition fetch_workbook (server : list request -> request -> result (result json))
  (workbook_id : json) (acc : snapshot) : M snapshot :=
  response <- get_workbook server workbook_id ;;
  lift (scan_workbook workbook_id response acc).

(** [response["data"]["workbooks"][0]] *)
Definition first_workbook (response : json) : result json :=
  let? data := getitem response "data" in
  let? found := getitem data "workbooks" in
  getitem0 found.

Definition workbook_content (workbook_data : json) : TableauContentData :=
  {| content_type := WORKBOOK; properties := workbook_data |}.

Definition view_content (workbook_id view_data : json) : TableauContentData :=
  {| content_type := VIEW; properties := augment workbook_id view_data |}.

(** What one fetched workbook does to [workbooks_by_id]. *)
Definition file_workbook (workbooks_by_id : contents) (p : json * json)
  : contents :=
  match py_hash (fst p), first_workbook (snd p) with
  | Ok k, Ok workbook_data =>
      dict_set key_eq_dec k (workbook_content workbook_data) workbooks_by_id
  | _, _ => workbooks_by_id
  end.

Definition hash_keys (ids : list json) : list key :=
  flat_map (fun x => match py_hash x with Ok k => [k] | Raise _ => [] end) ids.

(** The payloads the scan goes through without raising. *)
Definition well_formed_embedded (embedded_data_source_data : json) : Prop :=
  exists published,
    (let? p := get embedded_data_source_data "parentPublishedDatasources" (JArr [])
     in iter p)
    = Ok published /\
    Forall passable published.

Definition well_formed_sheet (view_data : json) : Prop :=
  passable view_data /\
  exists embedded,
    (let? e := get view_data "parentEmbeddedDatasources" (JArr []) in iter e)
    = Ok embedded /\
    Forall well_formed_embedded embedded.

Definition well_formed_answer (p : json * json) : Prop :=
  (exists k, py_hash (fst p) = Ok k) /\
  exists workbook_data sheets,
    first_workbook (snd p) = Ok workbook_data /\
    (let? s := getitem workbook_data "sheets" in iter s) = Ok sheets /\
    Forall well_formed_sheet sheets.

(** ** DagsterTableauTranslator *)

Module DagsterTableauTranslator.

(** Modelled from the spec: the class [DagsterTableauTranslator] is
    declared in [dagster_tableau/translator.py]. The key of a descriptor
    is "derived deterministically from content-type + external id +
    container id". *)
Record AssetKey : Type := {
  kind : TableauContentType;
  external_id : key;
  container_id : option key
}.

Definition AssetKey_eq_dec (a b : AssetKey) : {a = b} + {a <> b}.
Proof.
  decide equality.
  - decide equality. apply key_eq_dec.
  - apply key_eq_dec.
  - decide equality.
Defined.

(** Modelled from the spec: the descriptor, [AssetSpec] in the code, is
    "a key, a set of zero or more dependency keys, and a property bag for
    downstream consumption". *)
Record AssetSpec : Type := {
  asset_key : AssetKey;
  deps : list AssetKey;
  metadata : json
}.

(** Modelled from the spec: the key of a published data source, from
    its content type and external id; a sub-reference sits in no
    container. *)
Definition data_source_key (k : key) : AssetKey :=
  {| kind := DATA_SOURCE; external_id := k; container_id := None |}.

(** Modelled from the spec: the key of a view, from its content type,
    its external id and the id of the workbook it was found under. *)
Definition view_key (k w : key) : AssetKey :=
  {| kind := VIEW; external_id := k; container_id := Some w |}.

(** Modelled from the spec: the external id of an entity is the luid of
    its property bag. *)
Definition external_id_of (properties : json) : result key :=
  let? luid := getitem properties "luid" in
  py_hash luid.

(** Modelled from the spec: [get_data_source_asset_key] and
    [get_view_asset_key] of the translator. The container of a view is
    the workbook entry the fetch has added to its properties. *)
Definition get_data_source_asset_key (data : TableauContentData)
  : result AssetKey :=
  let? k := external_id_of (properties data) in
  Ok (data_source_key k).

Definition get_view_asset_key (data : TableauContentData) : result AssetKey :=
  let? k := external_id_of (properties data) in
  let? workbook := getitem (properties data) "workbook" in
  let? w := external_id_of workbook in
  Ok (view_key k w).

(** Modelled from the spec: one published data source under a view. "A
    sub-reference absent from the payload (null id) is skipped and
    contributes no dependency"; every other one must resolve to the
    descriptor registered under its id, whose key joins the dependency
    set, once. *)
Definition resolve (workspace_data : TableauWorkspaceData)
  (published_data_source_data : json) (deps : list AssetKey)
  : result (list AssetKey) :=
  let? data_source_id := getitem published_data_source_data "luid" in
  match data_source_id with
  | JNull => Ok deps
  | _ =>
      let? k := py_hash data_source_id in
      match dict_get key_eq_dec k (data_sources_by_id workspace_data) with
      | Some data =>
          let? dep := get_data_source_asset_key data in
          Ok (add_key AssetKey_eq_dec dep deps)
      | None => Raise KeyError
      end
  end.

(** Modelled from the spec: the descriptor of a view "depends on all of
    its resolved sub-reference descriptors"; "an item with no
    sub-references yields a descriptor with an empty dependency set". *)
Definition get_view_spec (workspace_data : TableauWorkspaceData)
  (data : TableauContentData) : result AssetSpec :=
  let? key := get_view_asset_key data in
  let? deps := for_each (resolve workspace_data) (mentions_of (properties data)) [] in
  Ok {| asset_key := key; deps := deps; metadata := properties data |}.

(** Modelled from the spec: the descriptor of a published data source
    depends on nothing. *)
Definition get_data_source_spec (data : TableauContentData) : result AssetSpec :=
  let? key := get_data_source_asset_key data in
  Ok {| asset_key := key; deps := []; metadata := properties data |}.

(** Modelled from the spec: [get_asset_spec] of a translator built on
    the workspace data. "A container has no descriptor of its own": asking
    for the spec of a workbook is an error. *)
Definition get_asset_spec (workspace_data : TableauWorkspaceData)
  (data : TableauContentData) : result AssetSpec :=
  match content_type data with
  | VIEW => get_view_spec workspace_data data
  | DATA_SOURCE => get_data_source_spec data
  | WORKBOOK => Raise TypeError
  end.

End DagsterTableauTranslator.

(** A published data source the translator skips or can look up: its
    luid is null, or truthy. *)
Definition null_or_truthy (published_data_source_data : json) : Prop :=
  exists luid,
    getitem published_data_source_data "luid" = Ok luid /\
    (luid = JNull \/ truthy luid = true).

(** The dependency keys of a list of mentions: the keys of the data
    sources of the given ids, each once, in the order of the first
    mention. *)
Definition dependency_keys (ids : list key) : list DagsterTableauTranslator.AssetKey :=
  first_seen DagsterTableauTranslator.AssetKey_eq_dec
    (map DagsterTableauTranslator.data_source_key ids).

(** ** A sample site *)

Module Sample.

Definition published (luid : json) (name : string) : json :=
  JObj [("luid", luid); ("name", JStr name)].

Definition sheet (luid : json) (name : string) (sources : list json) : json :=
  JObj [("luid", luid);
        ("name", JStr name);
        ("path", JStr ("sales/" ++ name));
        ("parentEmbeddedDatasources",
         JArr [JObj [("parentPublishedDatasources", JArr sources)]])].

Definition workbook_answer (luid name : string) (sheets : list json) : json :=
  JObj [("data",
         JObj [("workbooks",
                JArr [JObj [("luid", JStr luid);
                            ("name", JStr name);
                            ("sheets", JArr sheets)]])])].

Definition X : json := published (JStr "ds-x") "X".
Definition X_again : json := published (JStr "ds-x") "X renamed".
Definition Y : json := published (JStr "ds-y") "Y".
Definition nameless : json := published JNull "gone".

Definition sheet_A : json := sheet (JStr "view-a") "A" [X].
Definition sheet_B : json := sheet (JStr "view-b") "B" [X_again; Y].

(** One workbook with two sheets: A over X, B over X and Y. *)
Definition sales : json := workbook_answer "wb-1" "Sales" [sheet_A; sheet_B].

Definition listing : json :=
  JObj [("workbooks", JObj [("workbook", JArr [JObj [("id", JStr "wb-1")]])])].

Definition signed_in : json :=
  JObj [("credentials",
         JObj [("token", JStr "t0k3n");
               ("site", JObj [("id", JStr "site-7")])])].

(** A site that answers every request, with one workbook. Signing out
    yields no body. *)
Definition serving (workbook : json) (history : list request) (r : request)
  : result (result json) :=
  match url r with
  | auth_signin => Ok (Ok signed_in)
  | auth_signout => Ok (Raise JSONDecodeError)
  | site_workbooks _ => Ok (Ok listing)
  | metadata_graphql _ => Ok (Ok workbook)
  end.

Definition site : list request -> request -> result (result json) :=
  serving sales.

(** A workbook whose only sheet sits on a data source with an empty luid,
    and one whose only sheet has no luid. *)
Definition blank : json :=
  workbook_answer "wb-1" "Drafts"
    [sheet (JStr "view-c") "C" [published (JStr "") "blank"]].

Definition orphan : json :=
  workbook_answer "wb-1" "Drafts" [sheet JNull "D" [X]].

(** A workbook with a sheet over a data source that has no luid, and a
    sheet over nothing. *)
Definition sheet_E : json := sheet (JStr "view-e") "E" [nameless].

Definition bare_sheet : json := JObj [("luid", JStr "view-f"); ("name", JStr "F")].

Definition loose : json :=
  workbook_answer "wb-1" "Loose ends" [sheet_E; bare_sheet].

(** A site that rejects the credentials. *)
Definition closed_site (history : list request) (r : request)
  : result (result json) :=
  Raise HTTPError.

(** A site whose metadata API is down. *)
Definition half_site (history : list request) (r : request)
  : result (result json) :=
  match url r with
  | metadata_graphql _ => Raise HTTPError
  | _ => site history r
  end.

(** A workbook with a sheet that lacks its luid field. *)
Definition broken : json :=
  workbook_answer "wb-1" "Broken" [sheet_A; JObj [("name", JStr "G")]].

Definition workspace : BaseTableauWorkspace :=
  {| site_name := "acme"; _client := None |}.

(** A session right after a sign-in at the sample site. *)
Definition signed_in_session : session :=
  snd (sign_in site {| self := new_client; sent := [] |}).

(** A translator whose spec of a content is the name of the content. *)
Definition name_of (workspace_data : TableauWorkspaceData)
  (content : TableauContentData) : result json :=
  getitem (properties content) "name".

End Sample.

(** ** Further sample payloads *)

Module Cases.

(** A sign-in answer that carries a token and no site. *)
Definition half_signed_in : json :=
  JObj [("credentials", JObj [("token", JStr "t0k3n")])].

Definition siteless (history : list request) (r : request)
  : result (result json) :=
  match url r with
  | auth_signin => Ok (Ok half_signed_in)
  | _ => Sample.site history r
  end.

(** A session that holds an older token and site id. *)
Definition stale_session : session :=
  {| self := {| _api_token := JStr "old";
                _site_id := JStr "site-1";
                get_workbooks_cache := None;
                get_workbook_cache := [] |};
     sent := [] |}.

(** A workbook in which two sheets share a luid. *)
Definition sheet_A_again : json := Sample.sheet (JStr "view-a") "A2" [Sample.Y].

Definition twins : json :=
  Sample.workbook_answer "wb-1" "Twins" [Sample.sheet_A; sheet_A_again].

(** A sheet whose list of embedded data sources is null. *)
Definition null_sources : json :=
  JObj [("luid", JStr "view-n"); ("parentEmbeddedDatasources", JNull)].

(** The answer of the metadata API for a workbook it does not know. *)
Definition unknown : json := JObj [("data", JObj [("workbooks", JArr [])])].

(** A site with two workbooks. *)
Definition listing2 : json :=
  JObj [("workbooks",
         JObj [("workbook",
                JArr [JObj [("id", JStr "wb-1")]; JObj [("id", JStr "wb-2")]])])].

Definition marketing : json :=
  Sample.workbook_answer "wb-2" "Marketing"
    [Sample.sheet (JStr "view-m") "M" [Sample.Y]].

Definition site2 (history : list request) (r : request) : result (result json) :=
  match url r with
  | site_workbooks _ => Ok (Ok listing2)
  | metadata_graphql (JStr "wb-2") => Ok (Ok marketing)
  | _ => Sample.site history r
  end.

(** A site whose metadata API does not know the second workbook. *)
Definition site3 (history : list request) (r : request) : result (result json) :=
  match url r with
  | site_workbooks _ => Ok (Ok listing2)
  | metadata_graphql (JStr "wb-2") => Ok (Ok unknown)
  | _ => Sample.site history r
  end.

(** A workbook with a sheet over a data source without luid and one with,
    and a sheet over nothing. *)
Definition sheet_H : json :=
  Sample.sheet (JStr "view-h") "H" [Sample.nameless; Sample.X; Sample.nameless].

Definition mixed : json :=
  Sample.workbook_answer "wb-1" "Mixed" [sheet_H; Sample.bare_sheet].

(** A translator that has no spec for data sources. *)
Definition views_only (workspace_data : TableauWorkspaceData)
  (content : TableauContentData) : result json :=
  match content_type content with
  | DATA_SOURCE => Raise KeyError
  | _ => getitem (properties content) "name"
  end.

End Cases.

(** ** Facts about ordered dicts *)

Section DictFacts.

Variables K V : Type.
Variable K_eq_dec : forall a b : K, {a = b} + {a <> b}.

Local Abbreviation lookup := (dict_get K_eq_dec).
Local Abbreviation store := (dict_set K_eq_dec).
Local Abbreviation member := (dict_mem K_eq_dec).

Lemma dict_get_None (k : K) (d : dict K V) :
  lookup k d = None <-> ~ In k (dict_keys d).
Proof.
  induction d as [|[k' v] d IH]; simpl.
  - tauto.
  - destruct (K_eq_dec k k') as [->|Hne].
    + split; [discriminate | intros H; exfalso; apply H; now left].
    + rewrite IH. split.
      * intros H [Heq|Hin]; [congruence | contradiction].
      * intros H Hin. apply H. now right.
Qed.

Lemma dict_mem_In (k : K) (d : dict K V) :
  member k d = true <-> In k (dict_keys d).
Proof.
  unfold dict_mem. destruct (lookup k d) eqn:E.
  - split; [intros _ | reflexivity].
    destruct (in_dec K_eq_dec k (dict_keys d)) as [Hin|Hout]; [assumption|].
    apply dict_get_None in Hout. congruence.
  - apply dict_get_None in E. split; [discriminate | contradiction].
Qed.

Lemma dict_get_In (k : K) (v : V) (d : dict K V) :
  lookup k d = Some v -> In (k, v) d.
Proof.
  induction d as [|[k' v'] d IH]; simpl; [discriminate|].
  destruct (K_eq_dec k k') as [->|Hne].
  - intros [= ->]. now left.
  - intros H. right. auto.
Qed.

Lemma In_dict_get (k : K) (v : V) (d : dict K V) :
  NoDup (dict_keys d) -> In (k, v) d -> lookup k d = Some v.
Proof.
  induction d as [|[k' v'] d IH]; simpl; [contradiction|].
  intros Hnd Hin. inversion Hnd as [|? ? Hout Hnd']; subst.
  destruct Hin as [[= -> ->]|Hin].
  - destruct (K_eq_dec k k); [reflexivity | congruence].
  - destruct (K_eq_dec k k') as [->|Hne]; [|auto].
    exfalso. apply Hout. change k' with (fst (k', v)). now apply in_map.
Qed.

(** Storing under a new key appends, storing under a known key replaces
    the value where it stands. *)
Lemma dict_set_new (k : K) (v : V) (d : dict K V) :
  ~ In k (dict_keys d) -> store k v d = d ++ [(k, v)].
Proof.
  induction d as [|[k' v'] d IH]; simpl; intros Hout; [reflexivity|].
  destruct (K_eq_dec k k') as [->|Hne].
  - exfalso. apply Hout. now left.
  - rewrite IH; [reflexivity|]. intros Hin. apply Hout. now right.
Qed.

Lemma dict_set_keys_known (k : K) (v : V) (d : dict K V) :
  In k (dict_keys d) -> dict_keys (store k v d) = dict_keys d.
Proof.
  induction d as [|[k' v'] d IH]; simpl; [contradiction|].
  intros Hin. destruct (K_eq_dec k k') as [->|Hne]; [reflexivity|].
  simpl. rewrite IH; [reflexivity|]. destruct Hin; [congruence | assumption].
Qed.

Lemma dict_get_set_same (k : K) (v : V) (d : dict K V) :
  lookup k (store k v d) = Some v.
Proof.
  induction d as [|[k' v'] d IH]; simpl.
  - destruct (K_eq_dec k k); [reflexivity | congruence].
  - destruct (K_eq_dec k k') as [->|Hne]; simpl.
    + destruct (K_eq_dec k' k'); [reflexivity | congruence].
    + destruct (K_eq_dec k k'); [congruence | assumption].
Qed.

Lemma dict_get_set_other (k k' : K) (v : V) (d : dict K V) :
  k' <> k -> lookup k' (store k v d) = lookup k' d.
Proof.
  intros Hne. induction d as [|[k0 v0] d IH]; simpl.
  - destruct (K_eq_dec k' k); [congruence | reflexivity].
  - destruct (K_eq_dec k k0) as [->|Hne0]; simpl.
    + destruct (K_eq_dec k' k0); [congruence | reflexivity].
    + destruct (K_eq_dec k' k0); [reflexivity | assumption].
Qed.

Lemma In_dict_set (k : K) (v : V) (d : dict K V) (e : K * V) :
  In e (store k v d) -> e = (k, v) \/ In e d.
Proof.
  induction d as [|[k0 v0] d IH]; simpl.
  - intros [<-|[]]. now left.
  - destruct (K_eq_dec k k0) as [->|Hne]; simpl.
    + intros [<-|Hin]; [now left | right; now right].
    + intros [<-|Hin]; [right; now left|].
      destruct (IH Hin); [now left | right; now right].
Qed.

Lemma dict_set_keys (k : K) (v : V) (d : dict K V) :
  dict_keys (store k v d) = add_key K_eq_dec k (dict_keys d).
Proof.
  unfold add_key. destruct (in_dec K_eq_dec k (dict_keys d)) as [Hin|Hout].
  - now apply dict_set_keys_known.
  - rewrite dict_set_new by assumption.
    unfold dict_keys. now rewrite map_app.
Qed.

Lemma first_seen_In (l : list K) (k : K) : In k (first_seen K_eq_dec l) <-> In k l.
Proof.
  induction l as [|a l IH]; simpl; [tauto|].
  rewrite filter_In, IH.
  destruct (K_eq_dec k a) as [->|Hne].
  - split; [intros _; now left | intros _; now left].
  - split.
    + intros [Heq|[Hin _]]; [now left | now right].
    + intros [Heq|Hin]; [now left | right; now split].
Qed.

Lemma NoDup_filter (f : K -> bool) (l : list K) : NoDup l -> NoDup (filter f l).
Proof.
  induction 1 as [|a l Hout Hnd IH]; simpl; [constructor|].
  destruct (f a); [|assumption].
  constructor; [|assumption]. rewrite filter_In. tauto.
Qed.

Lemma first_seen_NoDup (l : list K) : NoDup (first_seen K_eq_dec l).
Proof.
  induction l as [|a l IH]; simpl; constructor.
  - rewrite filter_In. intros [_ H].
    destruct (K_eq_dec a a); [discriminate | congruence].
  - now apply NoDup_filter.
Qed.

Lemma filter_filter (f g : K -> bool) (l : list K) :
  filter f (filter g l) = filter (fun x => g x && f x) l.
Proof.
  induction l as [|a l IH]; simpl; [reflexivity|].
  destruct (g a); simpl; [destruct (f a)|]; now rewrite IH.
Qed.

Lemma fold_add_key (l ks : list K) :
  fold_left (fun acc k => add_key K_eq_dec k acc) l ks
  = ks ++ filter (fresh_for K_eq_dec ks) (first_seen K_eq_dec l).
Proof.
  revert ks. induction l as [|k l IH]; intros ks; simpl.
  - now rewrite app_nil_r.
  - rewrite IH, filter_filter. unfold add_key.
    destruct (in_dec K_eq_dec k ks) as [Hin|Hout].
    + f_equal. unfold fresh_for at 2.
      destruct (in_dec K_eq_dec k ks) as [_|Hno]; [|contradiction].
      apply filter_ext_in. intros x _. unfold fresh_for.
      destruct (K_eq_dec x k) as [->|Hne]; simpl.
      * destruct (in_dec K_eq_dec k ks); [reflexivity | contradiction].
      * reflexivity.
    + rewrite <- app_assoc. simpl. f_equal. unfold fresh_for at 2.
      destruct (in_dec K_eq_dec k ks) as [|_]; [contradiction|].
      f_equal. apply filter_ext_in. intros x _. unfold fresh_for.
      destruct (K_eq_dec x k) as [->|Hne]; simpl.
      * destruct (in_dec K_eq_dec k (ks ++ [k])) as [|Hno]; [reflexivity|].
        exfalso. apply Hno. apply in_or_app. right. now left.
      * destruct (in_dec K_eq_dec x (ks ++ [k])) as [Hin|Hno];
          destruct (in_dec K_eq_dec x ks) as [Hin'|Hno']; try reflexivity.
        -- apply in_app_or in Hin. destruct Hin as [|[->|[]]]; congruence.
        -- exfalso. apply Hno. apply in_or_app. now left.
Qed.

Lemma filter_all (f : K -> bool) (l : list K) :
  (forall x, In x l -> f x = true) -> filter f l = l.
Proof.
  induction l as [|a l IH]; simpl; intros H; [reflexivity|].
  rewrite (H a) by now left. f_equal. apply IH. intros x Hx. apply H. now right.
Qed.

Corollary fold_add_key_nil (l : list K) :
  fold_left (fun acc k => add_key K_eq_dec k acc) l [] = first_seen K_eq_dec l.
Proof.
  rewrite fold_add_key. simpl. apply filter_all. reflexivity.
Qed.

End DictFacts.

(** ** The snapshot, read off the fetched payloads *)

(** *** Loops as folds *)

Lemma rbind_Ok {A B} (r : result A) (k : A -> result B) (b : B) :
  rbind r k = Ok b -> exists a, r = Ok a /\ k a = Ok b.
Proof.
  destruct r as [a|e]; simpl; [|discriminate]. intros H. now exists a.
Qed.

Ltac bind_ok H x Hx :=
  apply rbind_Ok in H; destruct H as (x & Hx & H).

Lemma for_each_fold {A S T X} (body : A -> S -> result S) (phi : S -> T)
  (h : T -> X -> T) (g : A -> list X) :
  (forall a s s', body a s = Ok s' -> phi s' = fold_left h (g a) (phi s)) ->
  forall l s s',
    for_each body l s = Ok s' -> phi s' = fold_left h (flat_map g l) (phi s).
Proof.
  intros Hstep l. induction l as [|a l IH]; intros s s' H; simpl in *.
  - now injection H as <-.
  - bind_ok H s1 H1. rewrite fold_left_app, <- (Hstep _ _ _ H1). now apply IH.
Qed.

Lemma for_each_fold_left {A S} (body : A -> S -> result S) (h : S -> A -> S) :
  (forall a s s', body a s = Ok s' -> s' = h s a) ->
  forall l s s', for_each body l s = Ok s' -> s' = fold_left h l s.
Proof.
  intros Hstep l. induction l as [|a l IH]; intros s s' H; simpl in *.
  - now injection H as <-.
  - bind_ok H s1 H1. rewrite <- (Hstep _ _ _ H1). now apply IH.
Qed.

Lemma flat_map_flat_map {A B C} (f : B -> list C) (g : A -> list B) (l : list A) :
  flat_map f (flat_map g l) = flat_map (fun a => flat_map f (g a)) l.
Proof.
  induction l as [|a l IH]; simpl; [reflexivity|].
  now rewrite flat_map_app, IH.
Qed.

Lemma flat_map_map {A B C} (f : B -> list C) (g : A -> B) (l : list A) :
  flat_map f (map g l) = flat_map (fun a => f (g a)) l.
Proof.
  induction l as [|a l IH]; simpl; [reflexivity|]. now rewrite IH.
Qed.

Lemma scan_published_data_source_register (m : json) (ds ds' : contents) :
  scan_published_data_source m ds = Ok ds' -> ds' = register ds m.
Proof.
  unfold scan_published_data_source, register, luid_key. intros H.
  bind_ok H luid Hluid. rewrite Hluid.
  destruct (truthy luid); [|now injection H as <-].
  bind_ok H k Hk. rewrite Hk.
  destruct (dict_mem key_eq_dec k ds); now injection H as <-.
Qed.

Lemma scan_embedded_data_source_register (e : json) (ds ds' : contents) :
  scan_embedded_data_source e ds = Ok ds' ->
  ds' = fold_left register (published_of e) ds.
Proof.
  unfold scan_embedded_data_source, published_of. intros H.
  bind_ok H published Hp. bind_ok H items Hi. rewrite Hp. simpl. rewrite Hi. simpl.
  revert H. apply for_each_fold_left.
  intros a s s'. apply scan_published_data_source_register.
Qed.

Lemma record_view_record (workbook_id view_data : json) (vs vs' : contents) :
  record_view workbook_id view_data vs = Ok vs' ->
  vs' = record vs (workbook_id, view_data).
Proof.
  unfold record_view, record, luid_key, augment. simpl. intros H.
  bind_ok H luid Hluid. rewrite Hluid.
  destruct (truthy luid); [|now injection H as <-].
  bind_ok H aug Haug. bind_ok H k Hk. rewrite Hk, Haug. simpl.
  now injection H as <-.
Qed.

Lemma scan_view_views (workbook_id view_data : json) (acc acc' : snapshot) :
  scan_view workbook_id view_data acc = Ok acc' ->
  views acc' = record (views acc) (workbook_id, view_data).
Proof.
  unfold scan_view. intros H.
  bind_ok H vs Hvs. bind_ok H embedded He. bind_ok H items Hi. bind_ok H ds Hds.
  injection H as <-. simpl. now apply record_view_record.
Qed.

Lemma scan_view_data_sources (workbook_id view_data : json) (acc acc' : snapshot) :
  scan_view workbook_id view_data acc = Ok acc' ->
  data_sources acc' = fold_left register (mentions_of view_data) (data_sources acc).
Proof.
  unfold scan_view, mentions_of, embedded_of. intros H.
  bind_ok H vs Hvs. bind_ok H embedded He. bind_ok H items Hi. bind_ok H ds Hds.
  injection H as <-. simpl. rewrite He. simpl. rewrite Hi. simpl.
  revert Hds. apply (for_each_fold _ (fun d => d)).
  intros a s s'. apply scan_embedded_data_source_register.
Qed.

Lemma flat_map_unit {A B} (f : A -> B) (l : list A) :
  flat_map (fun a => [f a]) l = map f l.
Proof.
  induction l as [|a l IH]; simpl; [reflexivity|]. now rewrite IH.
Qed.

Lemma scan_workbook_views (workbook_id response : json) (acc acc' : snapshot) :
  scan_workbook workbook_id response acc = Ok acc' ->
  views acc'
  = fold_left record (map (pair workbook_id) (sheets_of response)) (views acc).
Proof.
  unfold scan_workbook, sheets_of. intros H.
  bind_ok H data Hd. bind_ok H found Hf. bind_ok H wd Hwd. bind_ok H k Hk.
  bind_ok H sheets Hs. bind_ok H items Hi.
  rewrite Hd. simpl. rewrite Hf. simpl. rewrite Hwd. simpl. rewrite Hs. simpl.
  rewrite Hi. simpl. rewrite <- flat_map_unit.
  apply (for_each_fold _ views record (fun v => [(workbook_id, v)])) in H;
    [exact H|].
  intros a s s' Ha. simpl. now apply scan_view_views.
Qed.

Lemma scan_workbook_data_sources (workbook_id response : json)
  (acc acc' : snapshot) :
  scan_workbook workbook_id response acc = Ok acc' ->
  data_sources acc'
  = fold_left register (flat_map mentions_of (sheets_of response))
      (data_sources acc).
Proof.
  unfold scan_workbook, sheets_of. intros H.
  bind_ok H data Hd. bind_ok H found Hf. bind_ok H wd Hwd. bind_ok H k Hk.
  bind_ok H sheets Hs. bind_ok H items Hi.
  rewrite Hd. simpl. rewrite Hf. simpl. rewrite Hwd. simpl. rewrite Hs. simpl.
  rewrite Hi. simpl.
  apply (for_each_fold _ data_sources register mentions_of) in H; [exact H|].
  intros a s s'. apply (@scan_view_data_sources workbook_id).
Qed.

Lemma scan_workbooks_views (fetched : list (json * json)) (acc acc' : snapshot) :
  scan_workbooks fetched acc = Ok acc' ->
  views acc' = fold_left record (all_views fetched) (views acc).
Proof.
  unfold scan_workbooks, all_views. apply for_each_fold.
  intros a s s'. apply scan_workbook_views.
Qed.

Lemma scan_workbooks_data_sources (fetched : list (json * json))
  (acc acc' : snapshot) :
  scan_workbooks fetched acc = Ok acc' ->
  data_sources acc' = fold_left register (all_mentions fetched) (data_sources acc).
Proof.
  unfold scan_workbooks, all_mentions, all_views.
  rewrite flat_map_flat_map. apply for_each_fold.
  intros a s s' H. rewrite flat_map_map. simpl.
  now apply (scan_workbook_data_sources (fst a)).
Qed.

(** *** What the folds build *)

Lemma register_keys (ds : contents) (m : json) :
  dict_keys (register ds m)
  = fold_left (fun acc k => add_key key_eq_dec k acc) (luid_keys [m]) (dict_keys ds).
Proof.
  unfold register, luid_keys. simpl. destruct (luid_key m) as [k|]; simpl; [|reflexivity].
  destruct (dict_mem key_eq_dec k ds) eqn:E.
  - apply dict_mem_In in E. unfold add_key.
    destruct (in_dec key_eq_dec k (dict_keys ds)); [reflexivity | contradiction].
  - apply dict_set_keys.
Qed.

Lemma luid_keys_app (l1 l2 : list json) :
  luid_keys (l1 ++ l2) = luid_keys l1 ++ luid_keys l2.
Proof. apply flat_map_app. Qed.

Lemma fold_register_keys (ms : list json) (ds : contents) :
  dict_keys (fold_left register ms ds)
  = fold_left (fun acc k => add_key key_eq_dec k acc) (luid_keys ms) (dict_keys ds).
Proof.
  revert ds. induction ms as [|m ms IH]; intros ds; [reflexivity|].
  change (m :: ms) with ([m] ++ ms).
  rewrite luid_keys_app, !fold_left_app, <- register_keys. simpl. apply IH.
Qed.

Lemma record_keys (vs : contents) (wv : json * json) :
  dict_keys (record vs wv)
  = fold_left (fun acc k => add_key key_eq_dec k acc) (luid_keys [snd wv])
      (dict_keys vs).
Proof.
  unfold record, luid_keys. simpl.
  destruct (luid_key (snd wv)) as [k|]; simpl; [|reflexivity].
  apply dict_set_keys.
Qed.

Lemma fold_record_keys (wvs : list (json * json)) (vs : contents) :
  dict_keys (fold_left record wvs vs)
  = fold_left (fun acc k => add_key key_eq_dec k acc) (luid_keys (map snd wvs))
      (dict_keys vs).
Proof.
  revert vs. induction wvs as [|wv wvs IH]; intros vs; [reflexivity|].
  simpl map. change (snd wv :: map snd wvs) with ([snd wv] ++ map snd wvs).
  simpl fold_left at 1. rewrite luid_keys_app, fold_left_app, <- record_keys. apply IH.
Qed.

(** The first mention of an id wins. *)
Lemma fold_register_get (k : key) (ms : list json) (ds : contents) :
  dict_get key_eq_dec k (fold_left register ms ds)
  = match dict_get key_eq_dec k ds with
    | Some c => Some c
    | None => option_map data_source (find (has_key k) ms)
    end.
Proof.
  revert ds. induction ms as [|m ms IH]; intros ds; simpl.
  - now destruct (dict_get key_eq_dec k ds).
  - rewrite IH. unfold register, has_key at 2.
    destruct (luid_key m) as [k'|]; [|reflexivity].
    destruct (dict_mem key_eq_dec k' ds) eqn:E.
    + destruct (key_eq_dec k' k) as [->|Hne]; [|reflexivity].
      unfold dict_mem in E. now destruct (dict_get key_eq_dec k ds).
    + destruct (key_eq_dec k' k) as [->|Hne].
      * rewrite dict_get_set_same. unfold dict_mem in E.
        now destruct (dict_get key_eq_dec k ds).
      * rewrite dict_get_set_other by congruence. reflexivity.
Qed.

Lemma luid_keys_In (k : key) (l : list json) :
  In k (luid_keys l) <-> exists x, In x l /\ luid_key x = Some k.
Proof.
  unfold luid_keys. rewrite in_flat_map. split.
  - intros (x & Hx & Hk). exists x. split; [assumption|].
    destruct (luid_key x) as [k'|]; [|contradiction].
    destruct Hk as [->|[]]. reflexivity.
  - intros (x & Hx & Hk). exists x. split; [assumption|]. rewrite Hk. now left.
Qed.

Lemma find_has_key (k : key) (l : list json) :
  In k (luid_keys l) -> exists m, find (has_key k) l = Some m.
Proof.
  intros H. apply luid_keys_In in H. destruct H as (x & Hx & Hk).
  destruct (find (has_key k) l) as [m|] eqn:E; [now exists m|].
  exfalso. apply (find_none _ _ E) in Hx. unfold has_key in Hx. rewrite Hk in Hx.
  destruct (key_eq_dec k k); [discriminate | congruence].
Qed.

(** Every stored view comes from a traversed sheet. *)
Lemma fold_record_In (wvs : list (json * json)) (vs : contents)
  (e : key * TableauContentData) :
  In e (fold_left record wvs vs) ->
  In e vs \/
  exists wv, In wv wvs /\ luid_key (snd wv) = Some (fst e) /\
             snd e = {| content_type := VIEW;
                        properties := augment (fst wv) (snd wv) |}.
Proof.
  revert vs. induction wvs as [|wv wvs IH]; intros vs H; simpl in *; [now left|].
  destruct (IH _ H) as [Hin|(wv' & Hwv' & Hrest)].
  - unfold record in Hin. destruct (luid_key (snd wv)) as [k|] eqn:Ek; [|now left].
    apply In_dict_set in Hin. destruct Hin as [->|Hin]; [|now left].
    right. exists wv. simpl. auto.
  - right. exists wv'. split; [now right | assumption].
Qed.

Lemma luid_key_JObj (x : json) (k : key) :
  luid_key x = Some k ->
  exists fields luid,
    x = JObj fields /\ dict_get string_dec "luid" fields = Some luid /\
    truthy luid = true /\ py_hash luid = Ok k.
Proof.
  unfold luid_key, getitem. destruct x as [| | | |?|fields]; try discriminate.
  destruct (dict_get string_dec "luid" fields) as [luid|] eqn:Eg; [|discriminate].
  destruct (truthy luid) eqn:Et; [|discriminate].
  destruct (py_hash luid) as [k'|] eqn:Eh; [|discriminate].
  intros [= <-]. exists fields, luid. auto.
Qed.

(** ** The sample site at work *)

Example sample_scan :
  option_map (fun s => (dict_keys (views s), dict_keys (data_sources s)))
    (match scan_workbooks [(JStr "wb-1", Sample.sales)] empty_snapshot with
     | Ok s => Some s | Raise _ => None end)
  = Some ([KStr "view-a"; KStr "view-b"], [KStr "ds-x"; KStr "ds-y"]).
Proof. reflexivity. Qed.

Example sample_fetch :
  let '(r, ws, wire) :=
    fetch_tableau_workspace_data Sample.site Sample.workspace [] in
  (match r with
   | Ok d => Some (dict_keys (views_by_id d), dict_keys (data_sources_by_id d))
   | Raise _ => None
   end,
   map url wire)
  = (Some ([KStr "view-a"; KStr "view-b"], [KStr "ds-x"; KStr "ds-y"]),
     [auth_signin; site_workbooks (JStr "site-7");
      metadata_graphql (JStr "wb-1"); auth_signout]).
Proof. reflexivity. Qed.

(** ** Calls of the client *)

Lemma bind_Ok {A B} (c : M A) (k : A -> M B) (s s' : session) (b : B) :
  bind c k s = (Ok b, s') ->
  exists a s1, c s = (Ok a, s1) /\ k a s1 = (Ok b, s').
Proof.
  unfold bind. destruct (c s) as [[a|e] s1]; [|discriminate].
  intros H. now exists a, s1.
Qed.

Lemma lift_Ok {A} (r : result A) (s s' : session) (a : A) :
  lift r s = (Ok a, s') -> r = Ok a /\ s' = s.
Proof. unfold lift. now intros [= -> ->]. Qed.

Ltac bind_M H x s Hx :=
  apply bind_Ok in H; destruct H as (x & s & Hx & H).

Ltac lift_M H :=
  let E := fresh "E" in
  apply lift_Ok in H; destruct H as [H E]; subst.

Section ClientFacts.

Variable server : list request -> request -> result (result json).

(** What a sign-out does, whatever the state it is called in. *)
Lemma sign_out_run (s : session) :
  let r := {| method := POST; url := auth_signout;
              x_tableau_auth := Some (_api_token (self s)) |} in
  sign_out server s
  = match server (sent s) r with
    | Ok _ =>
        (Ok tt,
         {| self := {| _api_token := JNull;
                       _site_id := JNull;
                       get_workbooks_cache := get_workbooks_cache (self s);
                       get_workbook_cache := get_workbook_cache (self s) |};
            sent := sent s ++ [r] |})
    | Raise e => (Raise e, {| self := self s; sent := sent s ++ [r] |})
    end.
Proof.
  unfold sign_out, bind, _make_request, update. simpl.
  now destruct (server (sent s) _).
Qed.

Lemma sign_out_caches (s : session) :
  caches (self (snd (sign_out server s))) = caches (self s).
Proof.
  rewrite sign_out_run. cbv zeta. now destruct (server (sent s) _).
Qed.

(** A fetch that finds its answer on the instance sends nothing. *)
Lemma get_workbooks_cached (s : session) (answer : json) :
  get_workbooks_cache (self s) = Some answer ->
  get_workbooks server s = (Ok answer, s).
Proof.
  intros H. unfold get_workbooks, bind, read. simpl. now rewrite H.
Qed.

Lemma get_workbook_cached (s : session) (workbook_id answer : json) (k : key) :
  py_hash workbook_id = Ok k ->
  dict_get key_eq_dec k (get_workbook_cache (self s)) = Some answer ->
  get_workbook server workbook_id s = (Ok answer, s).
Proof.
  intros Hk H. unfold get_workbook, bind, read, lift. simpl. rewrite Hk. simpl.
  now rewrite H.
Qed.

Lemma cache_grows_refl (c : BaseTableauClient) : cache_grows c c.
Proof. split; auto. Qed.

Lemma cache_grows_trans (c1 c2 c3 : BaseTableauClient) :
  cache_grows c1 c2 -> cache_grows c2 c3 -> cache_grows c1 c3.
Proof. intros [H1 H2] [H3 H4]. split; auto. Qed.

Lemma get_workbooks_Ok (s s' : session) (answer : json) :
  get_workbooks server s = (Ok answer, s') ->
  get_workbooks_cache (self s') = Some answer /\
  get_workbook_cache (self s') = get_workbook_cache (self s) /\
  cache_grows (self s) (self s').
Proof.
  cbv [get_workbooks bind read _fetch_json _make_request lift update ret].
  simpl. destruct (get_workbooks_cache (self s)) as [cached|] eqn:Ec.
  - intros [= <- <-]. split; [assumption|]. split; [reflexivity|].
    apply cache_grows_refl.
  - match goal with
    | |- context [server ?h ?r] => destruct (server h r) as [[a|e]|e]
    end; try discriminate.
    intros [= <- <-]. simpl. repeat split; auto. congruence.
Qed.

Lemma get_workbook_Ok (s s' : session) (workbook_id answer : json) :
  get_workbook server workbook_id s = (Ok answer, s') ->
  (exists k, py_hash workbook_id = Ok k /\
             dict_get key_eq_dec k (get_workbook_cache (self s')) = Some answer) /\
  get_workbooks_cache (self s') = get_workbooks_cache (self s) /\
  cache_grows (self s) (self s').
Proof.
  cbv [get_workbook bind read _fetch_json _make_request lift update ret].
  simpl. destruct (py_hash workbook_id) as [k|] eqn:Ek; [|discriminate].
  destruct (dict_get key_eq_dec k (get_workbook_cache (self s))) as [cached|] eqn:Ec.
  - intros [= <- <-]. split; [now exists k|]. split; [reflexivity|].
    apply cache_grows_refl.
  - match goal with
    | |- context [server ?h ?r] => destruct (server h r) as [[a|e]|e]
    end; try discriminate.
    intros [= <- <-]. simpl. split; [|split; [reflexivity|split; auto]].
    + exists k. split; [reflexivity|]. apply dict_get_set_same.
    + simpl. intros k' answer' H.
      rewrite dict_get_set_other; [assumption|]. intros ->. congruence.
Qed.

End ClientFacts.

(** ** What a fetch has read *)

Section WorkspaceFacts.

Variable server : list request -> request -> result (result json).

Local Abbreviation loop_body :=
  (fun workbook_id acc =>
     bind (get_workbook server workbook_id)
       (fun response => lift (scan_workbook workbook_id response acc))).

Lemma fetch_loop (ids : list json) :
  forall (acc acc' : snapshot) (s s' : session),
    for_each_M loop_body ids acc s = (Ok acc', s') ->
    get_workbooks_cache (self s') = get_workbooks_cache (self s) /\
    cache_grows (self s) (self s') /\
    scan_workbooks (flat_map (answer_for (self s')) ids) acc = Ok acc'.
Proof.
  induction ids as [|workbook_id ids IH]; intros acc acc' s s' H; simpl in H.
  - injection H as <- <-. repeat split; auto.
  - bind_M H acc1 s1 H1. bind_M H1 response s0 H0. lift_M H1.
    destruct (IH _ _ _ _ H) as (Hl & Hg & Hscan).
    destruct (get_workbook_Ok _ _ _ H0) as ((k & Hk & Hget) & Hl0 & Hg0).
    split; [congruence|]. split; [eapply cache_grows_trans; eassumption|].
    simpl. unfold answer_for at 1. rewrite Hk.
    rewrite (proj2 Hg _ _ Hget). simpl.
    unfold scan_workbooks in *. simpl. rewrite H1. simpl. exact Hscan.
Qed.

Lemma fetch_body_Ok (s s' : session) (found : snapshot) :
  fetch_body server s = (Ok found, s') ->
  scan_workbooks (answers (self s')) empty_snapshot = Ok found.
Proof.
  unfold fetch_body. intros H.
  bind_M H response s1 H1. bind_M H workbooks_data s2 H2. lift_M H2.
  bind_M H listed s3 H3. lift_M H3. bind_M H items s4 H4. lift_M H4.
  bind_M H workbook_ids s5 H5. lift_M H5.
  apply get_workbooks_Ok in H1. destruct H1 as (Hl & _ & _).
  apply fetch_loop in H. destruct H as (Hl' & _ & Hscan).
  unfold answers. rewrite Hl', Hl. unfold workbook_ids_of, listed_ids.
  rewrite H2. simpl. rewrite H3. simpl. rewrite H4. simpl. rewrite H5. simpl.
  exact Hscan.
Qed.

Lemma with_client_Ok {A} (body : M A) (s s' : session) (a : A) :
  with_client server body s = (Ok a, s') ->
  exists r s1 s2,
    sign_in server s = (Ok r, s1) /\ body s1 = (Ok a, s2) /\
    sign_out server s2 = (Ok tt, s').
Proof.
  unfold with_client. intros H.
  bind_M H r s1 H1. bind_M H a' s2 H2. bind_M H u s3 H3.
  unfold ret in H. injection H as -> ->. destruct u. now exists r, s1, s2.
Qed.

(** A fetch that returns has built its snapshot from the answers the
    client now holds. *)
Lemma fetch_tableau_workspace_data_Ok (ws ws' : BaseTableauWorkspace)
  (wire wire' : list request) (d : TableauWorkspaceData) :
  fetch_tableau_workspace_data server ws wire = (Ok d, ws', wire') ->
  translator.site_name d = site_name ws /\
  scan_workbooks (fetched ws') empty_snapshot = Ok (snapshot_of d).
Proof.
  unfold fetch_tableau_workspace_data, get_client.
  destruct (with_client server (fetch_body server) _) as [[found|e] s'] eqn:E;
    simpl; [|discriminate].
  intros [= <- <- <-]. simpl. split.
  - now destruct (_client ws).
  - apply with_client_Ok in E. destruct E as (r & s1 & s2 & _ & Hbody & Hout).
    apply fetch_body_Ok in Hbody. unfold fetched, snapshot_of. simpl.
    replace {| workbooks := workbooks found; views := views found;
               data_sources := data_sources found |} with found
      by now destruct found.
    assert (Hc : caches (self s') = caches (self s2)).
    { rewrite <- (sign_out_caches server s2). now rewrite Hout. }
    unfold caches in Hc. injection Hc as Hc1 Hc2.
    unfold answers in *. rewrite Hc1.
    destruct (get_workbooks_cache (self s2)) as [listing|]; [|exact Hbody].
    erewrite flat_map_ext; [exact Hbody|].
    intros a. unfold answer_for. now rewrite Hc2.
Qed.

End WorkspaceFacts.

(** ** The published data sources of a snapshot *)

Lemma first_seen_length {K} (dec : forall a b : K, {a = b} + {a <> b})
  (l : list K) : List.length (first_seen dec l) <= List.length l.
Proof.
  induction l as [|a l IH]; simpl; [lia|].
  pose proof (filter_length_le (fun k' => if dec k' a then false else true)
                (first_seen dec l)). lia.
Qed.

Lemma luid_keys_length (l : list json) : List.length (luid_keys l) <= List.length l.
Proof.
  induction l as [|x l IH]; simpl; [lia|].
  rewrite length_app. destruct (luid_key x); simpl; lia.
Qed.

Lemma fetched_data_sources_keys :
  forall server ws wire d ws' wire',
    fetch_tableau_workspace_data server ws wire = (Ok d, ws', wire') ->
    dict_keys (data_sources_by_id d)
    = first_seen key_eq_dec (luid_keys (all_mentions (fetched ws'))).
Proof.
  intros server ws wire d ws' wire' H.
  apply fetch_tableau_workspace_data_Ok in H. destruct H as [_ H].
  apply scan_workbooks_data_sources in H. simpl in H.
  rewrite H, fold_register_keys. simpl. apply fold_add_key_nil.
Qed.

(** C2, as stated, fails: a published data source whose luid is the empty
    string is mentioned under a non-null id and yet is not registered. *)
Lemma data_sources_non_null_counterexample :
  ~ (forall server ws wire d ws' wire',
        fetch_tableau_workspace_data server ws wire = (Ok d, ws', wire') ->
        List.length (data_sources_by_id d)
        = List.length (first_seen key_eq_dec
                    (non_null_keys (all_mentions (fetched ws'))))).
Proof.
  intros H.
  specialize (H (Sample.serving Sample.blank) Sample.workspace []).
  destruct (fetch_tableau_workspace_data (Sample.serving Sample.blank)
              Sample.workspace []) as [[[d|e] ws'] wire'] eqn:E.
  - specialize (H _ _ _ eq_refl). vm_compute in E. injection E as <- <- <-.
    vm_compute in H. discriminate.
  - vm_compute in E. discriminate.
Qed.

(** C2 (amended): in every snapshot a fetch returns, the keys of
    [data_sources_by_id] are the distinct truthy luids of the published
    data sources mentioned under the sheets, each once, in the order of
    their first mention: M distinct truthy ids among N mentions give M
    entries, M <= N. The entry of an id is the payload of its first
    mention; later mentions of the id change nothing. *)
Theorem data_sources_first_mention_wins :
  forall server ws wire d ws' wire',
    fetch_tableau_workspace_data server ws wire = (Ok d, ws', wire') ->
    dict_keys (data_sources_by_id d)
    = first_seen key_eq_dec (luid_keys (all_mentions (fetched ws'))) /\
    NoDup (dict_keys (data_sources_by_id d)) /\
    List.length (data_sources_by_id d)
    = List.length (first_seen key_eq_dec (luid_keys (all_mentions (fetched ws')))) /\
    List.length (data_sources_by_id d) <= List.length (all_mentions (fetched ws')) /\
    forall k,
      In k (luid_keys (all_mentions (fetched ws'))) ->
      exists m,
        find (has_key k) (all_mentions (fetched ws')) = Some m /\
        dict_get key_eq_dec k (data_sources_by_id d) = Some (data_source m) /\
        forall c, In (k, c) (data_sources_by_id d) -> c = data_source m.
Proof.
  intros server ws wire d ws' wire' H.
  pose proof (fetched_data_sources_keys _ _ _ H) as Hkeys.
  apply fetch_tableau_workspace_data_Ok in H. destruct H as [_ H].
  apply scan_workbooks_data_sources in H. simpl in H.
  set (ms := all_mentions (fetched ws')) in *.
  assert (Hnd : NoDup (dict_keys (data_sources_by_id d))).
  { rewrite Hkeys. apply first_seen_NoDup. }
  assert (Hlen : List.length (data_sources_by_id d)
                 = List.length (first_seen key_eq_dec (luid_keys ms))).
  { rewrite <- Hkeys. unfold dict_keys. now rewrite length_map. }
  repeat split; try assumption.
  - rewrite Hlen.
    pose proof (first_seen_length key_eq_dec (luid_keys ms)).
    pose proof (luid_keys_length ms). lia.
  - intros k Hk. destruct (find_has_key _ _ Hk) as [m Hm]. exists m.
    assert (Hget : dict_get key_eq_dec k (data_sources_by_id d)
                   = Some (data_source m)).
    { rewrite H, fold_register_get. simpl. now rewrite Hm. }
    repeat split; try assumption.
    intros c Hc. apply In_dict_get with (K_eq_dec := key_eq_dec) in Hc;
      [congruence | assumption].
Qed.

Lemma data_sources_first_mention_wins_witness :
  exists d ws' wire',
    fetch_tableau_workspace_data Sample.site Sample.workspace []
    = (Ok d, ws', wire') /\
    dict_keys (data_sources_by_id d)
    = first_seen key_eq_dec (luid_keys (all_mentions (fetched ws'))) /\
    dict_get key_eq_dec (KStr "ds-x") (data_sources_by_id d)
    = Some (data_source Sample.X).
Proof.
  eexists _, _, _. split; [vm_compute; reflexivity|].
  split.
  - eapply proj1, (data_sources_first_mention_wins Sample.site Sample.workspace []).
    vm_compute. reflexivity.
  - vm_compute. reflexivity.
Defined.

(** ** The views of a snapshot *)

(** C10: every view of a snapshot a fetch returns is a sheet of a fetched
    workbook, stored under its luid with the VIEW tag; its property bag is
    the sheet payload with the entry "workbook" set to [{"luid": id}], id
    being the id of the workbook the sheet was found under, and every
    other field of the sheet reads as it was fetched. *)
Theorem views_carry_their_workbook :
  forall server ws wire d ws' wire',
    fetch_tableau_workspace_data server ws wire = (Ok d, ws', wire') ->
    forall k c,
      In (k, c) (views_by_id d) ->
      exists workbook_id fields,
        In (workbook_id, JObj fields) (all_views (fetched ws')) /\
        luid_key (JObj fields) = Some k /\
        content_type c = VIEW /\
        properties c
        = JObj (dict_set string_dec "workbook" (JObj [("luid", workbook_id)]) fields) /\
        getitem (properties c) "workbook" = Ok (JObj [("luid", workbook_id)]) /\
        forall name,
          name <> "workbook" ->
          getitem (properties c) name = getitem (JObj fields) name.
Proof.
  intros server ws wire d ws' wire' H k c Hin.
  apply fetch_tableau_workspace_data_Ok in H. destruct H as [_ H].
  apply scan_workbooks_views in H. simpl in H. rewrite H in Hin.
  apply fold_record_In in Hin. destruct Hin as [[]|([wid v] & Hwv & Hk & Hc)].
  simpl in Hk, Hc. destruct (luid_key_JObj _ Hk) as (fields & luid & -> & _).
  exists wid, fields. subst c. unfold augment. simpl.
  repeat split; try assumption.
  - now rewrite dict_get_set_same.
  - intros name Hne. now rewrite dict_get_set_other.
Qed.

Lemma views_carry_their_workbook_witness :
  exists d ws' wire',
    fetch_tableau_workspace_data Sample.site Sample.workspace []
    = (Ok d, ws', wire') /\
    exists c workbook_id fields,
      In (workbook_id, JObj fields) (all_views (fetched ws')) /\
      luid_key (JObj fields) = Some (KStr "view-b") /\
      content_type c = VIEW /\
      properties c
      = JObj (dict_set string_dec "workbook" (JObj [("luid", workbook_id)]) fields) /\
      getitem (properties c) "workbook" = Ok (JObj [("luid", workbook_id)]) /\
      forall name,
        name <> "workbook" ->
        getitem (properties c) name = getitem (JObj fields) name.
Proof.
  eexists _, _, _. split; [vm_compute; reflexivity|].
  eexists.
  refine (views_carry_their_workbook Sample.site Sample.workspace [] _
            (KStr "view-b") _ _).
  - vm_compute. reflexivity.
  - right. left. reflexivity.
Defined.

(** ** The order of the asset specs *)

Lemma comprehension_Forall2 {A B} (f : A -> result B) (l : list A) (bs : list B) :
  comprehension f l = Ok bs -> Forall2 (fun a b => f a = Ok b) l bs.
Proof.
  revert bs. induction l as [|a l IH]; intros bs H; simpl in H.
  - injection H as <-. constructor.
  - bind_ok H b Hb. bind_ok H bs' Hbs. injection H as <-.
    constructor; [assumption | now apply IH].
Qed.

Lemma comprehension_app {A B} (f : A -> result B) (l1 l2 : list A) (bs : list B) :
  comprehension f (l1 ++ l2) = Ok bs ->
  exists bs1 bs2,
    bs = bs1 ++ bs2 /\ comprehension f l1 = Ok bs1 /\ comprehension f l2 = Ok bs2.
Proof.
  revert bs. induction l1 as [|a l1 IH]; intros bs H; simpl in *.
  - now exists [], bs.
  - bind_ok H b Hb. bind_ok H bs' Hbs. injection H as <-.
    destruct (IH _ Hbs) as (bs1 & bs2 & -> & H1 & H2).
    exists (b :: bs1), bs2. rewrite Hb, H1. simpl. auto.
Qed.

Lemma Forall2_of_map {A B C} (P : B -> C -> Prop) (f : A -> B) (l : list A)
  (cs : list C) :
  Forall2 P (map f l) cs -> Forall2 (fun a c => P (f a) c) l cs.
Proof.
  revert cs. induction l as [|a l IH]; intros cs H; inversion H; subst;
    constructor; auto.
Qed.


Section Specs.

Variable server : list request -> request -> result (result json).
Variable AssetSpec : Type.
Variable get_asset_spec :
  TableauWorkspaceData -> TableauContentData -> result AssetSpec.

Lemma build_asset_specs_Ok (ws ws' : BaseTableauWorkspace)
  (wire wire' : list request) (specs : list AssetSpec) :
  build_asset_specs server get_asset_spec ws wire = (Ok specs, ws', wire') ->
  exists d,
    fetch_tableau_workspace_data server ws wire = (Ok d, ws', wire') /\
    translate get_asset_spec d = Ok specs.
Proof.
  unfold build_asset_specs.
  destruct (fetch_tableau_workspace_data server ws wire) as [[[d|e] ws1] wire1];
    simpl; [|discriminate].
  intros [= H <- <-]. now exists d.
Qed.


End Specs.


(** ** Entities without an id *)

Lemma for_each_Forall {A S} (body : A -> S -> result S) (P : A -> Prop) :
  (forall a s s', body a s = Ok s' -> P a) ->
  forall l s s', for_each body l s = Ok s' -> Forall P l.
Proof.
  intros Hstep l. induction l as [|a l IH]; intros s s' H; simpl in H.
  - constructor.
  - bind_ok H s1 H1. constructor; eauto.
Qed.

Lemma scan_view_passable (workbook_id view_data : json) (acc acc' : snapshot) :
  scan_view workbook_id view_data acc = Ok acc' -> passable view_data.
Proof.
  unfold scan_view, record_view. intros H. bind_ok H vs Hvs.
  bind_ok Hvs luid Hluid. exists luid. split; [assumption|]. intros Ht.
  rewrite Ht in Hvs. bind_ok Hvs aug Haug. bind_ok Hvs k Hk. now exists k.
Qed.

Lemma scan_workbook_passable (workbook_id response : json) (acc acc' : snapshot) :
  scan_workbook workbook_id response acc = Ok acc' ->
  Forall passable (sheets_of response).
Proof.
  unfold scan_workbook, sheets_of. intros H.
  bind_ok H data Hd. bind_ok H found Hf. bind_ok H wd Hwd. bind_ok H k Hk.
  bind_ok H sheets Hs. bind_ok H items Hi.
  rewrite Hd. simpl. rewrite Hf. simpl. rewrite Hwd. simpl. rewrite Hs. simpl.
  rewrite Hi. simpl. revert H. apply for_each_Forall.
  intros a s s'. apply scan_view_passable.
Qed.

Lemma scan_workbooks_passable (fetched : list (json * json)) :
  forall acc acc',
    scan_workbooks fetched acc = Ok acc' ->
    Forall (fun wv => passable (snd wv)) (all_views fetched).
Proof.
  unfold scan_workbooks, all_views.
  induction fetched as [|p fetched IH]; intros acc acc' H; simpl in *.
  - constructor.
  - bind_ok H acc1 H1. apply Forall_app. split; [|eauto].
    apply scan_workbook_passable in H1. rewrite Forall_map. exact H1.
Qed.

(** C3, as stated, fails: a sheet whose luid is null is a top-level
    entity without its id, and the fetch returns a snapshot that has no
    view for it, raising nothing. *)
Lemma sheet_without_luid_counterexample :
  ~ (forall server ws wire d ws' wire',
        fetch_tableau_workspace_data server ws wire = (Ok d, ws', wire') ->
        forall wv,
          In wv (all_views (fetched ws')) ->
          exists k, luid_key (snd wv) = Some k /\ In k (dict_keys (views_by_id d))).
Proof.
  intros H.
  specialize (H (Sample.serving Sample.orphan) Sample.workspace []).
  destruct (fetch_tableau_workspace_data (Sample.serving Sample.orphan)
              Sample.workspace []) as [[[d|e] ws'] wire'] eqn:E.
  - specialize (H _ _ _ eq_refl). vm_compute in E. injection E as <- <- <-.
    destruct (H (JStr "wb-1", Sample.sheet JNull "D" [Sample.X])) as (k & Hk & _).
    + left. reflexivity.
    + vm_compute in Hk. discriminate.
  - vm_compute in E. discriminate.
Qed.

(** C3 (amended): a sheet from which no luid can be read (the field is
    missing, or the sheet is not a dict) makes the scan raise at that
    sheet, so a fetch that returns has read a luid from every sheet it
    went through. A sheet whose luid is falsy (null, empty) is passed
    over without an error and without an entry in [views_by_id], as a
    published data source with a falsy luid is; a sheet whose luid is
    truthy is in [views_by_id] under that luid. *)
Theorem sheets_without_luid :
  (forall workbook_id view_data acc e,
      getitem view_data "luid" = Raise e ->
      scan_view workbook_id view_data acc = Raise e) /\
  (forall workbook_id view_data views_by_id luid,
      getitem view_data "luid" = Ok luid -> truthy luid = false ->
      record_view workbook_id view_data views_by_id = Ok views_by_id) /\
  (forall published_data_source_data data_sources_by_id luid,
      getitem published_data_source_data "luid" = Ok luid -> truthy luid = false ->
      scan_published_data_source published_data_source_data data_sources_by_id
      = Ok data_sources_by_id) /\
  (forall server ws wire d ws' wire',
      fetch_tableau_workspace_data server ws wire = (Ok d, ws', wire') ->
      forall workbook_id view_data,
        In (workbook_id, view_data) (all_views (fetched ws')) ->
        exists luid,
          getitem view_data "luid" = Ok luid /\
          (truthy luid = true ->
           exists k, py_hash luid = Ok k /\ In k (dict_keys (views_by_id d)))).
Proof.
  split; [|split; [|split]].
  - intros workbook_id view_data acc e H.
    unfold scan_view, record_view. now rewrite H.
  - intros workbook_id view_data vs luid H Ht.
    unfold record_view. rewrite H. simpl. now rewrite Ht.
  - intros m ds luid H Ht.
    unfold scan_published_data_source. rewrite H. simpl. now rewrite Ht.
  - intros server ws wire d ws' wire' H workbook_id view_data Hin.
    apply fetch_tableau_workspace_data_Ok in H. destruct H as [_ H].
    pose proof (scan_workbooks_passable _ _ H) as Hp.
    rewrite Forall_forall in Hp. destruct (Hp _ Hin) as (luid & Hl & Hh).
    exists luid. split; [assumption|]. intros Ht.
    destruct (Hh Ht) as [k Hk]. exists k. split; [assumption|].
    apply scan_workbooks_views in H. simpl in H.
    rewrite H, fold_record_keys. simpl. rewrite fold_add_key_nil.
    apply first_seen_In, luid_keys_In. exists view_data. split.
    + change view_data with (snd (workbook_id, view_data)). now apply in_map.
    + unfold luid_key. simpl in Hl. now rewrite Hl, Ht, Hk.
Qed.

Lemma sheets_without_luid_witness :
  scan_view (JStr "wb-1") (JObj [("name", JStr "D")]) empty_snapshot
  = Raise KeyError /\
  record_view (JStr "wb-1") (Sample.sheet JNull "D" [Sample.X]) [] = Ok [] /\
  scan_published_data_source Sample.nameless [] = Ok [] /\
  exists d ws' wire',
    fetch_tableau_workspace_data Sample.site Sample.workspace []
    = (Ok d, ws', wire') /\
    exists luid,
      getitem Sample.sheet_A "luid" = Ok luid /\
      (truthy luid = true ->
       exists k, py_hash luid = Ok k /\ In k (dict_keys (views_by_id d))).
Proof.
  destruct sheets_without_luid as (Hraise & Hview & Hsource & Hfetch).
  split; [|split; [|split]].
  - apply Hraise. reflexivity.
  - apply (Hview _ _ _ JNull); reflexivity.
  - apply (Hsource _ _ JNull); reflexivity.
  - eexists _, _, _. split; [vm_compute; reflexivity|].
    refine (Hfetch Sample.site Sample.workspace [] _ _ _ _ (JStr "wb-1") _ _).
    + vm_compute. reflexivity.
    + left. reflexivity.
Defined.

(** ** Published data sources without an id *)

Lemma scan_published_null (m : json) (ds : contents) :
  getitem m "luid" = Ok JNull -> scan_published_data_source m ds = Ok ds.
Proof.
  intros H. unfold scan_published_data_source. now rewrite H.
Qed.

Lemma for_each_idle {A S} (body : A -> S -> result S) (l : list A) (s : S) :
  Forall (fun a => body a s = Ok s) l -> for_each body l s = Ok s.
Proof.
  induction 1 as [|a l Ha Hl IH]; simpl; [reflexivity|]. now rewrite Ha.
Qed.

Lemma record_view_passable (workbook_id view_data : json) (vs : contents) :
  passable view_data ->
  record_view workbook_id view_data vs = Ok (record vs (workbook_id, view_data)).
Proof.
  intros (luid & Hl & Hh). unfold record_view, record, luid_key, augment. simpl.
  rewrite Hl. simpl. destruct (truthy luid); [|reflexivity].
  destruct (Hh eq_refl) as [k Hk]. rewrite Hk.
  unfold getitem in Hl. destruct view_data; try discriminate. reflexivity.
Qed.

Lemma scan_view_only_null_sources (workbook_id view_data : json) (acc : snapshot) :
  passable view_data -> only_null_sources view_data ->
  scan_view workbook_id view_data acc
  = Ok {| workbooks := workbooks acc;
          views := record (views acc) (workbook_id, view_data);
          data_sources := data_sources acc |}.
Proof.
  intros Hp (embedded & He & Hall). unfold scan_view.
  rewrite (record_view_passable _ _ Hp). simpl.
  bind_ok He e He'. rewrite He'. simpl. rewrite He. simpl.
  rewrite for_each_idle; [reflexivity|].
  eapply Forall_impl; [|exact Hall]. intros a (published & Ha & Hnull).
  unfold scan_embedded_data_source. bind_ok Ha p Hp'. rewrite Hp'. simpl.
  rewrite Ha. simpl. apply for_each_idle.
  eapply Forall_impl; [|exact Hnull]. intros m. apply scan_published_null.
Qed.

Lemma non_null_keys_null (ms : list json) :
  Forall (fun m => getitem m "luid" = Ok JNull) ms -> non_null_keys ms = [].
Proof.
  induction 1 as [|m ms Hm Hms IH]; [reflexivity|].
  unfold non_null_keys in *. simpl. unfold non_null_key at 1. now rewrite Hm.
Qed.

(** ** The session *)

Section SessionFacts.

Variable server : list request -> request -> result (result json).

Lemma sign_in_sent (s : session) :
  sent (snd (sign_in server s)) = sent s ++ [sign_in_request].
Proof.
  cbv [sign_in bind _fetch_json _make_request lift update ret]. simpl.
  destruct (server (sent s) _) as [[response|e]|e]; simpl; try reflexivity.
  destruct (getitem response "credentials") as [credentials|]; simpl;
    [|reflexivity].
  destruct (getitem credentials "token"); simpl; [|reflexivity].
  destruct (getitem credentials "site") as [site|]; simpl; [|reflexivity].
  destruct (getitem site "id"); reflexivity.
Qed.

Lemma sign_in_caches (s : session) :
  caches (self (snd (sign_in server s))) = caches (self s).
Proof.
  cbv [sign_in bind _fetch_json _make_request lift update ret]. simpl.
  destruct (server (sent s) _) as [[response|e]|e]; simpl; try reflexivity.
  destruct (getitem response "credentials") as [credentials|]; simpl;
    [|reflexivity].
  destruct (getitem credentials "token"); simpl; [|reflexivity].
  destruct (getitem credentials "site") as [site|]; simpl; [|reflexivity].
  destruct (getitem site "id"); reflexivity.
Qed.

Lemma get_client_run {A} (body : M A) (ws : BaseTableauWorkspace)
  (wire : list request) :
  get_client server body ws wire
  = (fst (with_client server body {| self := client_of ws; sent := wire |}),
     {| site_name := site_name ws;
        _client :=
          Some (self (snd (with_client server body
                             {| self := client_of ws; sent := wire |}))) |},
     sent (snd (with_client server body {| self := client_of ws; sent := wire |}))).
Proof.
  unfold get_client, client_of.
  destruct (_client ws) as [c|] eqn:E; simpl; [rewrite E|];
    now destruct (with_client server body _).
Qed.

(** A failed sign-in ends the [with] statement before its body. *)
Lemma with_client_sign_in_raises {A} (body : M A) (s s1 : session) (e : exn) :
  sign_in server s = (Raise e, s1) ->
  with_client server body s = (Raise e, s1).
Proof.
  intros H. unfold with_client, bind. now rewrite H.
Qed.

(** An exception of the body leaves the [with] statement as it is: the
    code after the [yield] is not run. *)
Lemma with_client_body_raises {A} (body : M A) (s s1 s2 : session)
  (r : json) (e : exn) :
  sign_in server s = (Ok r, s1) ->
  body s1 = (Raise e, s2) ->
  with_client server body s = (Raise e, s2).
Proof.
  intros H1 H2. unfold with_client, bind. now rewrite H1, H2.
Qed.

Variable AssetSpec : Type.
Variable get_asset_spec :
  TableauWorkspaceData -> TableauContentData -> result AssetSpec.

(** C6: when the sign-in raises, [build_asset_specs] raises the same
    exception to its caller and returns no specs; the sign-in request is
    the only request the call has sent, so no sign-out was attempted. *)
Theorem sign_in_failure_ends_the_call :
  forall ws wire e s1,
    sign_in server {| self := client_of ws; sent := wire |} = (Raise e, s1) ->
    build_asset_specs server get_asset_spec ws wire
    = (Raise e,
       {| site_name := site_name ws; _client := Some (self s1) |},
       wire ++ [sign_in_request]).
Proof.
  intros ws wire e s1 H.
  unfold build_asset_specs, fetch_tableau_workspace_data.
  rewrite get_client_run.
  rewrite (with_client_sign_in_raises _ _ H). simpl.
  pose proof (sign_in_sent {| self := client_of ws; sent := wire |}) as Hs.
  rewrite H in Hs. simpl in Hs. now rewrite Hs.
Qed.

End SessionFacts.

Lemma sign_in_failure_ends_the_call_witness :
  build_asset_specs Sample.closed_site Sample.name_of Sample.workspace []
  = (Raise HTTPError,
     {| site_name := "acme"; _client := Some new_client |},
     [sign_in_request]).
Proof.
  apply (sign_in_failure_ends_the_call Sample.closed_site
           Sample.name_of Sample.workspace []
           (e := HTTPError)
           (s1 := {| self := new_client; sent := [sign_in_request] |})).
  reflexivity.
Defined.

(** C1 fails on the code: the generator of [get_client] has no
    [try]/[finally] around its [yield]. When the metadata API is down, or
    when a sheet comes without its luid, the fetch raises after a sign-in
    that succeeded; no sign-out request is sent and the client keeps its
    token. *)
Theorem body_failure_skips_sign_out :
  (let '(r, ws', wire') :=
     fetch_tableau_workspace_data Sample.half_site Sample.workspace [] in
   r = Raise HTTPError /\
   map url wire'
   = [auth_signin; site_workbooks (JStr "site-7"); metadata_graphql (JStr "wb-1")] /\
   option_map _api_token (_client ws') = Some (JStr "t0k3n")) /\
  (let '(r, ws', wire') :=
     fetch_tableau_workspace_data (Sample.serving Sample.broken)
       Sample.workspace [] in
   r = Raise KeyError /\
   map url wire'
   = [auth_signin; site_workbooks (JStr "site-7"); metadata_graphql (JStr "wb-1")] /\
   option_map _api_token (_client ws') = Some (JStr "t0k3n")).
Proof.
  split; vm_compute; repeat split.
Qed.

(** C7, as stated, fails: a second sign-out is not a no-op. *)
Lemma sign_out_twice_counterexample :
  ~ (forall server s s1,
        sign_out server s = (Ok tt, s1) -> sign_out server s1 = (Ok tt, s1)).
Proof.
  intros H.
  specialize (H Sample.site Sample.signed_in_session
                (snd (sign_out Sample.site Sample.signed_in_session)) eq_refl).
  vm_compute in H. discriminate.
Qed.

(** C7 (amended): a sign-out that returns leaves the token and the site id
    None. Signing out again sends the sign-out request once more, now with
    a None token; if the site accepts it the call returns and the token
    and the site id stay None, and if the site refuses it the exception
    is raised to the caller and the client is left as it was. *)
Theorem sign_out_again :
  forall server s s1,
    sign_out server s = (Ok tt, s1) ->
    _api_token (self s1) = JNull /\
    _site_id (self s1) = JNull /\
    sent s1 = sent s ++ [sign_out_request (_api_token (self s))] /\
    sent (snd (sign_out server s1)) = sent s1 ++ [sign_out_request JNull] /\
    (forall s2, sign_out server s1 = (Ok tt, s2) -> self s2 = self s1) /\
    (forall e s2, sign_out server s1 = (Raise e, s2) -> self s2 = self s1).
Proof.
  intros server s s1 H. rewrite sign_out_run in H. cbv zeta in H.
  destruct (server (sent s) _) as [response|e]; [|discriminate].
  injection H as <-. simpl. repeat split.
  - rewrite sign_out_run. cbv zeta. simpl. now destruct (server _ _).
  - intros s2. rewrite sign_out_run. cbv zeta. simpl.
    destruct (server _ _); [|discriminate]. now intros [= <-].
  - intros e s2. rewrite sign_out_run. cbv zeta. simpl.
    destruct (server _ _); [discriminate|]. now intros [= _ <-].
Qed.

Lemma sign_out_again_witness :
  let s := Sample.signed_in_session in
  let s1 := snd (sign_out Sample.site s) in
  _api_token (self s1) = JNull /\
  _site_id (self s1) = JNull /\
  sent s1 = sent s ++ [sign_out_request (_api_token (self s))] /\
  sent (snd (sign_out Sample.site s1)) = sent s1 ++ [sign_out_request JNull] /\
  (forall s2, sign_out Sample.site s1 = (Ok tt, s2) -> self s2 = self s1) /\
  (forall e s2, sign_out Sample.site s1 = (Raise e, s2) -> self s2 = self s1).
Proof.
  apply (sign_out_again Sample.site Sample.signed_in_session).
  reflexivity.
Defined.

(** ** The cached fetches across sessions *)

Lemma answer_for_caches (c c' : BaseTableauClient) (workbook_id : json) :
  caches c = caches c' -> answer_for c workbook_id = answer_for c' workbook_id.
Proof.
  unfold caches, answer_for. intros [= _ H]. now rewrite H.
Qed.

Lemma answers_caches (c c' : BaseTableauClient) :
  caches c = caches c' -> answers c = answers c'.
Proof.
  intros H. unfold answers. pose proof H as [= H1 _]. rewrite H1.
  destruct (get_workbooks_cache c'); [|reflexivity].
  apply flat_map_ext. intros a. now apply answer_for_caches.
Qed.

Lemma complete_caches (c c' : BaseTableauClient) :
  caches c = caches c' -> complete c -> complete c'.
Proof.
  intros H (listing & ids & Hl & Hids & Hall). exists listing, ids.
  pose proof H as [= H1 _]. split; [congruence|]. split; [assumption|].
  eapply Forall_impl; [|exact Hall]. intros a Ha.
  now rewrite <- (answer_for_caches a H).
Qed.

Section Cycles.

Variable server : list request -> request -> result (result json).

Local Abbreviation loop_body :=
  (fun workbook_id acc =>
     bind (get_workbook server workbook_id)
       (fun response => lift (scan_workbook workbook_id response acc))).

Lemma answer_for_grows (c c' : BaseTableauClient) (workbook_id : json) :
  cache_grows c c' ->
  answer_for c workbook_id <> [] -> answer_for c' workbook_id <> [].
Proof.
  intros [_ Hg]. unfold answer_for. destruct (py_hash workbook_id) as [k|]; [|auto].
  destruct (dict_get key_eq_dec k (get_workbook_cache c)) as [a|] eqn:E;
    [|congruence].
  rewrite (Hg _ _ E). discriminate.
Qed.

Lemma fetch_loop_answered (ids : list json) :
  forall (acc acc' : snapshot) (s s' : session),
    for_each_M loop_body ids acc s = (Ok acc', s') ->
    Forall (fun workbook_id => answer_for (self s') workbook_id <> []) ids.
Proof.
  induction ids as [|workbook_id ids IH]; intros acc acc' s s' H; simpl in H.
  - constructor.
  - bind_M H acc1 s1 H1. bind_M H1 response s0 H0. lift_M H1.
    destruct (fetch_loop _ _ _ _ H) as (_ & Hg & _).
    destruct (get_workbook_Ok _ _ _ H0) as ((k & Hk & Hget) & _ & _).
    constructor; [|eauto].
    apply (answer_for_grows _ Hg). unfold answer_for. rewrite Hk, Hget.
    discriminate.
Qed.

Lemma fetch_body_complete (s s' : session) (found : snapshot) :
  fetch_body server s = (Ok found, s') -> complete (self s').
Proof.
  unfold fetch_body. intros H.
  bind_M H response s1 H1. bind_M H workbooks_data s2 H2. lift_M H2.
  bind_M H listed s3 H3. lift_M H3. bind_M H items s4 H4. lift_M H4.
  bind_M H workbook_ids s5 H5. lift_M H5.
  apply get_workbooks_Ok in H1. destruct H1 as (Hl & _ & _).
  pose proof (fetch_loop_answered _ _ _ H) as Hall.
  apply fetch_loop in H. destruct H as (Hl' & _ & _).
  exists response, workbook_ids. split; [congruence|]. split; [|assumption].
  unfold listed_ids. rewrite H2. simpl. rewrite H3. simpl. now rewrite H4.
Qed.



End Cycles.

Lemma fetch_leaves_complete_client :
  forall server ws wire d ws1 wire1,
    fetch_tableau_workspace_data server ws wire = (Ok d, ws1, wire1) ->
    exists c1,
      _client ws1 = Some c1 /\ complete c1 /\ site_name ws1 = site_name ws.
Proof.
  intros server ws wire d ws1 wire1 H.
  unfold fetch_tableau_workspace_data in H. rewrite get_client_run in H.
  destruct (with_client server (fetch_body server) _) as [[found|e] s3] eqn:E;
    simpl in H; [|discriminate].
  injection H as _ <- _. exists (self s3). repeat split.
  apply with_client_Ok in E. destruct E as (r & s1 & s2 & _ & Hbody & Hout).
  apply fetch_body_complete in Hbody.
  apply (complete_caches (c := self s2)); [|assumption].
  rewrite <- (sign_out_caches server s2). now rewrite Hout.
Qed.




(** ** Signing in *)

Section SignIn.

Variable server : list request -> request -> result (result json).

(** X1: a sign-in that returns has sent one request, the sign-in without
    the auth header, and returns the answer of the site; the client then
    holds the token and the site id of that answer, and its cached answers
    are untouched. *)
Theorem sign_in_stores_credentials :
  forall s response s',
    sign_in server s = (Ok response, s') ->
    server (sent s) sign_in_request = Ok (Ok response) /\
    (exists credentials site,
        getitem response "credentials" = Ok credentials /\
        getitem credentials "token" = Ok (_api_token (self s')) /\
        getitem credentials "site" = Ok site /\
        getitem site "id" = Ok (_site_id (self s'))) /\
    sent s' = sent s ++ [sign_in_request] /\
    caches (self s') = caches (self s).
Proof.
  intros s response s'.
  cbv [sign_in bind _fetch_json _make_request lift update ret]. simpl.
  fold sign_in_request.
  destruct (server (sent s) sign_in_request) as [[r|e]|e]; simpl;
    try discriminate.
  destruct (getitem r "credentials") as [credentials|] eqn:Ec; simpl;
    [|discriminate].
  destruct (getitem credentials "token") as [token|] eqn:Et; simpl;
    [|discriminate].
  destruct (getitem credentials "site") as [site|] eqn:Es; simpl;
    [|discriminate].
  destruct (getitem site "id") as [id'|] eqn:Ei; simpl; [|discriminate].
  intros [= <- <-]. simpl. rewrite Ec. repeat split.
  exists credentials, site. auto.
Qed.

(** X2: a sign-in that raises leaves the site id and the cached answers
    as they were. It leaves the token as it was too, unless the answer
    carried a token and no site id: then the new token is already on the
    client when the missing site id raises. *)
Theorem sign_in_failure_keeps_site_id :
  forall s e s',
    sign_in server s = (Raise e, s') ->
    sent s' = sent s ++ [sign_in_request] /\
    _site_id (self s') = _site_id (self s) /\
    caches (self s') = caches (self s) /\
    (_api_token (self s') = _api_token (self s) \/
     exists response credentials,
       server (sent s) sign_in_request = Ok (Ok response) /\
       getitem response "credentials" = Ok credentials /\
       getitem credentials "token" = Ok (_api_token (self s')) /\
       (let? site := getitem credentials "site" in getitem site "id") = Raise e).
Proof.
  intros s e s'.
  cbv [sign_in bind _fetch_json _make_request lift update ret]. simpl.
  fold sign_in_request.
  destruct (server (sent s) sign_in_request) as [[r|e0]|e0]; simpl;
    try (intros [= <- <-]; simpl; auto).
  destruct (getitem r "credentials") as [credentials|] eqn:Ec; simpl;
    [|intros [= <- <-]; simpl; auto].
  destruct (getitem credentials "token") as [token|] eqn:Et; simpl;
    [|intros [= <- <-]; simpl; auto].
  destruct (getitem credentials "site") as [site|] eqn:Es; simpl.
  - destruct (getitem site "id") as [id'|] eqn:Ei; simpl; [discriminate|].
    intros [= <- <-]. simpl. repeat split. right. exists r, credentials.
    rewrite Es. simpl. auto.
  - intros [= <- <-]. simpl. repeat split. right. exists r, credentials.
    rewrite Es. simpl. auto.
Qed.

End SignIn.

Lemma sign_in_stores_credentials_witness :
  exists response s',
    sign_in Sample.site Cases.stale_session = (Ok response, s') /\
    _api_token (self s') = JStr "t0k3n" /\
    _site_id (self s') = JStr "site-7" /\
    sent s' = sent Cases.stale_session ++ [sign_in_request] /\
    caches (self s') = caches (self Cases.stale_session).
Proof.
  eexists _, _. split; [vm_compute; reflexivity|].
  split; [reflexivity|]. split; [reflexivity|].
  eapply proj2, proj2, (sign_in_stores_credentials Sample.site Cases.stale_session).
  vm_compute. reflexivity.
Defined.

Lemma sign_in_failure_keeps_site_id_witness :
  exists s',
    sign_in Cases.siteless Cases.stale_session = (Raise KeyError, s') /\
    _api_token (self s') = JStr "t0k3n" /\
    sent s' = sent Cases.stale_session ++ [sign_in_request] /\
    _site_id (self s') = JStr "site-1".
Proof.
  eexists. split; [vm_compute; reflexivity|]. split; [reflexivity|].
  destruct (sign_in_failure_keeps_site_id Cases.siteless Cases.stale_session
              (e := KeyError) ltac:(vm_compute; reflexivity))
    as (Hsent & Hsite & _).
  split; [exact Hsent | exact Hsite].
Defined.

(** ** Which payloads the scan accepts *)

Lemma for_each_total {A S} (body : A -> S -> result S) (l : list A) :
  Forall (fun a => forall s, exists s', body a s = Ok s') l ->
  forall s, exists s', for_each body l s = Ok s'.
Proof.
  induction 1 as [|a l Ha Hl IH]; intros s; simpl.
  - now exists s.
  - destruct (Ha s) as [s1 H1]. rewrite H1. simpl. apply IH.
Qed.

Lemma scan_published_data_source_total (m : json) :
  passable m -> forall ds, exists ds', scan_published_data_source m ds = Ok ds'.
Proof.
  intros (luid & Hl & Hh) ds. unfold scan_published_data_source.
  rewrite Hl. simpl. destruct (truthy luid); [|now exists ds].
  destruct (Hh eq_refl) as [k Hk]. rewrite Hk. simpl.
  destruct (dict_mem key_eq_dec k ds); eauto.
Qed.

Lemma scan_published_data_source_passable (m : json) (ds ds' : contents) :
  scan_published_data_source m ds = Ok ds' -> passable m.
Proof.
  unfold scan_published_data_source. intros H. bind_ok H luid Hl.
  exists luid. split; [assumption|]. intros Ht. rewrite Ht in H.
  bind_ok H k Hk. now exists k.
Qed.

Lemma scan_embedded_data_source_well_formed (e : json) (ds ds' : contents) :
  scan_embedded_data_source e ds = Ok ds' -> well_formed_embedded e.
Proof.
  unfold scan_embedded_data_source, well_formed_embedded. intros H.
  bind_ok H p Hp. bind_ok H items Hi. exists items. rewrite Hp. simpl.
  split; [assumption|]. revert H. apply for_each_Forall.
  intros a s s'. apply scan_published_data_source_passable.
Qed.

Lemma scan_embedded_data_source_total (e : json) :
  well_formed_embedded e ->
  forall ds, exists ds', scan_embedded_data_source e ds = Ok ds'.
Proof.
  unfold scan_embedded_data_source. intros (published & Hp & Hall) ds.
  bind_ok Hp p Hp'. rewrite Hp'. simpl. rewrite Hp. simpl.
  apply for_each_total. eapply Forall_impl; [|exact Hall].
  intros a. apply scan_published_data_source_total.
Qed.

Lemma scan_view_well_formed (workbook_id view_data : json) (acc acc' : snapshot) :
  scan_view workbook_id view_data acc = Ok acc' -> well_formed_sheet view_data.
Proof.
  intros H. split; [now apply scan_view_passable in H|].
  unfold scan_view in H. bind_ok H vs Hvs. bind_ok H e He.
  bind_ok H items Hi. bind_ok H ds Hds. exists items. rewrite He. simpl.
  split; [assumption|]. revert Hds. apply for_each_Forall.
  intros a s s'. apply scan_embedded_data_source_well_formed.
Qed.

Lemma scan_view_total (workbook_id view_data : json) :
  well_formed_sheet view_data ->
  forall acc, exists acc', scan_view workbook_id view_data acc = Ok acc'.
Proof.
  intros (Hp & embedded & He & Hall) acc. unfold scan_view.
  rewrite (record_view_passable _ _ Hp). simpl.
  bind_ok He e He'. rewrite He'. simpl. rewrite He. simpl.
  destruct (for_each_total scan_embedded_data_source (l := embedded))
    with (s := data_sources acc) as [ds' Hds].
  - eapply Forall_impl; [|exact Hall]. intros a.
    apply scan_embedded_data_source_total.
  - rewrite Hds. simpl. eauto.
Qed.

Lemma scan_workbook_well_formed (p : json * json) (acc acc' : snapshot) :
  scan_workbook (fst p) (snd p) acc = Ok acc' -> well_formed_answer p.
Proof.
  unfold scan_workbook, well_formed_answer, first_workbook. intros H.
  bind_ok H data Hd. bind_ok H found Hf. bind_ok H wd Hwd.
  bind_ok H k Hk. bind_ok H sh Hsh. bind_ok H items Hi.
  split; [now exists k|]. exists wd, items.
  rewrite Hd. simpl. rewrite Hf. simpl. rewrite Hsh. simpl.
  repeat split; try assumption. revert H. apply for_each_Forall.
  intros a s s'. apply scan_view_well_formed.
Qed.

Lemma scan_workbook_total (p : json * json) :
  well_formed_answer p ->
  forall acc, exists acc', scan_workbook (fst p) (snd p) acc = Ok acc'.
Proof.
  unfold scan_workbook, first_workbook.
  intros ((k & Hk) & wd & sheets & Hwd & Hs & Hall) acc.
  bind_ok Hwd data Hd. bind_ok Hwd found Hf.
  rewrite Hd. simpl. rewrite Hf. simpl. rewrite Hwd. simpl. rewrite Hk. simpl.
  bind_ok Hs sh Hsh. rewrite Hsh. simpl. rewrite Hs. simpl.
  apply for_each_total. eapply Forall_impl; [|exact Hall]. intros a.
  apply scan_view_total.
Qed.

Lemma scan_workbooks_well_formed (fetched : list (json * json))
  (acc acc' : snapshot) :
  scan_workbooks fetched acc = Ok acc' -> Forall well_formed_answer fetched.
Proof.
  unfold scan_workbooks. apply for_each_Forall.
  intros a s s'. apply scan_workbook_well_formed.
Qed.

(** X3: the scan of the fetched answers returns a snapshot exactly when
    every answer is well formed: the workbook id is hashable, the answer
    has a first workbook whose sheets can be iterated, every sheet and
    every published data source has a luid field that is falsy or
    hashable, and the two data source fields of a sheet are absent or
    iterable. On any other payload it raises. *)
Theorem scan_workbooks_accepts :
  forall fetched acc,
    (exists acc', scan_workbooks fetched acc = Ok acc') <->
    Forall well_formed_answer fetched.
Proof.
  intros fetched acc. split.
  - intros [acc' H]. now apply scan_workbooks_well_formed in H.
  - intros H. unfold scan_workbooks. apply for_each_total. eapply Forall_impl; [|exact H].
    intros a. apply scan_workbook_total.
Qed.

Lemma scan_workbooks_accepts_witness :
  Forall well_formed_answer [(JStr "wb-1", Sample.sales)] /\
  ~ Forall well_formed_answer [(JStr "wb-1", Cases.unknown)].
Proof.
  split.
  - apply (scan_workbooks_accepts [(JStr "wb-1", Sample.sales)] empty_snapshot).
    eexists. vm_compute. reflexivity.
  - intros H.
    apply (scan_workbooks_accepts [(JStr "wb-1", Cases.unknown)] empty_snapshot) in H.
    destruct H as [acc' H]. vm_compute in H. discriminate.
Defined.

(** X4: the two data source fields of a payload default to an empty list
    only when the key is absent. A sheet whose
    "parentEmbeddedDatasources" is null, or an embedded data source whose
    "parentPublishedDatasources" is null, makes the scan raise TypeError;
    an embedded data source without the key is scanned without effect. *)
Theorem null_list_field_raises :
  (forall workbook_id view_data acc,
      passable view_data ->
      get view_data "parentEmbeddedDatasources" (JArr []) = Ok JNull ->
      scan_view workbook_id view_data acc = Raise TypeError) /\
  (forall embedded_data_source_data data_sources_by_id,
      get embedded_data_source_data "parentPublishedDatasources" (JArr [])
      = Ok JNull ->
      scan_embedded_data_source embedded_data_source_data data_sources_by_id
      = Raise TypeError) /\
  (forall fields data_sources_by_id,
      dict_get string_dec "parentPublishedDatasources" fields = None ->
      scan_embedded_data_source (JObj fields) data_sources_by_id
      = Ok data_sources_by_id).
Proof.
  split; [|split].
  - intros workbook_id view_data acc Hp H. unfold scan_view.
    rewrite (record_view_passable _ _ Hp). simpl. now rewrite H.
  - intros e ds H. unfold scan_embedded_data_source. now rewrite H.
  - intros fields ds H. unfold scan_embedded_data_source, get. now rewrite H.
Qed.

Lemma null_list_field_raises_witness :
  scan_view (JStr "wb-1") Cases.null_sources empty_snapshot = Raise TypeError /\
  scan_embedded_data_source (JObj [("parentPublishedDatasources", JNull)]) []
  = Raise TypeError /\
  scan_embedded_data_source (JObj [("name", JStr "e")]) [] = Ok [].
Proof.
  destruct null_list_field_raises as (Hview & Hembedded & Habsent).
  split; [|split].
  - apply Hview; [|reflexivity].
    exists (JStr "view-n"). split; [reflexivity|]. intros _.
    now exists (KStr "view-n").
  - apply Hembedded. reflexivity.
  - apply Habsent. reflexivity.
Defined.

(** ** The workbooks and the views of a snapshot, entry by entry *)

Lemma for_each_keep {A S T} (body : A -> S -> result S) (phi : S -> T) :
  (forall a s s', body a s = Ok s' -> phi s' = phi s) ->
  forall l s s', for_each body l s = Ok s' -> phi s' = phi s.
Proof.
  intros Hstep l. induction l as [|a l IH]; intros s s' H; simpl in *.
  - now injection H as <-.
  - bind_ok H s1 H1. rewrite (IH _ _ H). eauto.
Qed.

Lemma scan_view_workbooks (workbook_id view_data : json) (acc acc' : snapshot) :
  scan_view workbook_id view_data acc = Ok acc' -> workbooks acc' = workbooks acc.
Proof.
  unfold scan_view. intros H.
  bind_ok H vs Hvs. bind_ok H embedded He. bind_ok H items Hi. bind_ok H ds Hds.
  now injection H as <-.
Qed.

Lemma scan_workbook_workbooks (p : json * json) (acc acc' : snapshot) :
  scan_workbook (fst p) (snd p) acc = Ok acc' ->
  workbooks acc' = file_workbook (workbooks acc) p.
Proof.
  unfold scan_workbook, file_workbook, first_workbook. intros H.
  bind_ok H data Hd. bind_ok H found Hf. bind_ok H wd Hwd. bind_ok H k Hk.
  bind_ok H sheets Hs. bind_ok H items Hi.
  rewrite Hk, Hd. simpl. rewrite Hf. simpl. rewrite Hwd.
  apply (for_each_keep _ workbooks) in H; [exact H|].
  intros a s s'. apply scan_view_workbooks.
Qed.

Lemma for_each_project {A S T} (body : A -> S -> result S) (phi : S -> T)
  (h : T -> A -> T) :
  (forall a s s', body a s = Ok s' -> phi s' = h (phi s) a) ->
  forall l s s', for_each body l s = Ok s' -> phi s' = fold_left h l (phi s).
Proof.
  intros Hstep l. induction l as [|a l IH]; intros s s' H; simpl in *.
  - now injection H as <-.
  - bind_ok H s1 H1. rewrite <- (Hstep _ _ _ H1). now apply IH.
Qed.

Lemma scan_workbooks_workbooks (fetched : list (json * json))
  (acc acc' : snapshot) :
  scan_workbooks fetched acc = Ok acc' ->
  workbooks acc' = fold_left file_workbook fetched (workbooks acc).
Proof.
  unfold scan_workbooks. apply (for_each_project _ workbooks).
  intros a s s'. apply scan_workbook_workbooks.
Qed.

Lemma file_workbook_keys (wbs : contents) (p : json * json) :
  well_formed_answer p ->
  dict_keys (file_workbook wbs p)
  = fold_left (fun acc k => add_key key_eq_dec k acc) (hash_keys [fst p])
      (dict_keys wbs).
Proof.
  intros ((k & Hk) & wd & sheets & Hwd & _). unfold file_workbook, hash_keys.
  simpl. rewrite Hk, Hwd. simpl. apply dict_set_keys.
Qed.

Lemma fold_file_workbook_keys (l : list (json * json)) :
  Forall well_formed_answer l ->
  forall wbs,
    dict_keys (fold_left file_workbook l wbs)
    = fold_left (fun acc k => add_key key_eq_dec k acc) (hash_keys (map fst l))
        (dict_keys wbs).
Proof.
  induction 1 as [|p l Hp Hl IH]; intros wbs; [reflexivity|].
  simpl map. change (fst p :: map fst l) with ([fst p] ++ map fst l).
  unfold hash_keys at 1. rewrite flat_map_app, fold_left_app.
  fold (hash_keys [fst p]). fold (hash_keys (map fst l)).
  rewrite <- (file_workbook_keys _ Hp). simpl. apply IH.
Qed.

Lemma fold_file_workbook_In (l : list (json * json)) (wbs : contents)
  (e : key * TableauContentData) :
  In e (fold_left file_workbook l wbs) ->
  In e wbs \/
  exists p workbook_data,
    In p l /\ py_hash (fst p) = Ok (fst e) /\
    first_workbook (snd p) = Ok workbook_data /\
    snd e = workbook_content workbook_data.
Proof.
  revert wbs. induction l as [|p l IH]; intros wbs H; simpl in *; [now left|].
  destruct (IH _ H) as [Hin|(p' & wd & Hp' & Hrest)].
  - unfold file_workbook in Hin.
    destruct (py_hash (fst p)) as [k|] eqn:Ek; [|now left].
    destruct (first_workbook (snd p)) as [wd|] eqn:Ew; [|now left].
    apply In_dict_set in Hin. destruct Hin as [->|Hin]; [|now left].
    right. exists p, wd. simpl. auto.
  - right. exists p', wd. split; [now right | assumption].
Qed.

Lemma answers_In (c : BaseTableauClient) (workbook_id answer : json) :
  In (workbook_id, answer) (answers c) ->
  exists k,
    py_hash workbook_id = Ok k /\
    dict_get key_eq_dec k (get_workbook_cache c) = Some answer.
Proof.
  unfold answers. destruct (get_workbooks_cache c) as [listing|]; [|contradiction].
  rewrite in_flat_map. intros (x & _ & Hx). unfold answer_for in Hx.
  destruct (py_hash x) as [k|] eqn:Ek; [|contradiction].
  destruct (dict_get key_eq_dec k (get_workbook_cache c)) as [a|] eqn:Eg;
    [|contradiction].
  destruct Hx as [[= <- <-]|[]]. now exists k.
Qed.

Lemma hash_keys_In (k : key) (l : list json) :
  In k (hash_keys l) <-> exists x, In x l /\ py_hash x = Ok k.
Proof.
  unfold hash_keys. rewrite in_flat_map. split.
  - intros (x & Hx & Hk). exists x. split; [assumption|].
    destruct (py_hash x) as [k'|]; [|contradiction].
    destruct Hk as [->|[]]. reflexivity.
  - intros (x & Hx & Hk). exists x. split; [assumption|]. rewrite Hk. now left.
Qed.

Lemma complete_answers_ids (c : BaseTableauClient) :
  complete c ->
  exists listing,
    get_workbooks_cache c = Some listing /\
    listed_ids listing = Ok (map fst (answers c)).
Proof.
  intros (listing & ids & Hl & Hids & Hall). exists listing.
  split; [assumption|]. rewrite Hids. f_equal.
  unfold answers, workbook_ids_of. rewrite Hl, Hids. simpl.
  clear Hl Hids. induction Hall as [|x ids Hx Hall IH]; simpl; [reflexivity|].
  rewrite map_app, <- IH. unfold answer_for in Hx |- *.
  destruct (py_hash x) as [k|]; [|congruence].
  destruct (dict_get key_eq_dec k (get_workbook_cache c)); [reflexivity | congruence].
Qed.

(** X5: the workbook ids a fetch went through are the ids of the listing,
    in its order, and [workbooks_by_id] has one entry per distinct id, in
    the order of their first listing. The entry of a workbook holds, with
    the WORKBOOK tag, the first workbook of the answer the metadata API
    gave for it; so every listed workbook had one. *)
Theorem workbooks_by_listed_id :
  forall server ws wire d ws' wire',
    fetch_tableau_workspace_data server ws wire = (Ok d, ws', wire') ->
    (exists c listing,
        _client ws' = Some c /\
        get_workbooks_cache c = Some listing /\
        listed_ids listing = Ok (map fst (fetched ws'))) /\
    dict_keys (workbooks_by_id d)
    = first_seen key_eq_dec (hash_keys (map fst (fetched ws'))) /\
    forall workbook_id answer,
      In (workbook_id, answer) (fetched ws') ->
      exists k workbook_data,
        py_hash workbook_id = Ok k /\
        first_workbook answer = Ok workbook_data /\
        dict_get key_eq_dec k (workbooks_by_id d)
        = Some (workbook_content workbook_data).
Proof.
  intros server ws wire d ws' wire' H.
  destruct (fetch_leaves_complete_client _ _ _ H) as (c & Hc & Hcomplete & _).
  destruct (fetch_tableau_workspace_data_Ok _ _ _ H) as [_ Hscan].
  assert (Hwf : Forall well_formed_answer (fetched ws')).
  { now apply scan_workbooks_well_formed in Hscan. }
  apply scan_workbooks_workbooks in Hscan. simpl in Hscan.
  assert (Hkeys : dict_keys (workbooks_by_id d)
                  = first_seen key_eq_dec (hash_keys (map fst (fetched ws')))).
  { rewrite Hscan, (fold_file_workbook_keys Hwf). simpl. apply fold_add_key_nil. }
  split; [|split; [assumption|]].
  - destruct (complete_answers_ids Hcomplete) as (listing & Hl & Hids).
    exists c, listing. unfold fetched. rewrite Hc. auto.
  - intros workbook_id answer Hin.
    rewrite Forall_forall in Hwf.
    destruct (Hwf _ Hin) as ((k & Hk) & wd & sheets & Hwd & _). simpl in Hk, Hwd.
    exists k, wd. split; [assumption|]. split; [assumption|].
    assert (Hmem : In k (dict_keys (workbooks_by_id d))).
    { rewrite Hkeys. apply first_seen_In, hash_keys_In. exists workbook_id.
      split; [|assumption].
      change workbook_id with (fst (workbook_id, answer)). now apply in_map. }
    destruct (dict_get key_eq_dec k (workbooks_by_id d)) as [c0|] eqn:Eg.
    + pose proof (dict_get_In _ _ _ Eg) as Hentry. rewrite Hscan in Hentry.
      apply fold_file_workbook_In in Hentry.
      destruct Hentry as [[]|([id' answer'] & wd' & Hin' & Hk' & Hwd' & Hc0)].
      simpl in Hk', Hwd', Hc0. unfold fetched in Hin, Hin'. rewrite Hc in Hin, Hin'.
      apply answers_In in Hin, Hin'.
      destruct Hin as (k1 & Hk1 & Hg1). destruct Hin' as (k2 & Hk2 & Hg2).
      assert (answer' = answer) by congruence. subst answer'.
      rewrite Hc0. congruence.
    + apply dict_get_None in Eg. contradiction.
Qed.

Lemma workbooks_by_listed_id_witness :
  exists d ws' wire',
    fetch_tableau_workspace_data Cases.site2 Sample.workspace []
    = (Ok d, ws', wire') /\
    dict_keys (workbooks_by_id d) = [KStr "wb-1"; KStr "wb-2"] /\
    dict_keys (workbooks_by_id d)
    = first_seen key_eq_dec (hash_keys (map fst (fetched ws'))).
Proof.
  eexists _, _, _. split; [vm_compute; reflexivity|]. split; [reflexivity|].
  eapply proj1, proj2, (workbooks_by_listed_id Cases.site2 Sample.workspace []).
  vm_compute. reflexivity.
Defined.

Lemma fold_record_get (k : key) (wvs : list (json * json)) (vs : contents) :
  dict_get key_eq_dec k (fold_left record wvs vs)
  = match find (fun wv => has_key k (snd wv)) (rev wvs) with
    | Some wv => Some (view_content (fst wv) (snd wv))
    | None => dict_get key_eq_dec k vs
    end.
Proof.
  induction wvs as [|wv wvs IH] using rev_ind; [reflexivity|].
  rewrite fold_left_app, rev_app_distr. simpl.
  unfold record at 1, has_key.
  destruct (luid_key (snd wv)) as [k'|]; [|exact IH].
  destruct (key_eq_dec k' k) as [->|Hne].
  - apply dict_get_set_same.
  - rewrite dict_get_set_other by congruence. exact IH.
Qed.

(** X6: where two sheets come with the same luid, [views_by_id] keeps the
    later one: the entry of a luid, which stands at the place of its
    first sheet, holds the payload of the last sheet with that luid along
    the traversal, with the id of the workbook that sheet was found
    under. *)
Theorem views_last_sheet_wins :
  forall server ws wire d ws' wire',
    fetch_tableau_workspace_data server ws wire = (Ok d, ws', wire') ->
    forall k,
      In k (luid_keys (map snd (all_views (fetched ws')))) ->
      exists workbook_id view_data,
        find (fun wv => has_key k (snd wv)) (rev (all_views (fetched ws')))
        = Some (workbook_id, view_data) /\
        dict_get key_eq_dec k (views_by_id d)
        = Some (view_content workbook_id view_data).
Proof.
  intros server ws wire d ws' wire' H k Hk.
  apply fetch_tableau_workspace_data_Ok in H. destruct H as [_ H].
  apply scan_workbooks_views in H. simpl in H.
  rewrite H, fold_record_get.
  apply luid_keys_In in Hk. destruct Hk as (v & Hv & Hkey).
  apply in_map_iff in Hv. destruct Hv as (wv & <- & Hwv).
  destruct (find (fun wv0 => has_key k (snd wv0)) (rev (all_views (fetched ws'))))
    as [[wid v']|] eqn:E.
  - now exists wid, v'.
  - exfalso. apply in_rev in Hwv. apply (find_none _ _ E) in Hwv.
    unfold has_key in Hwv. rewrite Hkey in Hwv.
    destruct (key_eq_dec k k); [discriminate | congruence].
Qed.

Lemma views_last_sheet_wins_witness :
  exists d ws' wire',
    fetch_tableau_workspace_data (Sample.serving Cases.twins) Sample.workspace []
    = (Ok d, ws', wire') /\
    dict_get key_eq_dec (KStr "view-a") (views_by_id d)
    = Some (view_content (JStr "wb-1") Cases.sheet_A_again) /\
    exists workbook_id view_data,
      find (fun wv => has_key (KStr "view-a") (snd wv))
        (rev (all_views (fetched ws')))
      = Some (workbook_id, view_data) /\
      dict_get key_eq_dec (KStr "view-a") (views_by_id d)
      = Some (view_content workbook_id view_data).
Proof.
  eexists _, _, _. split; [vm_compute; reflexivity|]. split; [reflexivity|].
  refine (views_last_sheet_wins (Sample.serving Cases.twins) Sample.workspace []
            _ (KStr "view-a") _).
  - vm_compute. reflexivity.
  - vm_compute. left. reflexivity.
Defined.

(** ** The requests of a fetch *)

Section Requests.

Variable server : list request -> request -> result (result json).

Local Abbreviation loop_body :=
  (fun workbook_id acc =>
     bind (get_workbook server workbook_id)
       (fun response => lift (scan_workbook workbook_id response acc))).

Lemma get_workbooks_trace (s s' : session) (listing : json) :
  get_workbooks server s = (Ok listing, s') ->
  _api_token (self s') = _api_token (self s) /\
  _site_id (self s') = _site_id (self s) /\
  get_workbook_cache (self s') = get_workbook_cache (self s) /\
  sent s'
  = sent s ++ match get_workbooks_cache (self s) with
              | Some _ => []
              | None => [listing_request (_api_token (self s)) (_site_id (self s))]
              end.
Proof.
  cbv [get_workbooks bind read _fetch_json _make_request lift update ret].
  simpl. fold (listing_request (_api_token (self s)) (_site_id (self s))).
  destruct (get_workbooks_cache (self s)) as [cached|].
  - intros [= <- <-]. rewrite app_nil_r. auto.
  - destruct (server (sent s) _) as [[a|e]|e]; try discriminate.
    intros [= <- <-]. simpl. auto.
Qed.

Lemma get_workbook_trace (s s' : session) (workbook_id answer : json) :
  get_workbook server workbook_id s = (Ok answer, s') ->
  exists k,
    py_hash workbook_id = Ok k /\
    _api_token (self s') = _api_token (self s) /\
    _site_id (self s') = _site_id (self s) /\
    if in_dec key_eq_dec k (dict_keys (get_workbook_cache (self s)))
    then s' = s
    else sent s' = sent s ++ [query_request (_api_token (self s)) workbook_id] /\
         dict_keys (get_workbook_cache (self s'))
         = dict_keys (get_workbook_cache (self s)) ++ [k].
Proof.
  cbv [get_workbook bind read _fetch_json _make_request lift update ret].
  simpl. fold (query_request (_api_token (self s)) workbook_id).
  destruct (py_hash workbook_id) as [k|] eqn:Ek; [|discriminate]. simpl.
  destruct (dict_get key_eq_dec k (get_workbook_cache (self s))) as [cached|] eqn:Ec.
  - intros [= <- <-]. exists k. repeat split.
    destruct (in_dec key_eq_dec k (dict_keys (get_workbook_cache (self s))))
      as [_|Hout]; [reflexivity|].
    apply (proj2 (dict_get_None key_eq_dec k _)) in Hout. congruence.
  - destruct (server (sent s) _) as [[a|e]|e]; try discriminate.
    intros [= <- <-]. simpl. exists k. repeat split.
    apply (proj1 (dict_get_None key_eq_dec k _)) in Ec.
    destruct (in_dec key_eq_dec k (dict_keys (get_workbook_cache (self s))))
      as [Hin|_]; [contradiction|].
    split; [reflexivity|]. rewrite dict_set_new by assumption.
    unfold dict_keys. now rewrite map_app.
Qed.

Lemma fetch_loop_trace (ids : list json) :
  forall (acc acc' : snapshot) (s s' : session),
    for_each_M loop_body ids acc s = (Ok acc', s') ->
    _api_token (self s') = _api_token (self s) /\
    _site_id (self s') = _site_id (self s) /\
    sent s'
    = sent s ++ map (query_request (_api_token (self s)))
                  (queried (dict_keys (get_workbook_cache (self s))) ids).
Proof.
  induction ids as [|workbook_id ids IH]; intros acc acc' s s' H; simpl in H.
  - injection H as <- <-. simpl. rewrite app_nil_r. auto.
  - bind_M H acc1 s1 H1. bind_M H1 response s0 H0. lift_M H1.
    destruct (IH _ _ _ _ H) as (Ht & Hs & Hsent).
    destruct (get_workbook_trace _ _ H0) as (k & Hk & Ht0 & Hs0 & Hcase).
    simpl. rewrite Hk.
    destruct (in_dec key_eq_dec k (dict_keys (get_workbook_cache (self s)))).
    + rewrite Hcase in Ht, Hs, Hsent. auto.
    + destruct Hcase as [Hsent0 Hkeys].
      split; [congruence|]. split; [congruence|].
      rewrite Hsent, Hsent0, Hkeys, Ht0, <- app_assoc. reflexivity.
Qed.

Lemma fetch_body_trace (s s' : session) (found : snapshot) :
  fetch_body server s = (Ok found, s') ->
  exists listing ids,
    get_workbooks_cache (self s') = Some listing /\
    listed_ids listing = Ok ids /\
    _api_token (self s') = _api_token (self s) /\
    sent s'
    = sent s
      ++ match get_workbooks_cache (self s) with
         | Some _ => []
         | None => [listing_request (_api_token (self s)) (_site_id (self s))]
         end
      ++ map (query_request (_api_token (self s)))
           (queried (dict_keys (get_workbook_cache (self s))) ids).
Proof.
  unfold fetch_body. intros H.
  bind_M H response s1 H1. bind_M H workbooks_data s2 H2. lift_M H2.
  bind_M H listed s3 H3. lift_M H3. bind_M H items s4 H4. lift_M H4.
  bind_M H workbook_ids s5 H5. lift_M H5.
  destruct (get_workbooks_trace _ H1) as (Ht1 & Hs1 & Hc1 & Hsent1).
  apply get_workbooks_Ok in H1. destruct H1 as (Hl & _ & _).
  destruct (fetch_loop_trace _ _ _ H) as (Ht & _ & Hsent).
  apply fetch_loop in H. destruct H as (Hl' & _ & _).
  exists response, workbook_ids. split; [congruence|]. split.
  - unfold listed_ids. rewrite H2. simpl. rewrite H3. simpl. now rewrite H4.
  - split; [congruence|].
    rewrite Hsent, Hsent1, Hc1, Ht1, <- app_assoc. reflexivity.
Qed.

End Requests.

Lemma queried_distinct (ids : list json) :
  forall held,
    (forall x, In x ids -> exists k, py_hash x = Ok k) ->
    NoDup (hash_keys ids) ->
    (forall k, In k (hash_keys ids) -> ~ In k held) ->
    queried held ids = ids.
Proof.
  induction ids as [|x ids IH]; intros held Hhash Hnd Hfresh; [reflexivity|].
  destruct (Hhash x (or_introl eq_refl)) as [k Hk].
  simpl. unfold hash_keys in Hnd, Hfresh. simpl in Hnd, Hfresh.
  rewrite Hk in *. simpl in Hnd, Hfresh. inversion Hnd as [|? ? Hout Hnd']; subst.
  destruct (in_dec key_eq_dec k held) as [Hin|_].
  - exfalso. apply (Hfresh k); [now left | assumption].
  - f_equal. apply IH; try assumption.
    + intros y Hy. apply Hhash. now right.
    + intros k' Hk' Hin. apply in_app_or in Hin. destruct Hin as [Hin|[->|[]]].
      * apply (Hfresh k'); [now right | assumption].
      * contradiction.
Qed.

Section FetchRequests.

Variable server : list request -> request -> result (result json).

Lemma sign_in_Ok (s s' : session) (response : json) :
  sign_in server s = (Ok response, s') ->
  exists credentials site,
    server (sent s) sign_in_request = Ok (Ok response) /\
    getitem response "credentials" = Ok credentials /\
    getitem credentials "token" = Ok (_api_token (self s')) /\
    getitem credentials "site" = Ok site /\
    getitem site "id" = Ok (_site_id (self s')).
Proof.
  cbv [sign_in bind _fetch_json _make_request lift update ret]. simpl.
  fold sign_in_request.
  destruct (server (sent s) sign_in_request) as [[r|e]|e]; simpl;
    try discriminate.
  destruct (getitem r "credentials") as [credentials|] eqn:Ec; simpl;
    [|discriminate].
  destruct (getitem credentials "token") as [token|] eqn:Et; simpl;
    [|discriminate].
  destruct (getitem credentials "site") as [site|] eqn:Es; simpl;
    [|discriminate].
  destruct (getitem site "id") as [id'|] eqn:Ei; simpl; [|discriminate].
  intros [= <- <-]. simpl. exists credentials, site. auto.
Qed.

(** The requests of a [with] block around the fetch, and the state it
    leaves. *)
Lemma with_client_fetch_trace (s s' : session) (found : snapshot) :
  with_client server (fetch_body server) s = (Ok found, s') ->
  exists response credentials site token site_id,
    server (sent s) sign_in_request = Ok (Ok response) /\
    getitem response "credentials" = Ok credentials /\
    getitem credentials "token" = Ok token /\
    getitem credentials "site" = Ok site /\
    getitem site "id" = Ok site_id /\
    sent s'
    = sent s ++ [sign_in_request]
      ++ match get_workbooks_cache (self s) with
         | Some _ => []
         | None => [listing_request token site_id]
         end
      ++ map (query_request token)
           (queried (dict_keys (get_workbook_cache (self s)))
              (map fst (answers (self s'))))
      ++ [sign_out_request token] /\
    _api_token (self s') = JNull /\
    _site_id (self s') = JNull.
Proof.
  intros H. apply with_client_Ok in H.
  destruct H as (r & s1 & s2 & Hin & Hbody & Hout).
  destruct (sign_in_Ok _ Hin) as (credentials & site & Hr & Hc & Ht & Hs & Hi).
  pose proof (sign_in_sent server s) as Hsent1. rewrite Hin in Hsent1.
  pose proof (sign_in_caches server s) as Hcaches1. rewrite Hin in Hcaches1.
  simpl in Hsent1, Hcaches1. unfold caches in Hcaches1.
  injection Hcaches1 as Hc1 Hc2.
  destruct (fetch_body_trace _ _ Hbody) as (listing & ids & Hl & Hids & Ht2 & Hsent2).
  pose proof (fetch_body_complete _ _ Hbody) as Hcomplete.
  destruct (complete_answers_ids Hcomplete) as (listing' & Hl' & Hids').
  assert (ids = map fst (answers (self s2))) by congruence. subst ids.
  pose proof (sign_out_caches server s2) as Hcaches3. rewrite Hout in Hcaches3.
  simpl in Hcaches3. pose proof (answers_caches Hcaches3) as Hans.
  rewrite sign_out_run in Hout. cbv zeta in Hout.
  destruct (server (sent s2) _) as [x|e]; [|discriminate].
  injection Hout as <-. simpl in Hans |- *.
  exists r, credentials, site, (_api_token (self s1)), (_site_id (self s1)).
  repeat split; try assumption.
  rewrite Hans.
  rewrite Hsent2, Hsent1, Hc1, Hc2, Ht2, <- !app_assoc. reflexivity.
Qed.

(** The same for a whole fetch. *)
Lemma fetch_tableau_workspace_data_trace (ws ws' : BaseTableauWorkspace)
  (wire wire' : list request) (d : TableauWorkspaceData) :
  fetch_tableau_workspace_data server ws wire = (Ok d, ws', wire') ->
  exists response credentials site token site_id c,
    server wire sign_in_request = Ok (Ok response) /\
    getitem response "credentials" = Ok credentials /\
    getitem credentials "token" = Ok token /\
    getitem credentials "site" = Ok site /\
    getitem site "id" = Ok site_id /\
    wire'
    = wire ++ [sign_in_request]
      ++ match get_workbooks_cache (client_of ws) with
         | Some _ => []
         | None => [listing_request token site_id]
         end
      ++ map (query_request token)
           (queried (dict_keys (get_workbook_cache (client_of ws)))
              (map fst (fetched ws')))
      ++ [sign_out_request token] /\
    _client ws' = Some c /\
    _api_token c = JNull /\
    _site_id c = JNull /\
    site_name ws' = site_name ws.
Proof.
  intros H.
  unfold fetch_tableau_workspace_data in H. rewrite get_client_run in H.
  destruct (with_client server (fetch_body server) _) as [[found|e] s3] eqn:E;
    simpl in H; [|discriminate].
  injection H as _ <- <-.
  destruct (with_client_fetch_trace _ E)
    as (r & credentials & site & token & site_id
        & Hr & Hc & Ht & Hs & Hi & Hsent & Htoken & Hsite).
  exists r, credentials, site, token, site_id, (self s3). simpl in *.
  repeat split; assumption.
Qed.

(** X7: a fetch that returns has sent, after what was sent before: the
    sign-in; the listing request, unless the client held a listing; one
    query for every listed workbook whose answer the client did not hold,
    in listing order and once per id; the sign-out. Every request after
    the sign-in carries the token of the sign-in answer, and the listing
    request names the site id of that answer. *)
Theorem fetch_requests :
  forall ws wire d ws' wire',
    fetch_tableau_workspace_data server ws wire = (Ok d, ws', wire') ->
    exists response credentials site token site_id,
      server wire sign_in_request = Ok (Ok response) /\
      getitem response "credentials" = Ok credentials /\
      getitem credentials "token" = Ok token /\
      getitem credentials "site" = Ok site /\
      getitem site "id" = Ok site_id /\
      wire'
      = wire ++ [sign_in_request]
        ++ match get_workbooks_cache (client_of ws) with
           | Some _ => []
           | None => [listing_request token site_id]
           end
        ++ map (query_request token)
             (queried (dict_keys (get_workbook_cache (client_of ws)))
                (map fst (fetched ws')))
        ++ [sign_out_request token].
Proof.
  intros ws wire d ws' wire' H.
  destruct (fetch_tableau_workspace_data_trace _ _ H)
    as (r & credentials & site & token & site_id & c
        & Hr & Hc & Ht & Hs & Hi & Hsent & _).
  exists r, credentials, site, token, site_id.
  repeat split; assumption.
Qed.

(** X8: on a resource used for the first time, when the ids of the
    listing are pairwise distinct, a fetch that returns has sent the
    sign-in, the listing request, one query per listed workbook in
    listing order, and the sign-out: three requests more than there are
    workbooks. *)
Theorem first_fetch_requests :
  forall ws wire d ws' wire',
    _client ws = None ->
    fetch_tableau_workspace_data server ws wire = (Ok d, ws', wire') ->
    NoDup (hash_keys (map fst (fetched ws'))) ->
    (exists token site_id,
        wire'
        = wire ++ [sign_in_request; listing_request token site_id]
          ++ map (query_request token) (map fst (fetched ws'))
          ++ [sign_out_request token]) /\
    List.length wire' = List.length wire + List.length (fetched ws') + 3.
Proof.
  intros ws wire d ws' wire' Hnew H Hnd.
  destruct (fetch_tableau_workspace_data_Ok _ _ _ H) as [_ Hscan].
  apply scan_workbooks_well_formed in Hscan.
  destruct (fetch_tableau_workspace_data_trace _ _ H)
    as (r & credentials & site & token & site_id & c
        & _ & _ & _ & _ & _ & Hsent & _).
  unfold client_of in Hsent. rewrite Hnew in Hsent. simpl in Hsent.
  rewrite queried_distinct in Hsent; try assumption.
  - split.
    + exists token, site_id. exact Hsent.
    + rewrite Hsent. rewrite !length_app. simpl. rewrite length_app, !length_map.
      simpl. lia.
  - intros x Hx. apply in_map_iff in Hx. destruct Hx as (p & <- & Hp).
    rewrite Forall_forall in Hscan. now destruct (Hscan _ Hp) as [Hk _].
  - intros k _ [].
Qed.

(** X9: a fetch that returns leaves the resource with a client that holds
    no token and no site id, and with the site name it had. *)
Theorem fetch_leaves_signed_out :
  forall ws wire d ws' wire',
    fetch_tableau_workspace_data server ws wire = (Ok d, ws', wire') ->
    exists c,
      _client ws' = Some c /\
      _api_token c = JNull /\
      _site_id c = JNull /\
      site_name ws' = site_name ws.
Proof.
  intros ws wire d ws' wire' H.
  destruct (fetch_tableau_workspace_data_trace _ _ H)
    as (r & credentials & site & token & site_id & c
        & _ & _ & _ & _ & _ & _ & Hc & Ht & Hs & Hn).
  exists c. auto.
Qed.

End FetchRequests.

Lemma fetch_requests_witness :
  exists d ws' wire',
    fetch_tableau_workspace_data Cases.site2 Sample.workspace []
    = (Ok d, ws', wire') /\
    wire'
    = [sign_in_request;
       listing_request (JStr "t0k3n") (JStr "site-7");
       query_request (JStr "t0k3n") (JStr "wb-1");
       query_request (JStr "t0k3n") (JStr "wb-2");
       sign_out_request (JStr "t0k3n")] /\
    exists response credentials site token site_id,
      Cases.site2 [] sign_in_request = Ok (Ok response) /\
      getitem response "credentials" = Ok credentials /\
      getitem credentials "token" = Ok token /\
      getitem credentials "site" = Ok site /\
      getitem site "id" = Ok site_id /\
      wire'
      = [] ++ [sign_in_request]
        ++ match get_workbooks_cache (client_of Sample.workspace) with
           | Some _ => []
           | None => [listing_request token site_id]
           end
        ++ map (query_request token)
             (queried (dict_keys (get_workbook_cache (client_of Sample.workspace)))
                (map fst (fetched ws')))
        ++ [sign_out_request token].
Proof.
  eexists _, _, _. split; [vm_compute; reflexivity|]. split; [reflexivity|].
  eapply (fetch_requests Cases.site2 Sample.workspace []).
  vm_compute. reflexivity.
Defined.

Lemma first_fetch_requests_witness :
  exists d ws' wire',
    fetch_tableau_workspace_data Cases.site2 Sample.workspace []
    = (Ok d, ws', wire') /\
    List.length wire' = 5 /\
    List.length wire' = List.length (@nil request) + List.length (fetched ws') + 3.
Proof.
  eexists _, _, _. split; [vm_compute; reflexivity|]. split; [reflexivity|].
  eapply proj2, (first_fetch_requests Cases.site2 Sample.workspace []).
  - reflexivity.
  - vm_compute. reflexivity.
  - vm_compute. repeat constructor; simpl; intuition discriminate.
Defined.

Lemma fetch_leaves_signed_out_witness :
  exists d ws' wire',
    fetch_tableau_workspace_data Sample.site Sample.workspace []
    = (Ok d, ws', wire') /\
    exists c,
      _client ws' = Some c /\
      _api_token c = JNull /\
      _site_id c = JNull /\
      site_name ws' = site_name Sample.workspace.
Proof.
  eexists _, _, _. split; [vm_compute; reflexivity|].
  eapply (fetch_leaves_signed_out Sample.site Sample.workspace []).
  vm_compute. reflexivity.
Defined.

(** ** Failures inside and after the fetch *)

Lemma for_each_M_raises {A S} (body : A -> S -> M S) (pre post : list A)
  (x : A) (acc acc1 : S) (s s1 s2 : session) (e : exn) :
  for_each_M body pre acc s = (Ok acc1, s1) ->
  body x acc1 s1 = (Raise e, s2) ->
  for_each_M body (pre ++ x :: post) acc s = (Raise e, s2).
Proof.
  revert acc s. induction pre as [|a pre IH]; intros acc s Hpre Hx; simpl in *.
  - injection Hpre as -> ->. unfold bind. now rewrite Hx.
  - unfold bind in Hpre |- *. destruct (body a acc s) as [[acc0|e0] s0];
      [|discriminate].
    now apply IH.
Qed.

Section Failures.

Variable server : list request -> request -> result (result json).

(** X10: the fetch stops at the first workbook whose query or scan
    raises. The [with] statement raises that exception in the state the
    failing turn left: after the turns for the workbooks listed before
    it, at most the query for this workbook has been sent, and nothing is
    sent for the workbooks listed after it. *)
Theorem fetch_stops_at_first_failure :
  forall s response s1 listing s2 pre workbook_id post acc s3 e s4,
    sign_in server s = (Ok response, s1) ->
    get_workbooks server s1 = (Ok listing, s2) ->
    listed_ids listing = Ok (pre ++ workbook_id :: post) ->
    for_each_M (fetch_workbook server) pre empty_snapshot s2 = (Ok acc, s3) ->
    fetch_workbook server workbook_id acc s3 = (Raise e, s4) ->
    with_client server (fetch_body server) s = (Raise e, s4) /\
    (sent s4 = sent s3 \/
     sent s4 = sent s3 ++ [query_request (_api_token (self s3)) workbook_id]).
Proof.
  intros s response s1 listing s2 pre workbook_id post acc s3 e s4
    Hin Hlist Hids Hpre Hfail.
  split.
  - unfold with_client. unfold bind at 1. rewrite Hin.
    unfold bind at 1. unfold fetch_body. unfold bind at 1. rewrite Hlist.
    unfold listed_ids in Hids.
    bind_ok Hids workbooks_data H1. bind_ok Hids listed H2. bind_ok Hids items H3.
    cbv [bind lift] in *. rewrite H1, H2, H3, Hids.
    change (fun workbook_id0 acc0 s0 =>
              let (r, s') := get_workbook server workbook_id0 s0 in
              match r with
              | Ok a => (scan_workbook workbook_id0 a acc0, s')
              | Raise e0 => (Raise e0, s')
              end)
      with (fetch_workbook server).
    erewrite for_each_M_raises; [reflexivity | exact Hpre | exact Hfail].
  - revert Hfail.
    cbv [fetch_workbook get_workbook bind read _fetch_json _make_request lift
           update ret].
    simpl. fold (query_request (_api_token (self s3)) workbook_id).
    destruct (py_hash workbook_id) as [k|]; simpl; [|intros [= _ <-]; now left].
    destruct (dict_get key_eq_dec k (get_workbook_cache (self s3))).
    + intros [= _ <-]. now left.
    + destruct (server (sent s3) _) as [[a|e0]|e0]; simpl; intros [= _ <-];
        now right.
Qed.

End Failures.

Lemma fetch_stops_at_first_failure_witness :
  exists s4,
    with_client Cases.site3 (fetch_body Cases.site3)
      {| self := new_client; sent := [] |}
    = (Raise IndexError, s4) /\
    map url (sent s4)
    = [auth_signin; site_workbooks (JStr "site-7");
       metadata_graphql (JStr "wb-1"); metadata_graphql (JStr "wb-2")].
Proof.
  eexists. split.
  - eapply proj1,
      (fetch_stops_at_first_failure Cases.site3
         {| self := new_client; sent := [] |} [JStr "wb-1"] (JStr "wb-2") []);
      vm_compute; reflexivity.
  - reflexivity.
Defined.

(** ** The specs of a snapshot *)

Lemma comprehension_length {A B} (f : A -> result B) (l : list A) (bs : list B) :
  comprehension f l = Ok bs -> List.length bs = List.length l.
Proof.
  revert bs. induction l as [|a l IH]; intros bs H; simpl in H.
  - now injection H as <-.
  - bind_ok H b Hb. bind_ok H bs' Hbs. injection H as <-. simpl.
    now rewrite (IH _ Hbs).
Qed.

Lemma comprehension_Raise {A B} (f : A -> result B) (l : list A) (e : exn) :
  comprehension f l = Raise e ->
  exists pre x post,
    l = pre ++ x :: post /\
    Forall (fun a => exists b, f a = Ok b) pre /\
    f x = Raise e.
Proof.
  induction l as [|a l IH]; simpl; [discriminate|].
  destruct (f a) as [b|e0] eqn:Ea; simpl.
  - destruct (comprehension f l) as [bs|e1] eqn:El; simpl; [discriminate|].
    intros [= ->]. destruct (IH eq_refl) as (pre & x & post & -> & Hpre & Hx).
    exists (a :: pre), x, post. repeat split; [|assumption].
    constructor; [now exists b | assumption].
  - intros [= ->]. exists [], a, l. repeat split; [constructor | assumption].
Qed.

Lemma fold_register_In (ms : list json) (ds : contents)
  (e : key * TableauContentData) :
  In e (fold_left register ms ds) ->
  In e ds \/
  exists m, In m ms /\ luid_key m = Some (fst e) /\ snd e = data_source m.
Proof.
  revert ds. induction ms as [|m ms IH]; intros ds H; simpl in H; [now left|].
  apply IH in H. destruct H as [H | (m' & Hin & Hk & He)].
  - unfold register in H. destruct (luid_key m) as [k|] eqn:Ek; [|now left].
    destruct (dict_mem key_eq_dec k ds); [now left|].
    apply In_dict_set in H. destruct H as [-> | H]; [|now left].
    right. exists m. simpl. auto.
  - right. exists m'. simpl. auto.
Qed.

Lemma all_views_In (fetched : list (json * json)) (workbook_id view_data : json) :
  In (workbook_id, view_data) (all_views fetched) ->
  exists answer,
    In (workbook_id, answer) fetched /\ In view_data (sheets_of answer).
Proof.
  unfold all_views. rewrite in_flat_map. intros ([wid answer] & Hin & H).
  simpl in H. apply in_map_iff in H. destruct H as (v & [= <- <-] & Hv).
  now exists answer.
Qed.

Lemma well_formed_answer_sheets (p : json * json) :
  well_formed_answer p -> Forall well_formed_sheet (sheets_of (snd p)).
Proof.
  intros (_ & workbook_data & sheets & Hfirst & Hsheets & Hall).
  unfold sheets_of. unfold first_workbook in Hfirst.
  destruct (getitem (snd p) "data") as [data|]; simpl in *; [|discriminate].
  destruct (getitem data "workbooks") as [found|]; simpl in *; [|discriminate].
  rewrite Hfirst. simpl. now rewrite Hsheets.
Qed.

Lemma fetched_view_entries :
  forall server ws wire d ws' wire',
    fetch_tableau_workspace_data server ws wire = (Ok d, ws', wire') ->
    forall k c,
      In (k, c) (views_by_id d) ->
      exists workbook_id fields w,
        In (workbook_id, JObj fields) (all_views (fetched ws')) /\
        luid_key (JObj fields) = Some k /\
        c = view_content workbook_id (JObj fields) /\
        py_hash workbook_id = Ok w /\
        In w (dict_keys (workbooks_by_id d)) /\
        well_formed_sheet (JObj fields).
Proof.
  intros server ws wire d ws' wire' H k c Hin.
  destruct (fetch_tableau_workspace_data_Ok _ _ _ H) as [_ Hscan].
  pose proof (scan_workbooks_views _ _ Hscan) as Hviews.
  pose proof (scan_workbooks_workbooks _ _ Hscan) as Hwbs.
  pose proof (scan_workbooks_well_formed _ _ Hscan) as Hwf.
  simpl in Hviews, Hwbs. rewrite Hviews in Hin.
  apply fold_record_In in Hin. destruct Hin as [[] | ([wid sheet] & Hwv & Hk & Hc)].
  simpl in Hk, Hc.
  destruct (luid_key_JObj _ Hk) as (fields & luid & -> & _).
  destruct (all_views_In _ _ _ Hwv) as (answer & Hp & Hsheet).
  pose proof (proj1 (Forall_forall _ _) Hwf _ Hp) as Hanswer.
  destruct (Hanswer) as [[w Hw] _]. simpl in Hw.
  exists wid, fields, w. do 4 (split; [assumption|]). split.
  - rewrite Hwbs, (fold_file_workbook_keys Hwf). simpl (dict_keys []).
    rewrite fold_add_key_nil, first_seen_In, hash_keys_In.
    exists wid. split; [|assumption]. apply in_map_iff. now exists (wid, answer).
  - pose proof (well_formed_answer_sheets Hanswer) as Hs.
    rewrite Forall_forall in Hs. now apply Hs.
Qed.

Lemma fetched_data_source_entries :
  forall server ws wire d ws' wire',
    fetch_tableau_workspace_data server ws wire = (Ok d, ws', wire') ->
    forall k c,
      In (k, c) (data_sources_by_id d) ->
      exists m,
        In m (all_mentions (fetched ws')) /\ luid_key m = Some k /\
        c = data_source m.
Proof.
  intros server ws wire d ws' wire' H k c Hin.
  destruct (fetch_tableau_workspace_data_Ok _ _ _ H) as [_ Hscan].
  pose proof (scan_workbooks_data_sources _ _ Hscan) as Hds.
  simpl in Hds. rewrite Hds in Hin.
  apply fold_register_In in Hin. destruct Hin as [[] | (m & Hm & Hk & Hc)].
  now exists m.
Qed.

Lemma Forall2_impl_In {A B} (P Q : A -> B -> Prop) (l : list A) (l' : list B) :
  (forall a b, In a l -> P a b -> Q a b) -> Forall2 P l l' -> Forall2 Q l l'.
Proof.
  intros HPQ H. induction H as [|a b l l' Hab _ IH]; constructor.
  - apply HPQ; [now left | assumption].
  - apply IH. intros a' b' Hin. apply HPQ. now right.
Qed.

Lemma fetched_workbook_entries :
  forall server ws wire d ws' wire',
    fetch_tableau_workspace_data server ws wire = (Ok d, ws', wire') ->
    forall k c,
      In (k, c) (workbooks_by_id d) -> content_type c = WORKBOOK.
Proof.
  intros server ws wire d ws' wire' H k c Hin.
  destruct (fetch_tableau_workspace_data_Ok _ _ _ H) as [_ Hscan].
  pose proof (scan_workbooks_workbooks _ _ Hscan) as Hwbs.
  simpl in Hwbs. rewrite Hwbs in Hin.
  apply fold_file_workbook_In in Hin.
  destruct Hin as [[] | (p & workbook_data & _ & _ & _ & Hc)].
  simpl in Hc. now subst c.
Qed.

Section SpecsOfASnapshot.

Variable server : list request -> request -> result (result json).
Variable AssetSpec : Type.
Variable get_asset_spec :
  TableauWorkspaceData -> TableauContentData -> result AssetSpec.

(** X11: [build_asset_specs] returns one spec per view and one per
    published data source of the snapshot it fetched, and none for the
    workbooks: the specs are, in this order, what [get_asset_spec] returns
    for the contents of [views_by_id], each tagged as a view, and for the
    contents of [data_sources_by_id], each tagged as a data source; the
    contents of [workbooks_by_id] are tagged as workbooks and none of them
    is passed to [get_asset_spec]. *)
Theorem one_spec_per_view_and_data_source :
  forall ws wire specs ws' wire',
    build_asset_specs server get_asset_spec ws wire = (Ok specs, ws', wire') ->
    exists d view_specs data_source_specs,
      fetch_tableau_workspace_data server ws wire = (Ok d, ws', wire') /\
      specs = view_specs ++ data_source_specs /\
      Forall2
        (fun kc spec =>
           content_type (snd kc) = VIEW /\ get_asset_spec d (snd kc) = Ok spec)
        (views_by_id d) view_specs /\
      Forall2
        (fun kc spec =>
           content_type (snd kc) = DATA_SOURCE /\
           get_asset_spec d (snd kc) = Ok spec)
        (data_sources_by_id d) data_source_specs /\
      List.length specs
      = List.length (views_by_id d) + List.length (data_sources_by_id d) /\
      forall k c,
        In (k, c) (workbooks_by_id d) ->
        content_type c = WORKBOOK /\
        ~ In c (dict_values (views_by_id d) ++ dict_values (data_sources_by_id d)).
Proof.
  intros ws wire specs ws' wire' H.
  apply build_asset_specs_Ok in H. destruct H as (d & Hfetch & Htr).
  assert (Hviews : forall kc, In kc (views_by_id d) -> content_type (snd kc) = VIEW).
  { intros [k c] Hin.
    destruct (fetched_view_entries _ _ _ Hfetch _ _ Hin)
      as (wid & fields & w & _ & _ & -> & _).
    reflexivity. }
  assert (Hsources : forall kc,
             In kc (data_sources_by_id d) -> content_type (snd kc) = DATA_SOURCE).
  { intros [k c] Hin.
    destruct (fetched_data_source_entries _ _ _ Hfetch _ _ Hin) as (m & _ & _ & ->).
    reflexivity. }
  pose proof Htr as Hlen. unfold translate in Htr, Hlen.
  apply comprehension_length in Hlen.
  rewrite length_app in Hlen. unfold dict_values in Hlen. rewrite !length_map in Hlen.
  apply comprehension_app in Htr. destruct Htr as (vs & dss & -> & Hvs & Hdss).
  apply comprehension_Forall2, Forall2_of_map in Hvs.
  apply comprehension_Forall2, Forall2_of_map in Hdss.
  exists d, vs, dss. split; [assumption|]. split; [reflexivity|].
  split; [|split; [|split; [assumption|]]].
  - refine (Forall2_impl_In _ _ Hvs). intros kc spec Hin Hspec. auto.
  - refine (Forall2_impl_In _ _ Hdss). intros kc spec Hin Hspec. auto.
  - intros k c Hin.
    pose proof (fetched_workbook_entries _ _ _ Hfetch _ _ Hin) as Htag.
    split; [assumption|]. intros Hc. apply in_app_or in Hc.
    unfold dict_values in Hc. rewrite !in_map_iff in Hc.
    destruct Hc as [(kc & <- & Hkc) | (kc & <- & Hkc)].
    + rewrite (Hviews _ Hkc) in Htag. discriminate.
    + rewrite (Hsources _ Hkc) in Htag. discriminate.
Qed.

(** X12: when [build_asset_specs] raises, either the fetch raised that
    exception, or the fetch returned and the exception is that of the
    first content, views before data sources, for which [get_asset_spec]
    raises. In the second case the session is over: the client holds no
    token, and no spec is returned for the contents translated before. *)
Theorem build_asset_specs_failure :
  forall ws wire e ws' wire',
    build_asset_specs server get_asset_spec ws wire = (Raise e, ws', wire') ->
    fetch_tableau_workspace_data server ws wire = (Raise e, ws', wire') \/
    exists d c pre content post,
      fetch_tableau_workspace_data server ws wire = (Ok d, ws', wire') /\
      _client ws' = Some c /\
      _api_token c = JNull /\
      dict_values (views_by_id d) ++ dict_values (data_sources_by_id d)
      = pre ++ content :: post /\
      Forall (fun c' => exists spec, get_asset_spec d c' = Ok spec) pre /\
      get_asset_spec d content = Raise e.
Proof.
  intros ws wire e ws' wire'. unfold build_asset_specs.
  destruct (fetch_tableau_workspace_data server ws wire) as [[[d|e0] ws1] wire1]
    eqn:E; simpl.
  - intros [= Htr <- <-]. right.
    destruct (fetch_tableau_workspace_data_trace _ _ _ E)
      as (r & credentials & site & token & site_id & c
          & _ & _ & _ & _ & _ & _ & Hc & Ht & _).
    unfold translate in Htr. apply comprehension_Raise in Htr.
    destruct Htr as (pre & x & post & Hsplit & Hpre & Hx).
    exists d, c, pre, x, post. repeat split; assumption.
  - intros [= -> <- <-]. now left.
Qed.

End SpecsOfASnapshot.

Lemma one_spec_per_view_and_data_source_witness :
  exists specs ws' wire' d view_specs data_source_specs,
    build_asset_specs Cases.site2 Sample.name_of Sample.workspace []
    = (Ok specs, ws', wire') /\
    specs = [JStr "A"; JStr "B"; JStr "M"; JStr "X"; JStr "Y"] /\
    fetch_tableau_workspace_data Cases.site2 Sample.workspace []
    = (Ok d, ws', wire') /\
    specs = view_specs ++ data_source_specs /\
    Forall2
      (fun kc spec =>
         content_type (snd kc) = VIEW /\ Sample.name_of d (snd kc) = Ok spec)
      (views_by_id d) view_specs /\
    Forall2
      (fun kc spec =>
         content_type (snd kc) = DATA_SOURCE /\ Sample.name_of d (snd kc) = Ok spec)
      (data_sources_by_id d) data_source_specs /\
    List.length specs
    = List.length (views_by_id d) + List.length (data_sources_by_id d) /\
    forall k c,
      In (k, c) (workbooks_by_id d) ->
      content_type c = WORKBOOK /\
      ~ In c (dict_values (views_by_id d) ++ dict_values (data_sources_by_id d)).
Proof.
  destruct (one_spec_per_view_and_data_source Cases.site2 Sample.name_of
              Sample.workspace []
              (specs := [JStr "A"; JStr "B"; JStr "M"; JStr "X"; JStr "Y"])
              ltac:(vm_compute; reflexivity))
    as (d & vs & dss & Hfetch & Hrest).
  eexists _, _, _, d, vs, dss. split; [vm_compute; reflexivity|].
  split; [reflexivity|]. split; [exact Hfetch | exact Hrest].
Defined.

Lemma build_asset_specs_failure_witness :
  exists ws' wire',
    build_asset_specs Sample.site Cases.views_only Sample.workspace []
    = (Raise KeyError, ws', wire') /\
    (fetch_tableau_workspace_data Sample.site Sample.workspace []
     = (Raise KeyError, ws', wire') \/
     exists d c pre content post,
       fetch_tableau_workspace_data Sample.site Sample.workspace []
       = (Ok d, ws', wire') /\
       _client ws' = Some c /\
       _api_token c = JNull /\
       dict_values (views_by_id d) ++ dict_values (data_sources_by_id d)
       = pre ++ content :: post /\
       Forall (fun c' => exists spec, Cases.views_only d c' = Ok spec) pre /\
       Cases.views_only d content = Raise KeyError).
Proof.
  eexists _, _. split; [vm_compute; reflexivity|].
  apply (build_asset_specs_failure Sample.site Cases.views_only Sample.workspace []).
  vm_compute. reflexivity.
Defined.

(** ** The two cached fetches *)

(** X13: [get_workbooks] and [get_workbook] are memoized on the client.
    After a call that returned, a further call, of [get_workbook] with
    the same id, returns the same answer, sends no request and leaves the
    client as it is, whatever the site would answer now. *)
Theorem cached_fetches_repeat :
  (forall server s listing s1,
      get_workbooks server s = (Ok listing, s1) ->
      forall server', get_workbooks server' s1 = (Ok listing, s1)) /\
  (forall server workbook_id s answer s1,
      get_workbook server workbook_id s = (Ok answer, s1) ->
      forall server' workbook_id',
        py_hash workbook_id' = py_hash workbook_id ->
        get_workbook server' workbook_id' s1 = (Ok answer, s1)).
Proof.
  split.
  - intros server s listing s1 H server'.
    apply get_workbooks_Ok in H. destruct H as (Hl & _).
    now apply get_workbooks_cached.
  - intros server workbook_id s answer s1 H server' workbook_id' Hsame.
    apply get_workbook_Ok in H. destruct H as ((k & Hk & Hget) & _).
    apply (get_workbook_cached server' s1 workbook_id' (k := k)); congruence.
Qed.

Lemma cached_fetches_repeat_witness :
  (exists listing s1,
      get_workbooks Sample.site Sample.signed_in_session = (Ok listing, s1) /\
      get_workbooks Sample.closed_site s1 = (Ok listing, s1)) /\
  (exists answer s1,
      get_workbook Sample.site (JStr "wb-1") Sample.signed_in_session
      = (Ok answer, s1) /\
      get_workbook Sample.closed_site (JStr "wb-1") s1 = (Ok answer, s1)).
Proof.
  destruct cached_fetches_repeat as [Hlisting Hquery]. split.
  - eexists _, _. split; [vm_compute; reflexivity|].
    eapply (Hlisting Sample.site Sample.signed_in_session).
    vm_compute. reflexivity.
  - eexists _, _. split; [vm_compute; reflexivity|].
    eapply (Hquery Sample.site (JStr "wb-1") Sample.signed_in_session).
    + vm_compute. reflexivity.
    + reflexivity.
Defined.

(** ** The base URLs *)

Lemma append_assoc (a b c : string) :
  ((a ++ b) ++ c = a ++ (b ++ c))%string.
Proof.
  induction a as [|x a IH]; simpl; [reflexivity|]. now rewrite IH.
Qed.

Lemma append_length (a b : string) :
  String.length (a ++ b)%string = String.length a + String.length b.
Proof.
  induction a as [|x a IH]; simpl; [reflexivity|]. now rewrite IH.
Qed.

Lemma append_cancel_r (a b c : string) :
  (a ++ c = b ++ c)%string -> a = b.
Proof.
  revert b. induction a as [|x a IH]; intros [|y b] H; simpl in H.
  - reflexivity.
  - apply (f_equal String.length) in H. simpl in H.
    rewrite append_length in H. lia.
  - apply (f_equal String.length) in H. simpl in H.
    rewrite append_length in H. lia.
  - injection H as -> H. f_equal. now apply IH.
Qed.

(** X14: the Cloud client is the Server client of the host
    [pod_name.online.tableau.com]: both base URLs coincide. *)
Theorem cloud_client_is_server_client_of_pod_host :
  forall pod_name,
    TableauCloudClient.rest_api_base_url pod_name
    = TableauServerClient.rest_api_base_url
        (pod_name ++ ".online.tableau.com")%string /\
    TableauCloudClient.metadata_api_base_url pod_name
    = TableauServerClient.metadata_api_base_url
        (pod_name ++ ".online.tableau.com")%string.
Proof.
  intros pod_name.
  unfold TableauCloudClient.rest_api_base_url,
    TableauCloudClient.metadata_api_base_url,
    TableauServerClient.rest_api_base_url,
    TableauServerClient.metadata_api_base_url, TABLEAU_REST_API_VERSION.
  split; simpl; now rewrite append_assoc.
Qed.

(** X15: the base URLs tell the servers apart: two Server clients with the
    same REST base URL, or the same metadata base URL, have the same
    server name, and two Cloud clients with the same REST base URL have
    the same pod name. *)
Theorem base_url_determines_server :
  (forall a b,
      TableauServerClient.rest_api_base_url a
      = TableauServerClient.rest_api_base_url b -> a = b) /\
  (forall a b,
      TableauServerClient.metadata_api_base_url a
      = TableauServerClient.metadata_api_base_url b -> a = b) /\
  (forall a b,
      TableauCloudClient.rest_api_base_url a
      = TableauCloudClient.rest_api_base_url b -> a = b).
Proof.
  unfold TableauCloudClient.rest_api_base_url,
    TableauServerClient.rest_api_base_url,
    TableauServerClient.metadata_api_base_url, TABLEAU_REST_API_VERSION.
  split; [|split]; intros a b H; simpl in H; injection H as H;
    now apply append_cancel_r in H.
Qed.

Lemma base_url_determines_server_witness :
  TableauServerClient.rest_api_base_url "bi.acme.test"
  = "https://bi.acme.test/api/3.23" /\
  "bi.acme.test" = "bi.acme.test".
Proof.
  split; [reflexivity|].
  apply (proj1 base_url_determines_server). reflexivity.
Defined.

(** ** Data sources under skipped sheets *)

(** X16: the published data sources of a sheet are registered whether or
    not the sheet itself is recorded: in a snapshot a fetch returns,
    every published data source with a truthy luid under any sheet the
    fetch went through, a sheet without a luid included, has its entry in
    [data_sources_by_id]. *)
Theorem data_sources_of_every_sheet :
  forall server ws wire d ws' wire',
    fetch_tableau_workspace_data server ws wire = (Ok d, ws', wire') ->
    forall workbook_id view_data mention k,
      In (workbook_id, view_data) (all_views (fetched ws')) ->
      In mention (mentions_of view_data) ->
      luid_key mention = Some k ->
      In k (dict_keys (data_sources_by_id d)).
Proof.
  intros server ws wire d ws' wire' H workbook_id view_data mention k Hv Hm Hk.
  rewrite (fetched_data_sources_keys _ _ _ H), first_seen_In, luid_keys_In.
  exists mention. split; [|assumption].
  unfold all_mentions. apply in_flat_map.
  now exists (workbook_id, view_data).
Qed.

Lemma data_sources_of_every_sheet_witness :
  exists d ws' wire',
    fetch_tableau_workspace_data (Sample.serving Sample.orphan) Sample.workspace []
    = (Ok d, ws', wire') /\
    views_by_id d = [] /\
    In (KStr "ds-x") (dict_keys (data_sources_by_id d)).
Proof.
  eexists _, _, _. split; [vm_compute; reflexivity|]. split; [reflexivity|].
  refine (data_sources_of_every_sheet (Sample.serving Sample.orphan)
            Sample.workspace [] _ (JStr "wb-1") (Sample.sheet JNull "D" [Sample.X])
            Sample.X _ _ _).
  - vm_compute. reflexivity.
  - left. reflexivity.
  - left. reflexivity.
  - reflexivity.
Defined.

(** ** The translator on a fetched snapshot *)

Import DagsterTableauTranslator.

Lemma well_formed_sheet_mentions (view_data : json) :
  well_formed_sheet view_data -> Forall passable (mentions_of view_data).
Proof.
  intros (_ & embedded & He & Hall). unfold mentions_of, embedded_of.
  rewrite He. simpl. clear He. induction Hall as [|e l (published & Hp & Hpass) _ IH];
    simpl; [constructor|].
  apply Forall_app. split; [|assumption].
  unfold published_of. now rewrite Hp.
Qed.

Lemma mentions_of_augment (workbook_id : json) (fields : list (string * json)) :
  mentions_of (augment workbook_id (JObj fields)) = mentions_of (JObj fields).
Proof.
  unfold mentions_of, embedded_of, augment. simpl. unfold get.
  rewrite dict_get_set_other by discriminate. reflexivity.
Qed.

Lemma external_id_of_luid_key (x : json) (k : key) :
  luid_key x = Some k -> external_id_of x = Ok k.
Proof.
  intros H. apply luid_key_JObj in H.
  destruct H as (fields & luid & -> & Hget & _ & Hhash).
  unfold external_id_of. simpl. now rewrite Hget.
Qed.

(** In a fetched snapshot the data source held under an id has the key
    of that id. *)
Lemma fetched_data_source_keys :
  forall server ws wire d ws' wire',
    fetch_tableau_workspace_data server ws wire = (Ok d, ws', wire') ->
    forall k c,
      dict_get key_eq_dec k (data_sources_by_id d) = Some c ->
      get_data_source_asset_key c = Ok (data_source_key k).
Proof.
  intros server ws wire d ws' wire' H k c Hget.
  apply dict_get_In in Hget.
  destruct (fetched_data_source_entries _ _ _ H _ _ Hget) as (m & _ & Hk & ->).
  unfold get_data_source_asset_key. simpl.
  now rewrite (external_id_of_luid_key _ Hk).
Qed.

Lemma non_null_keys_app (l1 l2 : list json) :
  non_null_keys (l1 ++ l2) = non_null_keys l1 ++ non_null_keys l2.
Proof. apply flat_map_app. Qed.

Lemma resolve_Ok (d : TableauWorkspaceData) (m : json) (deps deps' : list AssetKey) :
  (forall k c,
      dict_get key_eq_dec k (data_sources_by_id d) = Some c ->
      get_data_source_asset_key c = Ok (data_source_key k)) ->
  resolve d m deps = Ok deps' ->
  deps'
  = fold_left (fun acc a => add_key AssetKey_eq_dec a acc)
      (map data_source_key (non_null_keys [m])) deps /\
  Forall (fun k => In k (dict_keys (data_sources_by_id d))) (non_null_keys [m]).
Proof.
  intros Hkeys H. unfold resolve in H. bind_ok H luid Hluid.
  unfold non_null_keys, non_null_key. simpl. rewrite Hluid.
  assert (Hother :
            (let? k := py_hash luid in
             match dict_get key_eq_dec k (data_sources_by_id d) with
             | Some data =>
                 let? dep := get_data_source_asset_key data in
                 Ok (add_key AssetKey_eq_dec dep deps)
             | None => Raise KeyError
             end) = Ok deps' ->
            deps'
            = fold_left (fun acc a => add_key AssetKey_eq_dec a acc)
                (map data_source_key
                   (match py_hash luid with Ok k => [k] | Raise _ => [] end ++ []))
                deps /\
            Forall (fun k => In k (dict_keys (data_sources_by_id d)))
              (match py_hash luid with Ok k => [k] | Raise _ => [] end ++ [])).
  { intros H'. bind_ok H' k Hk. rewrite Hk. simpl.
    destruct (dict_get key_eq_dec k (data_sources_by_id d)) as [c|] eqn:Ec;
      [|discriminate].
    rewrite (Hkeys _ _ Ec) in H'. simpl in H'. injection H' as <-.
    split; [reflexivity|]. constructor; [|constructor].
    apply dict_get_In in Ec. apply in_map_iff. now exists (k, c). }
  destruct luid; try (apply Hother; exact H).
  injection H as <-. simpl. split; [reflexivity | constructor].
Qed.

Lemma for_each_resolve_Ok (d : TableauWorkspaceData) (ms : list json) :
  (forall k c,
      dict_get key_eq_dec k (data_sources_by_id d) = Some c ->
      get_data_source_asset_key c = Ok (data_source_key k)) ->
  forall deps deps',
    for_each (resolve d) ms deps = Ok deps' ->
    deps'
    = fold_left (fun acc a => add_key AssetKey_eq_dec a acc)
        (map data_source_key (non_null_keys ms)) deps /\
    Forall (fun k => In k (dict_keys (data_sources_by_id d))) (non_null_keys ms).
Proof.
  intros Hkeys. induction ms as [|m ms IH]; intros deps deps' H; simpl in H.
  - injection H as <-. split; [reflexivity | constructor].
  - bind_ok H deps1 H1. destruct (resolve_Ok _ _ _ Hkeys H1) as [-> Hin].
    destruct (IH _ _ H) as [-> Hrest].
    change (m :: ms) with ([m] ++ ms).
    rewrite non_null_keys_app, map_app, fold_left_app.
    split; [reflexivity|]. apply Forall_app. now split.
Qed.

Lemma resolve_total (d : TableauWorkspaceData) (m : json) (deps : list AssetKey) :
  (forall k c,
      dict_get key_eq_dec k (data_sources_by_id d) = Some c ->
      get_data_source_asset_key c = Ok (data_source_key k)) ->
  passable m -> null_or_truthy m ->
  (forall k, luid_key m = Some k -> In k (dict_keys (data_sources_by_id d))) ->
  exists deps', resolve d m deps = Ok deps'.
Proof.
  intros Hkeys (luid & Hluid & Hhash) (luid' & Hluid' & Hcase) Hin.
  rewrite Hluid in Hluid'. injection Hluid' as <-.
  unfold resolve. rewrite Hluid. simpl.
  destruct Hcase as [-> | Ht]; [now exists deps|].
  destruct (Hhash Ht) as [k Hk].
  assert (Hkey : luid_key m = Some k).
  { unfold luid_key. now rewrite Hluid, Ht, Hk. }
  apply Hin in Hkey.
  destruct (dict_get key_eq_dec k (data_sources_by_id d)) as [c|] eqn:Ec.
  - exists (add_key AssetKey_eq_dec (data_source_key k) deps).
    destruct luid; try discriminate; rewrite Hk; simpl; rewrite Ec;
      now rewrite (Hkeys _ _ Ec).
  - apply (proj1 (dict_get_None key_eq_dec k _)) in Ec. contradiction.
Qed.

Lemma non_null_keys_luid_keys (ms : list json) :
  Forall null_or_truthy ms -> non_null_keys ms = luid_keys ms.
Proof.
  induction 1 as [|m ms (luid & Hluid & Hcase) _ IH]; [reflexivity|].
  unfold non_null_keys, luid_keys in *. simpl. rewrite IH. f_equal.
  unfold non_null_key, luid_key. rewrite Hluid.
  destruct Hcase as [-> | Ht]; [reflexivity|].
  rewrite Ht. destruct luid; try reflexivity. discriminate.
Qed.

Lemma get_view_asset_key_recorded (workbook_id : json)
  (fields : list (string * json)) (k w : key) :
  luid_key (JObj fields) = Some k -> py_hash workbook_id = Ok w ->
  get_view_asset_key (view_content workbook_id (JObj fields)) = Ok (view_key k w) /\
  getitem (augment workbook_id (JObj fields)) "workbook"
  = Ok (JObj [("luid", workbook_id)]).
Proof.
  intros Hk Hw. apply luid_key_JObj in Hk.
  destruct Hk as (fields' & luid & [= <-] & Hget & _ & Hhash).
  unfold get_view_asset_key, external_id_of, view_content, augment. simpl.
  rewrite dict_get_set_other by discriminate. rewrite Hget. simpl.
  rewrite Hhash. simpl. rewrite dict_get_set_same. simpl. rewrite Hw.
  split; reflexivity.
Qed.

Lemma get_asset_spec_view :
  forall server ws wire d ws' wire',
    fetch_tableau_workspace_data server ws wire = (Ok d, ws', wire') ->
    forall k c spec,
      In (k, c) (views_by_id d) ->
      get_asset_spec d c = Ok spec ->
      exists workbook_id w,
        getitem (properties c) "workbook" = Ok (JObj [("luid", workbook_id)]) /\
        py_hash workbook_id = Ok w /\
        In w (dict_keys (workbooks_by_id d)) /\
        spec = {| asset_key := view_key k w;
                  deps := dependency_keys (non_null_keys (mentions_of (properties c)));
                  metadata := properties c |} /\
        Forall (fun k' => In k' (dict_keys (data_sources_by_id d)))
          (non_null_keys (mentions_of (properties c))).
Proof.
  intros server ws wire d ws' wire' H k c spec Hin Hspec.
  destruct (fetched_view_entries _ _ _ H _ _ Hin)
    as (wid & fields & w & _ & Hk & -> & Hw & Hwb & _).
  destruct (@get_view_asset_key_recorded wid fields k w Hk Hw) as [Hkey Hworkbook].
  exists wid, w. do 3 (split; [assumption|]).
  unfold get_asset_spec, get_view_spec in Hspec.
  change (content_type (view_content wid (JObj fields))) with VIEW in Hspec.
  cbv iota in Hspec. rewrite Hkey in Hspec. simpl rbind in Hspec.
  bind_ok Hspec found Hdeps. injection Hspec as <-.
  destruct (for_each_resolve_Ok _ _ (fetched_data_source_keys _ _ _ H) _ Hdeps)
    as [-> Hall].
  split; [|assumption]. unfold dependency_keys. now rewrite fold_add_key_nil.
Qed.

Lemma get_asset_spec_view_total :
  forall server ws wire d ws' wire',
    fetch_tableau_workspace_data server ws wire = (Ok d, ws', wire') ->
    forall k c,
      In (k, c) (views_by_id d) ->
      Forall null_or_truthy (mentions_of (properties c)) ->
      exists spec, get_asset_spec d c = Ok spec.
Proof.
  intros server ws wire d ws' wire' H k c Hin Hall.
  destruct (fetched_view_entries _ _ _ H _ _ Hin)
    as (wid & fields & w & Hwv & Hk & -> & Hw & _ & Hwf).
  destruct (@get_view_asset_key_recorded wid fields k w Hk Hw) as [Hkey _].
  unfold get_asset_spec, get_view_spec.
  change (content_type (view_content wid (JObj fields))) with VIEW.
  cbv iota. rewrite Hkey. simpl rbind.
  change (properties (view_content wid (JObj fields)))
    with (augment wid (JObj fields)) in *.
  rewrite mentions_of_augment in *.
  assert (Hloop : exists found,
             for_each (resolve d) (mentions_of (JObj fields)) [] = Ok found).
  { apply for_each_total. rewrite Forall_forall. intros m Hm deps.
    apply resolve_total; [exact (fetched_data_source_keys _ _ _ H)| | |].
    - pose proof (well_formed_sheet_mentions Hwf) as Hpass.
      rewrite Forall_forall in Hpass. now apply Hpass.
    - rewrite Forall_forall in Hall. now apply Hall.
    - intros k' Hk'. rewrite (fetched_data_sources_keys _ _ _ H), first_seen_In.
      apply luid_keys_In. exists m. split; [|assumption].
      unfold all_mentions. apply in_flat_map. now exists (wid, JObj fields). }
  destruct Hloop as [found ->]. simpl. eauto.
Qed.

Lemma get_asset_spec_data_source :
  forall server ws wire d ws' wire',
    fetch_tableau_workspace_data server ws wire = (Ok d, ws', wire') ->
    forall k c,
      In (k, c) (data_sources_by_id d) ->
      get_asset_spec d c
      = Ok {| asset_key := data_source_key k; deps := []; metadata := properties c |}.
Proof.
  intros server ws wire d ws' wire' H k c Hin.
  destruct (fetched_data_source_entries _ _ _ H _ _ Hin) as (m & _ & Hk & ->).
  unfold get_asset_spec, get_data_source_spec, get_data_source_asset_key. simpl.
  now rewrite (external_id_of_luid_key _ Hk).
Qed.

(** Keys that are equal come from values of equal truth value. *)
Lemma py_hash_truthy (a b : json) (k : key) :
  py_hash a = Ok k -> py_hash b = Ok k -> truthy a = truthy b.
Proof.
  destruct a as [|x|n|s|xs|xs], b as [|y|m|t|ys|ys]; simpl; intros Ha Hb;
    try discriminate; injection Ha as <-; try discriminate Hb;
    try reflexivity; injection Hb as Hb.
  - now destruct x, y.
  - subst m. now destruct x.
  - subst n. now destruct y.
  - now subst m.
  - now subst t.
Qed.

Lemma resolve_mention (d : TableauWorkspaceData) (m : json)
  (deps deps' : list AssetKey) :
  resolve d m deps = Ok deps' ->
  exists luid,
    getitem m "luid" = Ok luid /\
    (luid = JNull \/
     exists k, py_hash luid = Ok k /\ In k (dict_keys (data_sources_by_id d))).
Proof.
  intros H. unfold resolve in H. bind_ok H luid Hluid.
  exists luid. split; [assumption|].
  assert (Hother :
            (let? k := py_hash luid in
             match dict_get key_eq_dec k (data_sources_by_id d) with
             | Some data =>
                 let? dep := get_data_source_asset_key data in
                 Ok (add_key AssetKey_eq_dec dep deps)
             | None => Raise KeyError
             end) = Ok deps' ->
            exists k, py_hash luid = Ok k /\ In k (dict_keys (data_sources_by_id d))).
  { intros H'. bind_ok H' k Hk. exists k. split; [assumption|].
    destruct (dict_get key_eq_dec k (data_sources_by_id d)) as [c|] eqn:Ec;
      [|discriminate].
    apply dict_get_In in Ec. apply in_map_iff. now exists (k, c). }
  destruct luid; [now left | right; now apply Hother ..].
Qed.

Lemma get_asset_spec_view_only :
  forall server ws wire d ws' wire',
    fetch_tableau_workspace_data server ws wire = (Ok d, ws', wire') ->
    forall k c spec,
      In (k, c) (views_by_id d) ->
      get_asset_spec d c = Ok spec ->
      Forall null_or_truthy (mentions_of (properties c)).
Proof.
  intros server ws wire d ws' wire' H k c spec Hin Hspec.
  destruct (fetched_view_entries _ _ _ H _ _ Hin)
    as (wid & fields & w & _ & Hk & -> & Hw & _ & _).
  destruct (@get_view_asset_key_recorded wid fields k w Hk Hw) as [Hkey _].
  unfold get_asset_spec, get_view_spec in Hspec.
  change (content_type (view_content wid (JObj fields))) with VIEW in Hspec.
  cbv iota in Hspec. rewrite Hkey in Hspec. simpl rbind in Hspec.
  bind_ok Hspec found Hdeps.
  apply (for_each_Forall (resolve d)
           (fun m =>
              exists luid,
                getitem m "luid" = Ok luid /\
                (luid = JNull \/
                 exists k', py_hash luid = Ok k' /\
                            In k' (dict_keys (data_sources_by_id d))))
           (@resolve_mention d)) in Hdeps.
  revert Hdeps. apply Forall_impl.
  intros m (luid & Hluid & Hcase). exists luid. split; [assumption|].
  destruct Hcase as [-> | (k' & Hk' & Hin')]; [now left | right].
  apply in_map_iff in Hin'. destruct Hin' as ([k'' c'] & Hfst & Hin').
  simpl in Hfst. subst k''.
  destruct (fetched_data_source_entries _ _ _ H _ _ Hin') as (m' & _ & Hm' & _).
  apply luid_key_JObj in Hm'.
  destruct Hm' as (fields' & luid' & _ & _ & Ht & Hh).
  now rewrite (py_hash_truthy _ _ Hk' Hh).
Qed.

Lemma comprehension_total {A B} (f : A -> result B) (l : list A) :
  Forall (fun a => exists b, f a = Ok b) l -> exists bs, comprehension f l = Ok bs.
Proof.
  induction 1 as [|a l [b Hb] _ [bs IH]]; simpl; [now exists []|].
  rewrite Hb, IH. simpl. now exists (b :: bs).
Qed.


Lemma Forall2_In_r {A B} (P : A -> B -> Prop) (l : list A) (l' : list B) (b : B) :
  Forall2 P l l' -> In b l' -> exists a, In a l /\ P a b.
Proof.
  induction 1 as [|a b' l l' Hab _ IH]; intros Hin; [destruct Hin|].
  destruct Hin as [<- | Hin].
  - exists a. split; [now left | assumption].
  - destruct (IH Hin) as (a' & Ha' & Hp). exists a'. split; [now right | assumption].
Qed.

(** The specs the translator returns for a fetched snapshot. *)
Lemma translate_fetched :
  forall server ws wire d ws' wire' specs,
    fetch_tableau_workspace_data server ws wire = (Ok d, ws', wire') ->
    translate get_asset_spec d = Ok specs ->
    exists view_specs data_source_specs,
      specs = view_specs ++ data_source_specs /\
      Forall2
        (fun kc spec =>
           get_asset_spec d (snd kc) = Ok spec /\
           exists workbook_id w,
             getitem (properties (snd kc)) "workbook"
             = Ok (JObj [("luid", workbook_id)]) /\
             py_hash workbook_id = Ok w /\
             In w (dict_keys (workbooks_by_id d)) /\
             spec = {| asset_key := view_key (fst kc) w;
                       deps := dependency_keys
                                 (non_null_keys (mentions_of (properties (snd kc))));
                       metadata := properties (snd kc) |} /\
             Forall (fun k => In k (dict_keys (data_sources_by_id d)))
               (non_null_keys (mentions_of (properties (snd kc)))))
        (views_by_id d) view_specs /\
      Forall2
        (fun kc spec =>
           spec = {| asset_key := data_source_key (fst kc);
                     deps := [];
                     metadata := properties (snd kc) |})
        (data_sources_by_id d) data_source_specs.
Proof.
  intros server ws wire d ws' wire' specs H Htr. unfold translate in Htr.
  apply comprehension_app in Htr. destruct Htr as (vs & dss & -> & Hvs & Hdss).
  exists vs, dss. split; [reflexivity|]. split.
  - apply comprehension_Forall2, Forall2_of_map in Hvs.
    refine (Forall2_impl_In _ _ Hvs). intros [k c] spec Hin Hspec. simpl in *.
    split; [assumption|]. exact (get_asset_spec_view _ _ _ H _ _ Hin Hspec).
  - apply comprehension_Forall2, Forall2_of_map in Hdss.
    refine (Forall2_impl_In _ _ Hdss). intros [k c] spec Hin Hspec. simpl in *.
    rewrite (get_asset_spec_data_source _ _ _ H _ _ Hin) in Hspec.
    now injection Hspec as <-.
Qed.

Lemma translate_fetched_total :
  forall server ws wire d ws' wire',
    fetch_tableau_workspace_data server ws wire = (Ok d, ws', wire') ->
    Forall (fun kc => Forall null_or_truthy (mentions_of (properties (snd kc))))
      (views_by_id d) ->
    exists specs, translate get_asset_spec d = Ok specs.
Proof.
  intros server ws wire d ws' wire' H Hall. unfold translate.
  apply comprehension_total, Forall_app. unfold dict_values.
  split; apply Forall_map, Forall_forall.
  - intros [k c] Hin. rewrite Forall_forall in Hall.
    exact (get_asset_spec_view_total _ _ _ H _ _ Hin (Hall _ Hin)).
  - intros [k c] Hin. simpl.
    rewrite (get_asset_spec_data_source _ _ _ H _ _ Hin). eauto.
Qed.

Lemma dependency_keys_In (dep : AssetKey) (ids : list key) :
  In dep (dependency_keys ids) <-> exists k, In k ids /\ dep = data_source_key k.
Proof.
  unfold dependency_keys. rewrite first_seen_In, in_map_iff.
  split; intros (k & H1 & H2); exists k; auto.
Qed.



Lemma null_only_null_or_truthy (ms : list json) :
  Forall (fun m => getitem m "luid" = Ok JNull) ms -> Forall null_or_truthy ms.
Proof.
  apply Forall_impl. intros m H. exists JNull. split; [assumption | now left].
Qed.

Lemma fetched_no_null_data_source :
  forall server ws wire d ws' wire',
    fetch_tableau_workspace_data server ws wire = (Ok d, ws', wire') ->
    ~ In KNone (dict_keys (data_sources_by_id d)).
Proof.
  intros server ws wire d ws' wire' H.
  rewrite (fetched_data_sources_keys _ _ _ H), first_seen_In, luid_keys_In.
  intros (m & _ & Hm).
  apply luid_key_JObj in Hm. destruct Hm as (fields & luid & _ & _ & Ht & Hh).
  destruct luid; simpl in *; discriminate.
Qed.

(** C8: a published data source whose luid is null is passed over, by the
    fetch and by the translator. The scan neither raises nor registers
    anything for it, and no snapshot has an entry under the null id. For a
    view of a fetched snapshot whose data sources each have a null or a
    truthy luid, the translator returns a spec whose dependencies are the
    keys of the data sources with a truthy luid, each once: a null luid
    adds none, and with only such data sources, or with none at all, the
    dependency set is empty. Those are the only views the translator has
    a spec for, so a null luid never makes it raise. When every view is
    such, [build_asset_specs] returns: one spec per view and per data
    source, none of them under the null id. *)
Theorem null_data_source_skipped :
  (forall published_data_source_data data_sources_by_id,
      getitem published_data_source_data "luid" = Ok JNull ->
      scan_published_data_source published_data_source_data data_sources_by_id
      = Ok data_sources_by_id) /\
  (forall workbook_id view_data acc,
      passable view_data -> only_null_sources view_data ->
      scan_view workbook_id view_data acc
      = Ok {| workbooks := workbooks acc;
              views := record (views acc) (workbook_id, view_data);
              data_sources := data_sources acc |}) /\
  (forall server ws wire d ws' wire',
      fetch_tableau_workspace_data server ws wire = (Ok d, ws', wire') ->
      ~ In KNone (dict_keys (data_sources_by_id d)) /\
      (forall k c,
          In (k, c) (views_by_id d) ->
          Forall null_or_truthy (mentions_of (properties c)) ->
          exists spec,
            get_asset_spec d c = Ok spec /\
            external_id (asset_key spec) = k /\
            deps spec = dependency_keys (luid_keys (mentions_of (properties c))) /\
            ~ In (data_source_key KNone) (deps spec)) /\
      (forall k c,
          In (k, c) (views_by_id d) ->
          Forall (fun m => getitem m "luid" = Ok JNull) (mentions_of (properties c)) ->
          exists spec, get_asset_spec d c = Ok spec /\ deps spec = []) /\
      (forall k c,
          In (k, c) (views_by_id d) ->
          (exists spec, get_asset_spec d c = Ok spec) <->
          Forall null_or_truthy (mentions_of (properties c))) /\
      (Forall (fun kc => Forall null_or_truthy (mentions_of (properties (snd kc))))
         (views_by_id d) ->
       exists specs view_specs data_source_specs,
         build_asset_specs server get_asset_spec ws wire = (Ok specs, ws', wire') /\
         specs = view_specs ++ data_source_specs /\
         Forall2
           (fun kc spec =>
              get_asset_spec d (snd kc) = Ok spec /\
              external_id (asset_key spec) = fst kc /\
              deps spec
              = dependency_keys (luid_keys (mentions_of (properties (snd kc)))))
           (views_by_id d) view_specs /\
         Forall2
           (fun kc spec =>
              get_asset_spec d (snd kc) = Ok spec /\
              asset_key spec = data_source_key (fst kc) /\
              deps spec = [])
           (data_sources_by_id d) data_source_specs /\
         Forall (fun spec => asset_key spec <> data_source_key KNone) specs)).
Proof.
  split; [|split].
  - intros m ds. apply scan_published_null.
  - intros workbook_id view_data acc. apply scan_view_only_null_sources.
  - intros server ws wire d ws' wire' H.
    pose proof (fetched_no_null_data_source _ _ _ H) as Hnone.
    assert (Hview : forall k c,
               In (k, c) (views_by_id d) ->
               Forall null_or_truthy (mentions_of (properties c)) ->
               exists spec,
                 get_asset_spec d c = Ok spec /\
                 external_id (asset_key spec) = k /\
                 deps spec = dependency_keys (non_null_keys (mentions_of (properties c))) /\
                 deps spec = dependency_keys (luid_keys (mentions_of (properties c))) /\
                 ~ In (data_source_key KNone) (deps spec)).
    { intros k c Hin Hall.
      destruct (get_asset_spec_view_total _ _ _ H _ _ Hin Hall) as [spec Hspec].
      destruct (get_asset_spec_view _ _ _ H _ _ Hin Hspec)
        as (wid & w & _ & _ & _ & Hshape & Hkeys).
      exists spec. split; [assumption|]. subst spec. simpl.
      split; [reflexivity|]. split; [reflexivity|].
      split; [now rewrite (non_null_keys_luid_keys Hall)|].
      rewrite dependency_keys_In. intros (k' & Hk' & [= <-]).
      rewrite Forall_forall in Hkeys. apply Hnone. now apply Hkeys. }
    split; [assumption|]. split; [|split; [|split]].
    + intros k c Hin Hall.
      destruct (Hview _ _ Hin Hall) as (spec & Hspec & Hk & _ & Hdeps & Hno).
      now exists spec.
    + intros k c Hin Hnull.
      destruct (Hview _ _ Hin (null_only_null_or_truthy Hnull))
        as (spec & Hspec & _ & Hdeps & _).
      exists spec. split; [assumption|].
      now rewrite Hdeps, (non_null_keys_null Hnull).
    + intros k c Hin. split.
      * intros [spec Hspec]. exact (get_asset_spec_view_only _ _ _ H _ _ Hin Hspec).
      * exact (get_asset_spec_view_total _ _ _ H _ _ Hin).
    + intros Hall.
      destruct (translate_fetched_total _ _ _ H Hall) as [specs Htr].
      destruct (translate_fetched _ _ _ H Htr) as (vs & dss & -> & Hvs & Hdss).
      exists (vs ++ dss), vs, dss. split.
      { unfold build_asset_specs. rewrite H. simpl. now rewrite Htr. }
      split; [reflexivity|]. split; [|split].
      * refine (Forall2_impl_In _ _ Hvs).
        intros kc spec Hin (Hspec & wid & w & _ & _ & _ & -> & _). simpl.
        split; [assumption|]. split; [reflexivity|].
        rewrite Forall_forall in Hall. now rewrite (non_null_keys_luid_keys (Hall _ Hin)).
      * refine (Forall2_impl_In _ _ Hdss). intros [k c] spec Hin ->. simpl.
        split; [|split; reflexivity].
        exact (get_asset_spec_data_source _ _ _ H _ _ Hin).
      * apply Forall_app. split; apply Forall_forall; intros spec Hspec.
        -- destruct (Forall2_In_r _ Hvs Hspec)
             as (kc & _ & _ & wid & w & _ & _ & _ & -> & _).
           discriminate.
        -- destruct (Forall2_In_r _ Hdss Hspec) as ([k c] & Hin & ->). simpl.
           intros [= ->]. apply Hnone.
           apply in_map_iff. now exists (KNone, c).
Qed.

Lemma null_data_source_skipped_witness :
  scan_published_data_source Sample.nameless [] = Ok [] /\
  scan_view (JStr "wb-1") Sample.sheet_E empty_snapshot
  = Ok {| workbooks := [];
          views := record [] (JStr "wb-1", Sample.sheet_E);
          data_sources := [] |} /\
  scan_view (JStr "wb-1") Sample.bare_sheet empty_snapshot
  = Ok {| workbooks := [];
          views := record [] (JStr "wb-1", Sample.bare_sheet);
          data_sources := [] |} /\
  exists d ws' wire',
    fetch_tableau_workspace_data (Sample.serving Cases.mixed) Sample.workspace []
    = (Ok d, ws', wire') /\
    ~ In KNone (dict_keys (data_sources_by_id d)) /\
    (exists spec,
        get_asset_spec d (view_content (JStr "wb-1") Cases.sheet_H) = Ok spec /\
        external_id (asset_key spec) = KStr "view-h" /\
        deps spec = [data_source_key (KStr "ds-x")] /\
        ~ In (data_source_key KNone) (deps spec)) /\
    (exists spec,
        get_asset_spec d (view_content (JStr "wb-1") Sample.bare_sheet) = Ok spec /\
        deps spec = []) /\
    exists specs view_specs data_source_specs,
      build_asset_specs (Sample.serving Cases.mixed) get_asset_spec
        Sample.workspace []
      = (Ok specs, ws', wire') /\
      specs = view_specs ++ data_source_specs /\
      List.length view_specs = 2 /\ List.length data_source_specs = 1.
Proof.
  destruct null_data_source_skipped as (Hsource & Hview & Hfetch).
  split; [|split; [|split]].
  - apply Hsource. reflexivity.
  - apply (Hview (JStr "wb-1") Sample.sheet_E empty_snapshot).
    + exists (JStr "view-e"). split; [reflexivity|]. intros _.
      now exists (KStr "view-e").
    + eexists. split; [reflexivity|]. constructor; [|constructor].
      eexists. split; [reflexivity|]. constructor; [reflexivity | constructor].
  - apply (Hview (JStr "wb-1") Sample.bare_sheet empty_snapshot).
    + exists (JStr "view-f"). split; [reflexivity|]. intros _.
      now exists (KStr "view-f").
    + exists []. split; [reflexivity | constructor].
  - eexists _, _, _. split; [vm_compute; reflexivity|].
    destruct (Hfetch (Sample.serving Cases.mixed) Sample.workspace [] _ _ _
                ltac:(vm_compute; reflexivity))
      as (Hnone & Hdeps & Hnull & _ & Hbuild).
    assert (Hmixed : Forall null_or_truthy [Sample.nameless; Sample.X; Sample.nameless]).
    { repeat constructor.
      - exists JNull. split; [reflexivity | now left].
      - exists (JStr "ds-x"). split; [reflexivity | now right].
      - exists JNull. split; [reflexivity | now left]. }
    split; [exact Hnone|]. split; [|split].
    + destruct (Hdeps (KStr "view-h") (view_content (JStr "wb-1") Cases.sheet_H)
                  ltac:(left; reflexivity) Hmixed)
        as (spec & Hspec & Hk & Hd & Hno).
      exists spec. repeat split; assumption.
    + apply (Hnull (KStr "view-f") (view_content (JStr "wb-1") Sample.bare_sheet)).
      * right. left. reflexivity.
      * constructor.
    + destruct Hbuild as (specs & vs & dss & Hb & Hsplit & Hvs & Hdss & _).
      { constructor; [exact Hmixed|]. constructor; constructor. }
      exists specs, vs, dss. split; [exact Hb|]. split; [exact Hsplit|].
      split.
      * apply Forall2_length in Hvs. now rewrite <- Hvs.
      * apply Forall2_length in Hdss. now rewrite <- Hdss.
Defined.
